(** * CIVIC-OS: audit gate, falsifier engine, metrics and signed memory

    A shallow embedding of the Python sources under [src/civic_os]
    ([metrics.py], [falsifier_engine.py], [audit_gate.py], [signed_memory.py],
    [orchestrator.py]), the properties the specification states about them,
    and further properties of the code.

    Python values are a small universe [pyval]; a [str] is carried by its
    UTF-8 bytes; a [float] is a binary64 primitive float; a [dict] is an
    association list in insertion order.  Exceptions are explicit: a function
    that can raise returns in the [res] monad. *)

From Stdlib Require Import ZArith List String Ascii Bool Lia Floats.
From Stdlib Require Import Numbers.DecimalString.
From Stdlib Require Import Permutation.
From Stdlib Require DecimalFacts DecimalPos.
Import ListNotations.

Set Warnings "-inexact-float,-register-all".
Open Scope string_scope.
Open Scope list_scope.

(* ================================================================= *)
(** ** Python values *)

Module Py.

(** A [dict] with [str] keys, in insertion order. *)
Definition dict (V : Type) : Type := list (string * V).

Inductive pyval : Type :=
| PNone
| PBool (b : bool)
| PInt (z : Z)
| PFloat (f : float)
| PStr (s : string)
| PList (l : list pyval)
| PDict (d : dict pyval).

(** The exceptions the modelled code can raise. *)
Inductive exn : Type :=
| AttributeError (attr : string)
| JSONDecodeError
| UnicodeEncodeError
| UnicodeDecodeError.

Inductive res (A : Type) : Type :=
| Ok (a : A)
| Raise (e : exn).
Arguments Ok {A} a.
Arguments Raise {A} e.

Definition bind {A B} (m : res A) (k : A -> res B) : res B :=
  match m with
  | Ok a => k a
  | Raise e => Raise e
  end.

(** The text conversions of the interpreter that are taken as given:
    [repr(f)] of a finite float (used by [json.dumps] and [str]), [float(s)]
    and [int(s)] on a [str] ([None] when they raise), and the [repr] of a
    list or a dict. *)
Class PyText : Type := {
  float_repr : float -> string;
  float_of_str : string -> option float;
  int_of_str : string -> option Z;
  container_repr : pyval -> string
}.

(** The number of bytes that one read of the text layer takes from a file
    ([TextIOWrapper._CHUNK_SIZE], 8192 bytes in CPython), taken as given. *)
Class PyIO : Type := {
  chunk_size : positive
}.

(** [round(x, ndigits)] on a float, taken as given as well. *)
Class PyNum : Type := {
  round_ndigits : float -> Z -> float
}.

Fixpoint dict_get {V} (d : dict V) (k : string) : option V :=
  match d with
  | [] => None
  | (k', v) :: d' => if String.eqb k k' then Some v else dict_get d' k
  end.

(** [d[k] = v]: replaces the binding in place, or appends a new one. *)
Fixpoint dict_set {V} (d : dict V) (k : string) (v : V) : dict V :=
  match d with
  | [] => [(k, v)]
  | (k', v') :: d' =>
      if String.eqb k k' then (k', v) :: d' else (k', v') :: dict_set d' k v
  end.

(** [d.update(o)] *)
Definition dict_update {V} (d o : dict V) : dict V :=
  fold_left (fun acc kv => dict_set acc (fst kv) (snd kv)) o d.

(** [d.get(k)], with the default [None]. *)
Definition get (d : dict pyval) (k : string) : pyval :=
  match dict_get d k with
  | Some v => v
  | None => PNone
  end.

(** [bool(v)] *)
Definition truthy (v : pyval) : bool :=
  match v with
  | PNone => false
  | PBool b => b
  | PInt z => negb (z =? 0)%Z
  | PFloat f => negb (f =? 0)%float
  | PStr s => negb (s =? "")
  | PList l => match l with [] => false | _ => true end
  | PDict d => match d with [] => false | _ => true end
  end.

(** [a or b], both operands already evaluated. *)
Definition or_ (a b : pyval) : pyval := if truthy a then a else b.

(** [float(z)] on an [int]: the nearest binary64, ties to even;
    [OverflowError] (here [None]) when the result is not finite. *)
Definition float_of_Z (z : Z) : option float :=
  let f := SF2Prim (binary_normalize prec emax z 0 false) in
  if is_infinity f then None else Some f.

Definition string_of_nat (n : nat) : string :=
  NilZero.string_of_uint (Nat.to_uint n).

(** The loop [for a in l: if a not in acc: acc.append(a)]. *)
Fixpoint dedup_into (acc l : list string) : list string :=
  match l with
  | [] => acc
  | a :: l' =>
      dedup_into (if existsb (String.eqb a) acc then acc else acc ++ [a]) l'
  end.

(** [s.endswith(suf)] *)
Definition endswith (s suf : string) : bool :=
  let n := String.length s in
  let m := String.length suf in
  (m <=? n)%nat && (substring (n - m) m s =? suf).

(** The white space of [str.strip()], read off the UTF-8 bytes: the ASCII
    blanks and separators, U+0085, U+00A0, U+1680, U+2000..U+200A, U+2028,
    U+2029, U+202F, U+205F and U+3000. *)
Definition space1 (a : N) : bool :=
  ((9 <=? a) && (a <=? 13) || (28 <=? a) && (a <=? 32))%N.

Definition space2 (a b : N) : bool :=
  ((a =? 194) && ((b =? 133) || (b =? 160)))%N.

Definition space3 (a b c : N) : bool :=
  ((a =? 225) && (b =? 154) && (c =? 128)
   || (a =? 226) && (b =? 128)
      && ((128 <=? c) && (c <=? 138) || (c =? 168) || (c =? 169) || (c =? 175))
   || (a =? 226) && (b =? 129) && (c =? 159)
   || (a =? 227) && (b =? 128) && (c =? 128))%N.

(** [s.strip() == ""] *)
Fixpoint isblank (s : string) : bool :=
  match s with
  | EmptyString => true
  | String a s1 =>
      if space1 (N_of_ascii a) then isblank s1
      else
        match s1 with
        | EmptyString => false
        | String b s2 =>
            if space2 (N_of_ascii a) (N_of_ascii b) then isblank s2
            else
              match s2 with
              | EmptyString => false
              | String c s3 =>
                  if space3 (N_of_ascii a) (N_of_ascii b) (N_of_ascii c)
                  then isblank s3 else false
              end
        end
  end.

(** A [str] holds a lone surrogate (which only an escape of [json.loads] can
    put there): the three bytes that stand for it start with 0xED, followed by
    a byte from 0xA0 on. *)
Fixpoint has_surrogate (s : string) : bool :=
  match s with
  | String a (String b _ as s') =>
      ((N_of_ascii a =? 237) && (160 <=? N_of_ascii b))%N || has_surrogate s'
  | _ => false
  end.

(** [s.encode("utf-8")]: the bytes, which are the text itself. *)
Definition encode (s : string) : res string :=
  if has_surrogate s then Raise UnicodeEncodeError else Ok s.

(** [x.get(k)] on an arbitrary object: only a [dict] has the method. *)
Definition pget (x : pyval) (k : string) : res pyval :=
  match x with
  | PDict d => Ok (get d k)
  | _ => Raise (AttributeError "get")
  end.

(** [x1.get(k1) or x2.get(k2) or ...], operands evaluated left to right and
    only as far as needed. *)
Fixpoint or_chain (x : pyval * string) (xs : list (pyval * string)) : res pyval :=
  match pget (fst x) (snd x) with
  | Raise e => Raise e
  | Ok v =>
      match xs with
      | [] => Ok v
      | y :: ys => if truthy v then Ok v else or_chain y ys
      end
  end.

(** The exact integer value of a float with no fractional part. *)
Definition integral_value (f : float) : option Z :=
  match Prim2SF f with
  | S754_zero _ => Some 0%Z
  | S754_finite sg m e =>
      let z := if sg then Z.neg m else Z.pos m in
      if (0 <=? e)%Z then Some (z * 2 ^ e)%Z
      else if (Z.pos m mod 2 ^ (- e) =? 0)%Z then Some (z / 2 ^ (- e))%Z
      else None
  | _ => None
  end.

(** [a == b] between numbers: [bool] and [int] by value, an [int] and a
    [float] by exact value, two floats as IEEE 754 does. *)
Definition num_eq_Z_float (z : Z) (f : float) : bool :=
  match integral_value f with
  | Some z' => (z =? z')%Z
  | None => false
  end.

Definition Z_of_bool (b : bool) : Z := if b then 1%Z else 0%Z.

(** [a == b] *)
Fixpoint py_eq (a b : pyval) {struct a} : bool :=
  match a, b with
  | PNone, PNone => true
  | PBool x, PBool y => Bool.eqb x y
  | PBool x, PInt y => (Z_of_bool x =? y)%Z
  | PInt x, PBool y => (x =? Z_of_bool y)%Z
  | PBool x, PFloat y => num_eq_Z_float (Z_of_bool x) y
  | PFloat x, PBool y => num_eq_Z_float (Z_of_bool y) x
  | PInt x, PInt y => (x =? y)%Z
  | PInt x, PFloat y => num_eq_Z_float x y
  | PFloat x, PInt y => num_eq_Z_float y x
  | PFloat x, PFloat y => (x =? y)%float
  | PStr x, PStr y => String.eqb x y
  | PList la, PList lb =>
      (fix go (la lb : list pyval) {struct la} : bool :=
         match la, lb with
         | [], [] => true
         | x :: la', y :: lb' => py_eq x y && go la' lb'
         | _, _ => false
         end) la lb
  | PDict da, PDict db =>
      (List.length da =? List.length db)%nat
      && (fix go (da : dict pyval) {struct da} : bool :=
            match da with
            | [] => true
            | (k, v) :: da' =>
                match dict_get db k with
                | Some v' => py_eq v v'
                | None => false
                end && go da'
            end) da
  | _, _ => false
  end.

(** [int(v)], [None] when it raises. *)
Definition py_int `{PyText} (v : pyval) : option Z :=
  match v with
  | PBool b => Some (Z_of_bool b)
  | PInt z => Some z
  | PFloat f =>
      match Prim2SF f with
      | S754_zero _ => Some 0%Z
      | S754_finite sg m e =>
          let q := if (0 <=? e)%Z then (Z.pos m * 2 ^ e)%Z else (Z.pos m / 2 ^ (- e))%Z in
          Some (if sg then (- q)%Z else q)
      | _ => None
      end
  | PStr s => int_of_str s
  | PNone | PList _ | PDict _ => None
  end.

Definition string_of_Z (z : Z) : string :=
  NilZero.string_of_int (Z.to_int z).

Definition string_of_float `{PyText} (f : float) : string :=
  if is_nan f then "nan"
  else if is_infinity f then (if (f <? 0)%float then "-inf" else "inf")
  else float_repr f.

(** [str(v)], which is also how an f-string renders [{v}]. *)
Definition py_str `{PyText} (v : pyval) : string :=
  match v with
  | PNone => "None"
  | PBool b => if b then "True" else "False"
  | PInt z => string_of_Z z
  | PFloat f => string_of_float f
  | PStr s => s
  | PList _ | PDict _ => container_repr v
  end.

End Py.
Import Py.

Notation "x <- m ;; k" := (bind m (fun x => k))
  (at level 61, m at next level, right associativity).

(* ================================================================= *)
(** ** metrics.py *)

Module Metrics.

Definition _num `{PyText} (x : pyval) : option float :=
  match x with
  | PNone => None
  | PBool _ => None
  | PInt z => float_of_Z z
  | PFloat f => Some f
  | PStr s => float_of_str s
  | PList _ | PDict _ => None
  end.

Definition _pct_change (cur base : option float) : option float :=
  match cur, base with
  | Some c, Some b => if (b =? 0)%float then None else Some ((c - b) / abs b)%float
  | _, _ => None
  end.

Definition DEFAULT_REQUIRED_METRICS : list string :=
  [ "service_latency_median"; "service_latency_p90"; "throughput"; "error_rate";
    "transparency_coverage"; "citizen_burden_index"; "disparity_index" ].

Record MetricsValidation : Type := {
  ok : bool;
  missing : list string;
  non_numeric : list string;
  notes : list string
}.

Record MetricsDelta : Type := {
  current : dict pyval;
  baseline : option (dict pyval);
  absolute : dict (option float);
  pct : dict (option float);
  validation : MetricsValidation
}.

(** The object: [self.required_metrics]. *)
Definition init (required_metrics : option (list string)) : list string :=
  match required_metrics with
  | None | Some [] => DEFAULT_REQUIRED_METRICS
  | Some l => l
  end.

Section Methods.
Context `{PyText}.
Variable required_metrics : list string.

Definition is_metric_key (k : string) : bool :=
  existsb (String.eqb k) required_metrics
  || endswith k "_index" || endswith k "_rate" || endswith k "_coverage".

Definition normalize (raw : dict pyval) : dict pyval :=
  map (fun kv =>
         let '(k, v) := kv in
         if is_metric_key k then
           match _num v with
           | Some n => (k, PFloat n)
           | None => (k, v)
           end
         else (k, v)) raw.

Definition is_none (v : pyval) : bool :=
  match v with PNone => true | _ => false end.

Definition validate (cur : dict pyval) (base : option (dict pyval)) : MetricsValidation :=
  let missing :=
    filter (fun k => match dict_get cur k with
                     | None => true
                     | Some v => is_none v
                     end) required_metrics in
  let non_numeric :=
    filter (fun k => match dict_get cur k with
                     | None => false
                     | Some v => negb (is_none v)
                                 && match _num v with None => true | Some _ => false end
                     end) required_metrics in
  let notes :=
    match base with
    | None => ["Baseline missing: pct deltas may be unavailable. (OK for exploratory pilots.)"]
    | Some _ => []
    end in
  {| ok := match missing, non_numeric with [], [] => true | _, _ => false end;
     missing := missing;
     non_numeric := non_numeric;
     notes := notes |}.

(** The keys [set(list(cur.keys()) + list(base.keys()))]; the order in which
    Python visits a set is not specified, the one taken here is arbitrary. *)
Definition delta_keys (cur : dict pyval) (base : option (dict pyval)) : list string :=
  nodup string_dec
    (map fst cur ++ match base with Some b => map fst b | None => [] end).

Definition compute_deltas (current : dict pyval) (baseline : option (dict pyval)) : MetricsDelta :=
  let cur := normalize current in
  let base :=
    match baseline with
    | None | Some [] => None
    | Some b => Some (normalize b)
    end in
  let validation := validate cur base in
  let c k := _num (get cur k) in
  let b k := match base with
             | None | Some [] => None
             | Some bd => _num (get bd k)
             end in
  let keys := delta_keys cur base in
  {| current := cur;
     baseline := base;
     absolute :=
       map (fun k => (k, match c k, b k with
                         | Some x, Some y => Some (x - y)%float
                         | _, _ => None
                         end)) keys;
     pct := map (fun k => (k, _pct_change (c k) (b k))) keys;
     validation := validation |}.

End Methods.

End Metrics.

(* ================================================================= *)
(** ** falsifier_engine.py *)

Module FalsifierEngine.

Record MetricsSnapshot : Type := {
  current : dict pyval;
  baseline : option (dict pyval);
  window : string;
  metadata : dict pyval
}.

Record FalsifierHit : Type := {
  code : string;
  title : string;
  severity : string;
  evidence : dict pyval;
  recommendation : string
}.

Record FalsifierResult : Type := {
  timestamp_utc : string;
  verdict : string;
  hits : list FalsifierHit;
  summary : string;
  recommended_actions : list string;
  result_metadata : dict pyval
}.

(** [float(x)] inside [try ... except Exception: return None]. *)
Definition _num `{PyText} (x : pyval) : option float :=
  match x with
  | PNone => None
  | PBool b => Some (if b then 1 else 0)%float
  | PInt z => float_of_Z z
  | PFloat f => Some f
  | PStr s => float_of_str s
  | PList _ | PDict _ => None
  end.

Definition _pct_change (cur base : option float) : option float :=
  match cur, base with
  | Some c, Some b => if (b =? 0)%float then None else Some ((c - b) / abs b)%float
  | _, _ => None
  end.

(** The engine object: the threshold table after [__init__], and the flag. *)
Record engine : Type := {
  thresholds : dict float;
  require_baseline : bool
}.

Definition default_thresholds : dict float :=
  [ ("latency_improve", (-0.10)%float);
    ("error_worsen", 0.10%float);
    ("throughput_improve", 0.10%float);
    ("disparity_worsen", 0.05%float);
    ("transparency_min", 0.60%float);
    ("burden_worsen", 0.05%float);
    ("shadow_paperwork_worsen", 0.10%float) ].

Definition init (overrides : option (dict float)) (require_baseline : bool) : engine :=
  {| thresholds :=
       match overrides with
       | Some o => dict_update default_thresholds o
       | None => default_thresholds
       end;
     require_baseline := require_baseline |}.

(** [self.thresholds[k]]; the seven keys read by [evaluate] are always bound
    (lemma [init_binds_defaults]), so the [KeyError] branch is dead. *)
Definition thr (self : engine) (k : string) : float :=
  match dict_get (thresholds self) k with
  | Some v => v
  | None => nan
  end.

(** [not base] *)
Definition no_baseline (base : option (dict pyval)) : bool :=
  match base with
  | None | Some [] => true
  | Some _ => false
  end.

Section Evaluate.
Context `{PyText}.
Variable self : engine.
Variable snap : MetricsSnapshot.

Let cur := current snap.
Let base := baseline snap.

(** The local function [ch]. *)
Definition ch (key : string) : option float :=
  _pct_change (_num (get cur key))
    (match base with
     | Some b => if no_baseline base then None else _num (get b key)
     | None => None
     end).

Definition baseline_missing_hits : list FalsifierHit :=
  if require_baseline self && no_baseline base then
    [ {| code := "baseline_missing";
         title := "Baseline missing (cannot compute falsifiers reliably)";
         severity := "MEDIUM";
         evidence := [("window", PStr (window snap))];
         recommendation := "Provide baseline metrics (pre-change) or mark this as exploratory pilot only." |} ]
  else [].

Definition baseline_missing_actions : list string :=
  if require_baseline self && no_baseline base then
    [ "เติม baseline metrics ก่อนสรุปผล (หรือประกาศว่าเป็น pilot exploratory)" ]
  else [].

Definition latency_down_errors_up_fires : bool :=
  match ch "service_latency_median", ch "error_rate" with
  | Some latency_change, Some error_change =>
      (latency_change <=? thr self "latency_improve")%float
      && (thr self "error_worsen" <=? error_change)%float
  | _, _ => false
  end.

Definition latency_down_errors_up_hits : list FalsifierHit :=
  match ch "service_latency_median", ch "error_rate" with
  | Some latency_change, Some error_change =>
      if latency_down_errors_up_fires then
        [ {| code := "latency_down_errors_up";
             title := "Latency improved but error rate worsened (dashboard theatre risk)";
             severity := "HIGH";
             evidence := [("service_latency_median_change", PFloat latency_change);
                          ("error_rate_change", PFloat error_change)];
             recommendation := "Trigger rollback or tighten validation gates; optimize correctness before speed." |} ]
      else []
  | _, _ => []
  end.

Definition latency_down_errors_up_actions : list string :=
  if latency_down_errors_up_fires then
    [ "สั่งหยุดขยายผล (freeze rollout) และทำ rollback หากจำเป็น";
      "เพิ่ม Audit/Validation ขั้นกลางก่อนจุดอนุมัติ (ลด error ก่อนลดเวลา)" ]
  else [].

Definition throughput_up_disparity_up_fires : bool :=
  match ch "throughput", ch "disparity_index" with
  | Some throughput_change, Some disparity_change =>
      (thr self "throughput_improve" <=? throughput_change)%float
      && (thr self "disparity_worsen" <=? disparity_change)%float
  | _, _ => false
  end.

Definition throughput_up_disparity_up_hits : list FalsifierHit :=
  match ch "throughput", ch "disparity_index" with
  | Some throughput_change, Some disparity_change =>
      if throughput_up_disparity_up_fires then
        [ {| code := "throughput_up_disparity_up";
             title := "Throughput improved but disparity widened (fairness regression)";
             severity := "HIGH";
             evidence := [("throughput_change", PFloat throughput_change);
                          ("disparity_index_change", PFloat disparity_change)];
             recommendation := "Pause scaling; add equity constraints and re-run pilot with bias monitoring." |} ]
      else []
  | _, _ => []
  end.

Definition throughput_up_disparity_up_actions : list string :=
  if throughput_up_disparity_up_fires then
    [ "หยุด scale และใส่ equity constraints (สิทธิ/การเข้าถึง) เป็นเงื่อนไขบังคับ";
      "เพิ่ม monitoring แยกตามพื้นที่/กลุ่ม และตั้ง threshold disparity" ]
  else [].

Definition trans_cur : option float := _num (get cur "transparency_coverage").

Definition transparency_fires : bool :=
  match trans_cur with
  | Some t => (t <? thr self "transparency_min")%float
  | None => false
  end.

Definition transparency_hits : list FalsifierHit :=
  match trans_cur with
  | Some t =>
      if transparency_fires then
        [ {| code := "transparency_claims_unverifiable_logs";
             title := "Transparency coverage below minimum (claims not supportable)";
             severity := "MEDIUM";
             evidence := [("transparency_coverage", PFloat t);
                          ("min_required", PFloat (thr self "transparency_min"))];
             recommendation := "Increase traceability/logging coverage before claiming transparency improvements." |} ]
      else []
  | None => []
  end.

Definition transparency_actions : list string :=
  if transparency_fires then
    [ "เพิ่ม trace/log coverage ให้เกินเกณฑ์ขั้นต่ำก่อนประกาศความโปร่งใส" ]
  else [].

Definition shadow_paperwork_fires : bool :=
  match ch "shadow_paperwork_index" with
  | Some shadow_change => (thr self "shadow_paperwork_worsen" <=? shadow_change)%float
  | None => false
  end.

Definition shadow_paperwork_hits : list FalsifierHit :=
  match ch "shadow_paperwork_index" with
  | Some shadow_change =>
      if shadow_paperwork_fires then
        [ {| code := "shadow_paperwork_grows";
             title := "Shadow paperwork increased (work shifted outside the system)";
             severity := "HIGH";
             evidence := [("shadow_paperwork_index_change", PFloat shadow_change)];
             recommendation := "Stop rollout; redesign workflow to eliminate off-system steps; audit incentives." |} ]
      else []
  | None => []
  end.

Definition shadow_paperwork_actions : list string :=
  if shadow_paperwork_fires then
    [ "หยุด rollout และ map ขั้นตอนเงา (shadow steps) ออกมาให้ครบ";
      "ปรับ incentive/KPI ให้รางวัลกับ outcome ไม่ใช่การหลบระบบ" ]
  else [].

Definition citizen_burden_fires : bool :=
  match ch "citizen_burden_index" with
  | Some burden_change => (thr self "burden_worsen" <=? burden_change)%float
  | None => false
  end.

Definition citizen_burden_hits : list FalsifierHit :=
  match ch "citizen_burden_index" with
  | Some burden_change =>
      if citizen_burden_fires then
        [ {| code := "citizen_burden_up_after_digital";
             title := "Citizen burden increased after digitization (UX regression)";
             severity := "HIGH";
             evidence := [("citizen_burden_index_change", PFloat burden_change)];
             recommendation := "Rollback UX/process; reduce steps/docs/trips; validate with citizen journey tests." |} ]
      else []
  | None => []
  end.

Definition citizen_burden_actions : list string :=
  if citizen_burden_fires then
    [ "ทำ citizen journey test ใหม่ และลด steps/docs/trips ให้ชัด";
      "ตั้ง policy: digitization must reduce burden (ไม่งั้นถือว่าล้มเหลว)" ]
  else [].

Definition err_cur : option float := _num (get cur "error_rate").

Definition error_rate_extreme_fires : bool :=
  match err_cur with
  | Some e => (0.20 <=? e)%float
  | None => false
  end.

Definition error_rate_extreme_hits : list FalsifierHit :=
  match err_cur with
  | Some e =>
      if error_rate_extreme_fires then
        [ {| code := "error_rate_extreme";
             title := "Error rate extremely high (unsafe to scale)";
             severity := "HIGH";
             evidence := [("error_rate", PFloat e)];
             recommendation := "Do not scale. Add validation, training, and staged gates immediately." |} ]
      else []
  | None => []
  end.

Definition error_rate_extreme_actions : list string :=
  if error_rate_extreme_fires then
    [ "ห้าม scale; เพิ่ม validation/training และทำ staged rollout" ]
  else [].

(** The list [hits] when the verdict is decided, in append order. *)
Definition all_hits : list FalsifierHit :=
  baseline_missing_hits ++ latency_down_errors_up_hits
  ++ throughput_up_disparity_up_hits ++ transparency_hits
  ++ shadow_paperwork_hits ++ citizen_burden_hits ++ error_rate_extreme_hits.

Definition all_actions : list string :=
  baseline_missing_actions ++ latency_down_errors_up_actions
  ++ throughput_up_disparity_up_actions ++ transparency_actions
  ++ shadow_paperwork_actions ++ citizen_burden_actions
  ++ error_rate_extreme_actions.

Definition is_high (h : FalsifierHit) : bool := severity h =? "HIGH".

Definition evaluate (now : string) : FalsifierResult :=
  let hits := all_hits in
  let high_hits := filter is_high hits in
  let verdict := if (0 <? List.length high_hits)%nat then "FALSIFIED" else "OK" in
  let summary :=
    if verdict =? "FALSIFIED" then
      ("FALSIFIED — " ++ string_of_nat (List.length high_hits)
       ++ " high-severity falsifiers triggered. Rollout should be paused/rolled back.")%string
    else "OK — No high-severity falsifiers triggered. Continue staged monitoring." in
  {| timestamp_utc := now;
     verdict := verdict;
     hits := hits;
     summary := summary;
     recommended_actions := firstn 10 (dedup_into [] all_actions);
     result_metadata :=
       dict_update
         [ ("window", PStr (window snap));
           ("require_baseline", PBool (require_baseline self));
           ("thresholds", PDict (map (fun kv => (fst kv, PFloat (snd kv))) (thresholds self))) ]
         (metadata snap) |}.

End Evaluate.

(** [FalsifierResult.to_dict] *)
Definition to_dict (self : FalsifierResult) : dict pyval :=
  [ ("timestamp_utc", PStr (timestamp_utc self));
    ("verdict", PStr (verdict self));
    ("summary", PStr (summary self));
    ("recommended_actions", PList (map PStr (recommended_actions self)));
    ("hits",
     PList (map (fun h =>
                   PDict [ ("code", PStr (code h));
                           ("title", PStr (title h));
                           ("severity", PStr (severity h));
                           ("evidence", PDict (evidence h));
                           ("recommendation", PStr (recommendation h)) ])
              (hits self)));
    ("metadata", PDict (result_metadata self)) ].

End FalsifierEngine.

(* ================================================================= *)
(** ** audit_gate.py *)

Module AuditGate.

Record GateResult : Type := {
  gate : string;
  verdict : string;
  notes : list string;
  fixes : list string;
  score : float
}.

Record AuditReport : Type := {
  codex_id : string;
  timestamp_utc : string;
  overall_verdict : string;
  gate_results : list GateResult;
  summary : string;
  minimum_fixes : list string;
  metadata : dict pyval
}.

Record AuditContext : Type := {
  artifacts : dict pyval;
  ctx_metadata : dict pyval
}.

Definition _is_nonempty_str (x : pyval) : bool :=
  match x with
  | PStr s => negb (isblank s)
  | _ => false
  end.

Definition _as_list (x : pyval) : list pyval :=
  match x with
  | PNone => []
  | PList l => l
  | _ => [x]
  end.

Definition is_dict (x : pyval) : bool :=
  match x with PDict _ => true | _ => false end.

(** [_get(d, *path, default=default)]: the walk down [path], left as soon as
    the current value is no mapping or does not bind the next key. *)
Fixpoint _get (d : pyval) (path : list string) (default : pyval) : pyval :=
  match path with
  | [] => d
  | p :: path' =>
      match d with
      | PDict m =>
          match dict_get m p with
          | Some v => _get v path' default
          | None => default
          end
      | _ => default
      end
  end.

(** [len([f for f in l if _is_nonempty_str(f) or isinstance(f, dict)]) > 0] *)
Definition has_text (l : list pyval) : bool :=
  existsb (fun f => _is_nonempty_str f || is_dict f) l.

Definition _has_any_textual_evidence (es : pyval) : res bool :=
  facts <- or_chain (es, "Facts") [(es, "facts")] ;;
  if has_text (_as_list facts) then Ok true
  else
    sources <- or_chain (es, "Sources") [(es, "sources")] ;;
    if has_text (_as_list sources) then Ok true else Ok false.

Definition is_missing (val : pyval) : bool :=
  match val with
  | PNone => true
  | PStr s => isblank s
  | PList [] => true
  | PDict [] => true
  | _ => false
  end.

Definition _count_missing_required (required : list (string * pyval)) : list string :=
  map fst (filter (fun nv => is_missing (snd nv)) required).

Definition float_of_nat (n : nat) : float :=
  SF2Prim (binary_normalize prec emax (Z.of_nat n) 0 false).

(** [min(a, b)] and [max(a, b)] of the interpreter: the first argument
    unless the second compares strictly better. *)
Definition py_min (a b : float) : float := if (b <? a)%float then b else a.
Definition py_max (a b : float) : float := if (a <? b)%float then b else a.

Definition _score_from (missing : nat) (penalties : float) : float :=
  let score := (1.0 - py_min 1.0 (float_of_nat missing * 0.18 + penalties))%float in
  py_max 0.0 score.

Definition CODEX_ID : string := "CIVIC-OS-TH v1.0".

Definition missing_note (missing : list string) : string :=
  ("Missing required fields: " ++ String.concat ", " missing)%string.

Definition nonempty {A} (l : list A) : bool :=
  match l with [] => false | _ => true end.

Definition doc (artifacts : dict pyval) (name : string) : pyval :=
  or_ (get artifacts name) (PDict []).

(** Gate 1: Truth *)
Definition _truth_gate (artifacts : dict pyval) : res GateResult :=
  let es := doc artifacts "ES" in
  let fpf := doc artifacts "FPF" in
  let ds := doc artifacts "DS" in
  facts0 <- or_chain (es, "Facts") [(es, "facts")] ;;
  let facts := _as_list facts0 in
  assumptions0 <- or_chain (es, "Assumptions") [(es, "assumptions")] ;;
  let assumptions := _as_list assumptions0 in
  unknowns0 <- or_chain (es, "Unknowns") [(es, "unknowns")] ;;
  data_risks0 <- or_chain (es, "Data risks") [(es, "DataRisks"); (es, "data_risks")] ;;
  falsifiers0 <- or_chain (fpf, "Falsifiers") [(fpf, "falsifiers")] ;;
  let falsifiers := _as_list falsifiers0 in
  minimal_tests0 <-
    or_chain (fpf, "Minimal tests") [(fpf, "MinimalTests"); (fpf, "minimal_tests")] ;;
  let minimal_tests := _as_list minimal_tests0 in
  let required :=
    [ ("ES.Facts", PList facts);
      ("ES.Assumptions", PList assumptions);
      ("FPF.Falsifiers", PList falsifiers) ] in
  let missing := _count_missing_required required in
  let n1 := if nonempty missing then [missing_note missing] else [] in
  let f1 := if nonempty missing
            then ["เติม ES: แยก Facts/Assumptions ให้ชัด และใส่ FPF.Falsifiers อย่างน้อย 3 ข้อ"]
            else [] in
  evidence <- _has_any_textual_evidence es ;;
  let n2 := if evidence then []
            else ["Evidence looks weak: no sources or fact statements detected."] in
  let f2 := if evidence then []
            else ["เพิ่มหลักฐาน: ใส่ Facts ที่ตรวจสอบได้ + Sources (ลิงก์/เอกสาร/ข้อมูลตัวอย่าง)"] in
  options <- or_chain (ds, "Option A") [(ds, "OptionA"); (ds, "options")] ;;
  let narrative := truthy options && negb (nonempty facts) in
  let n3 := if narrative
            then ["Decisions exist but no facts listed — risk of narrative-driven decision."]
            else [] in
  let f3 := if narrative
            then ["ก่อนตัดสินใจ: ใส่ Facts อย่างน้อย 5 ข้อ + ระบุ Unknowns ที่สำคัญ"]
            else [] in
  let untested := nonempty falsifiers && negb (nonempty minimal_tests) in
  let n4 := if untested then ["Falsifiers exist but minimal tests not specified."] else [] in
  let f4 := if untested
            then ["เพิ่ม Minimal tests อย่างน้อย 3 ข้อเพื่อผูก Falsifiers กับการวัดผลจริง"]
            else [] in
  let score := _score_from (List.length missing) (if evidence then 0.0 else 0.2)%float in
  let verdict := if negb (nonempty missing) && evidence then "PASS" else "FAIL" in
  Ok {| gate := "Truth Gate"; verdict := verdict;
        notes := n1 ++ n2 ++ n3 ++ n4; fixes := f1 ++ f2 ++ f3 ++ f4;
        score := score |}.

(** The number of decision options of the Logic gate. *)
Definition options_count (optA optB optC options_list : pyval) : nat :=
  let n := ((if truthy optA then 1 else 0) + (if truthy optB then 1 else 0)
            + (if truthy optC then 1 else 0))%nat in
  match options_list with
  | PList l => Nat.max n (List.length l)
  | _ => n
  end.

(** Gate 2: Logic *)
Definition _logic_gate (artifacts : dict pyval) : res GateResult :=
  let wm := doc artifacts "WM" in
  let ds := doc artifacts "DS" in
  let fpf := doc artifacts "FPF" in
  causal <- or_chain (wm, "Causal structure")
              [(wm, "causal_structure"); (wm, "CausalStructure")] ;;
  loops0 <- or_chain (wm, "Loops") [(wm, "loops")] ;;
  let loops := _as_list loops0 in
  delays0 <- or_chain (wm, "Delays") [(wm, "delays")] ;;
  let delays := _as_list delays0 in
  bottlenecks0 <- or_chain (wm, "Bottlenecks") [(wm, "bottlenecks")] ;;
  let bottlenecks := _as_list bottlenecks0 in
  optA <- or_chain (ds, "Option A") [(ds, "OptionA")] ;;
  optB <- or_chain (ds, "Option B") [(ds, "OptionB")] ;;
  optC <- or_chain (ds, "Option C") [(ds, "OptionC")] ;;
  options_list <- pget ds "options" ;;
  let count := options_count optA optB optC options_list in
  levers0 <- or_chain (fpf, "Levers") [(fpf, "levers")] ;;
  let levers := _as_list levers0 in
  variables0 <- or_chain (fpf, "Variables") [(fpf, "variables")] ;;
  let variables := _as_list variables0 in
  let required :=
    [ ("WM.Causal structure", causal);
      ("FPF.Variables", PList variables);
      ("FPF.Levers", PList levers) ] in
  let missing := _count_missing_required required in
  let n1 := if nonempty missing then [missing_note missing] else [] in
  let f1 := if nonempty missing
            then ["เติม WM.Causal structure + FPF.Variables/Levers เพื่อให้เหตุผลครบวงจร"]
            else [] in
  let few := (count <? 2)%nat in
  let n2 := if few
            then ["Decision set has fewer than 2 options — weak counterfactual reasoning."]
            else [] in
  let f2 := if few
            then ["สร้างอย่างน้อย 2 ทางเลือก (Safe/Balanced/Aggressive) หรือระบุเหตุผลว่าทำไมมีทางเดียว"]
            else [] in
  let linear := negb (nonempty loops) && negb (nonempty delays) && negb (nonempty bottlenecks) in
  let n3 := if linear
            then ["World model lacks loops/delays/bottlenecks — risk of linear reasoning."]
            else [] in
  let f3 := if linear
            then ["เพิ่ม Loops/Delays/Bottlenecks อย่างน้อยอย่างละ 1 (หรืออธิบายว่าทำไมไม่มี)"]
            else [] in
  let score := _score_from (List.length missing) (if few then 0.15 else 0.0)%float in
  let verdict := if negb (nonempty missing) && (2 <=? count)%nat then "PASS" else "FAIL" in
  Ok {| gate := "Logic Gate"; verdict := verdict;
        notes := n1 ++ n2 ++ n3; fixes := f1 ++ f2 ++ f3; score := score |}.

(** Gate 3: Risk *)
Definition _risk_gate (artifacts : dict pyval) : res GateResult :=
  let ds := doc artifacts "DS" in
  let ap := doc artifacts "AP" in
  downside <- or_chain (ds, "Global downside bound")
                [(ds, "GlobalDownsideBound"); (ds, "DownsideBound")] ;;
  rollback <- or_chain (ds, "Rollback plan")
                [(ds, "Rollback"); (ap, "Rollback"); (ap, "rollback")] ;;
  kill_switch <- or_chain (ds, "Kill-switch")
                   [(ds, "KillSwitch"); (ap, "Kill-switch"); (ap, "KillSwitch")] ;;
  stages0 <- or_chain (ap, "Stages") [(ap, "stages"); (ap, "Steps"); (ap, "steps")] ;;
  let stages := _as_list stages0 in
  thresholds <- or_chain (ap, "Thresholds")
                  [(ap, "thresholds"); (ap, "Metrics & thresholds"); (ap, "metrics_thresholds")] ;;
  instrumentation <- or_chain (ap, "Instrumentation") [(ap, "instrumentation")] ;;
  let required :=
    [ ("DS.Global downside bound", downside);
      ("AP.Rollback", rollback);
      ("AP.Kill-switch", kill_switch) ] in
  let missing := _count_missing_required required in
  let n1 := if nonempty missing then [missing_note missing] else [] in
  let f1 := if nonempty missing
            then ["กำหนด Downside bound + Rollback + Kill-switch ให้ชัด (ห้าม deploy ถ้าไม่มี)"]
            else [] in
  let unstaged := negb (nonempty stages) in
  let n2 := if unstaged
            then ["Action plan has no stages — public rollouts should be staged by default."]
            else [] in
  let f2 := if unstaged
            then ["เพิ่ม Stages (Pilot → Limited rollout → Scale) พร้อมเกณฑ์ผ่านแต่ละด่าน"]
            else [] in
  let blind := negb (truthy thresholds) || negb (truthy instrumentation) in
  let n3 := if blind
            then ["Missing instrumentation/thresholds — cannot detect failure early."]
            else [] in
  let f3 := if blind
            then ["เพิ่ม Instrumentation + Metrics/Thresholds เพื่อให้ kill-switch ทำงานได้จริง"]
            else [] in
  let score := _score_from (List.length missing) (if unstaged then 0.15 else 0.0)%float in
  let verdict := if negb (nonempty missing) && nonempty stages then "PASS" else "FAIL" in
  Ok {| gate := "Risk Gate"; verdict := verdict;
        notes := n1 ++ n2 ++ n3; fixes := f1 ++ f2 ++ f3; score := score |}.

(** Gate 4: Bias *)
Definition _bias_gate (artifacts : dict pyval) : res GateResult :=
  let sm := doc artifacts "SM" in
  let es := doc artifacts "ES" in
  let ds := doc artifacts "DS" in
  actors0 <- or_chain (sm, "Actors & incentives") [(sm, "Actors"); (sm, "actors")] ;;
  let actors := _as_list actors0 in
  incentives0 <- or_chain (sm, "Incentives") [(sm, "incentives")] ;;
  let incentives := _as_list incentives0 in
  corruption0 <- or_chain (sm, "Corruption surfaces") [(sm, "corruption_surfaces")] ;;
  let corruption := _as_list corruption0 in
  hidden_costs0 <- or_chain (sm, "Hidden costs/externalities") [(sm, "hidden_costs")] ;;
  let hidden_costs := _as_list hidden_costs0 in
  let required :=
    [ ("SM.Actors/Incentives", PList (if nonempty actors then actors else incentives));
      ("SM.Corruption surfaces", PList corruption);
      ("SM.Hidden costs/externalities", PList hidden_costs) ] in
  let missing := _count_missing_required required in
  let n1 := if nonempty missing then [missing_note missing] else [] in
  let f1 := if nonempty missing
            then ["เติม System Map: Actors/Incentives + Hidden costs + Corruption surfaces เพื่อกัน bias เชิงอำนาจ"]
            else [] in
  facts0 <- or_chain (es, "Facts") [(es, "facts")] ;;
  let facts := _as_list facts0 in
  let thin := (List.length facts <? 3)%nat in
  drift <- (if thin
            then options <- or_chain (ds, "Option A") [(ds, "OptionA"); (ds, "options")] ;;
                 Ok (truthy options)
            else Ok false) ;;
  let n2 := if drift
            then ["Low fact count with active decisions — potential confirmation bias."]
            else [] in
  let f2 := if drift
            then ["เพิ่ม Facts/Unknowns และใส่ counterarguments อย่างน้อย 2 ข้อใน DS/WM"]
            else [] in
  let score := _score_from (List.length missing) (if thin then 0.1 else 0.0)%float in
  let verdict := if negb (nonempty missing) then "PASS" else "FAIL" in
  Ok {| gate := "Bias Gate"; verdict := verdict;
        notes := n1 ++ n2; fixes := f1 ++ f2; score := score |}.

(** Gate 5: Clarity *)
Definition _clarity_gate (artifacts : dict pyval) : res GateResult :=
  let ic := doc artifacts "IC" in
  let ap := doc artifacts "AP" in
  citizen_summary <-
    or_chain (PDict artifacts, "CitizenSummary")
      [(ic, "Citizen summary"); (ic, "citizen_summary");
       (ap, "Citizen summary"); (ap, "citizen_summary")] ;;
  goal <- or_chain (ic, "Goal") [(ic, "goal")] ;;
  deliverable <- or_chain (ic, "Deliverable") [(ic, "deliverable")] ;;
  success_metrics <- or_chain (ic, "Success metrics") [(ic, "success_metrics")] ;;
  checklist <- or_chain (ap, "Execution checklist") [(ap, "checklist"); (ap, "Checklist")] ;;
  let required :=
    [ ("IC.Goal", goal);
      ("IC.Deliverable", deliverable);
      ("IC.Success metrics", success_metrics) ] in
  let missing := _count_missing_required required in
  let n1 := if nonempty missing then [missing_note missing] else [] in
  let f1 := if nonempty missing
            then ["เติม IC: Goal/Deliverable/Success metrics เพื่อความชัดเจนระดับ 1 หน้า"]
            else [] in
  let nosummary := negb (_is_nonempty_str citizen_summary) in
  let n2 := if nosummary then ["Citizen-facing summary not found."] else [] in
  let f2 := if nosummary
            then ["เพิ่ม Citizen Summary (ย่อ 8–12 บรรทัด) อธิบายผลลัพธ์/ขั้นตอน/สิทธิอุทธรณ์"]
            else [] in
  let nochecklist := negb (truthy checklist) in
  let n3 := if nochecklist
            then ["Execution checklist missing — hard to operationalize."]
            else [] in
  let f3 := if nochecklist
            then ["เพิ่ม Execution checklist สำหรับเจ้าหน้าที่ (ขั้นตอนสั้น ๆ ใช้งานได้จริง)"]
            else [] in
  let score := _score_from (List.length missing)
                 (if truthy citizen_summary then 0.0 else 0.1)%float in
  let verdict := if negb (nonempty missing) && _is_nonempty_str citizen_summary
                 then "PASS" else "FAIL" in
  Ok {| gate := "Clarity Gate"; verdict := verdict;
        notes := n1 ++ n2 ++ n3; fixes := f1 ++ f2 ++ f3; score := score |}.

Definition is_pass (gr : GateResult) : bool := verdict gr =? "PASS".
Definition is_fail (gr : GateResult) : bool := verdict gr =? "FAIL".

Definition _summary (overall : string) (gate_results : list GateResult) : string :=
  if overall =? "PASS"
  then "PASS — All audit gates satisfied. Deployment permitted (staged execution still recommended)."
  else
    let failed := map gate (filter is_fail gate_results) in
    ("FAIL — Deployment blocked. Failed gates: " ++ String.concat ", " failed ++ ".")%string.

(** The loop that gathers the fixes of the failed gates. *)
Definition collect_fixes (gate_results : list GateResult) : list string :=
  fold_left (fun acc gr => if is_fail gr then dedup_into acc (fixes gr) else acc)
    gate_results [].

(** [AuditGate(strict).evaluate(ctx)]; [now] is the clock reading. *)
Definition evaluate (strict : bool) (now : string) (ctx : AuditContext) : res AuditReport :=
  let artifacts := artifacts ctx in
  let metadata := ctx_metadata ctx in
  truth <- _truth_gate artifacts ;;
  logic <- _logic_gate artifacts ;;
  risk <- _risk_gate artifacts ;;
  bias <- _bias_gate artifacts ;;
  clarity <- _clarity_gate artifacts ;;
  let gate_results := [truth; logic; risk; bias; clarity] in
  let overall := if forallb is_pass gate_results then "PASS" else "FAIL" in
  let fixes := collect_fixes gate_results in
  let summary := _summary overall gate_results in
  Ok {| codex_id := CODEX_ID;
        timestamp_utc := now;
        overall_verdict := overall;
        gate_results := gate_results;
        summary := summary;
        minimum_fixes := firstn 8 fixes;
        metadata := dict_update [("strict", PBool strict)] metadata |}.

(** [GateResult.to_dict] and [AuditReport.to_dict]. *)
Definition GateResult_to_dict `{PyNum} (self : GateResult) : dict pyval :=
  [ ("gate", PStr (gate self));
    ("verdict", PStr (verdict self));
    ("score", PFloat (round_ndigits (score self) 3));
    ("notes", PList (map PStr (notes self)));
    ("fixes", PList (map PStr (fixes self))) ].

Definition AuditReport_to_dict `{PyNum} (self : AuditReport) : dict pyval :=
  [ ("codex_id", PStr (codex_id self));
    ("timestamp_utc", PStr (timestamp_utc self));
    ("overall_verdict", PStr (overall_verdict self));
    ("summary", PStr (summary self));
    ("minimum_fixes", PList (map PStr (minimum_fixes self)));
    ("gate_results", PList (map (fun gr => PDict (GateResult_to_dict gr)) (gate_results self)));
    ("metadata", PDict (metadata self)) ].

End AuditGate.

(* ================================================================= *)
(** ** hashlib.sha256 and hmac (FIPS 180-4, RFC 2104), on bytes *)

Module Sha256.

Local Open Scope N_scope.

Definition mask32 : N := 0xFFFFFFFF.
Definition add32 (x y : N) : N := N.land (x + y) mask32.
Definition not32 (x : N) : N := N.lxor x mask32.
Definition rotr (n x : N) : N :=
  N.lor (N.shiftr x n) (N.land (N.shiftl x (32 - n)) mask32).

Definition Ch (x y z : N) : N := N.lxor (N.land x y) (N.land (not32 x) z).
Definition Maj (x y z : N) : N :=
  N.lxor (N.lxor (N.land x y) (N.land x z)) (N.land y z).
Definition Sigma0 (x : N) : N := N.lxor (N.lxor (rotr 2 x) (rotr 13 x)) (rotr 22 x).
Definition Sigma1 (x : N) : N := N.lxor (N.lxor (rotr 6 x) (rotr 11 x)) (rotr 25 x).
Definition sigma0 (x : N) : N := N.lxor (N.lxor (rotr 7 x) (rotr 18 x)) (N.shiftr x 3).
Definition sigma1 (x : N) : N := N.lxor (N.lxor (rotr 17 x) (rotr 19 x)) (N.shiftr x 10).

(** The constants are defined as the standard defines them: the first 32
    bits of the fractional parts of the cube roots (for [K]) and of the
    square roots (for [H0]) of the first primes. *)
Definition is_prime (n : nat) : bool :=
  forallb (fun d => negb (n mod d =? 0)%nat) (seq 2 (n - 2)).

Definition primes : list N := map N.of_nat (filter is_prime (seq 2 310)).

(** The integer cube root, one bit at a time from bit [bits - 1] down. *)
Fixpoint icbrt (bits : nat) (n r : N) : N :=
  match bits with
  | O => r
  | S bits' =>
      let r' := r + N.shiftl 1 (N.of_nat bits') in
      icbrt bits' n (if r' * r' * r' <=? n then r' else r)
  end.

Definition K : list N :=
  map (fun p => N.land (icbrt 36 (N.shiftl p 96) 0) mask32) primes.

Definition H0 : list N :=
  map (fun p => N.land (N.sqrt (N.shiftl p 64)) mask32) (firstn 8 primes).

(** One round on the working variables [a..h], with constant [k] and
    schedule word [w]. *)
Definition round (st : list N) (k w : N) : list N :=
  match st with
  | [a; b; c; d; e; f; g; h] =>
      let t1 := add32 (add32 (add32 h (Sigma1 e)) (add32 (Ch e f g) k)) w in
      let t2 := add32 (Sigma0 a) (Maj a b c) in
      [add32 t1 t2; a; b; c; add32 d t1; e; f; g]
  | _ => st
  end.

(** The 64 rounds; [win] holds the schedule words W[t..t+15]. *)
Fixpoint rounds (ks win st : list N) : list N :=
  match ks with
  | [] => st
  | k :: ks' =>
      let w0 := nth 0 win 0 in
      let wnew := add32 (add32 (sigma1 (nth 14 win 0)) (nth 9 win 0))
                        (add32 (sigma0 (nth 1 win 0)) w0) in
      rounds ks' (tl win ++ [wnew]) (round st k w0)
  end.

Definition compress (h block : list N) : list N :=
  map (fun p => add32 (fst p) (snd p)) (combine h (rounds K block h)).

(** Big-endian words of a byte list whose length is a multiple of 4. *)
Fixpoint words (bs : list N) : list N :=
  match bs with
  | b0 :: b1 :: b2 :: b3 :: bs' =>
      (N.shiftl b0 24 + N.shiftl b1 16 + N.shiftl b2 8 + b3) :: words bs'
  | _ => []
  end.

Definition be_bytes (n : nat) (x : N) : list N :=
  map (fun i => N.land (N.shiftr x (8 * N.of_nat i)) 0xFF) (rev (seq 0 n)).

Definition pad (msg : list N) : list N :=
  let len := N.of_nat (List.length msg) in
  let zeros := N.to_nat ((119 - len mod 64) mod 64) in
  msg ++ [0x80] ++ repeat 0 zeros ++ be_bytes 8 (8 * len).

Fixpoint blocks (n : nat) (ws h : list N) : list N :=
  match n with
  | O => h
  | S n' =>
      match ws with
      | [] => h
      | _ => blocks n' (skipn 16 ws) (compress h (firstn 16 ws))
      end
  end.

(** [hashlib.sha256(msg).digest()] *)
Definition digest (msg : list N) : list N :=
  let ws := words (pad msg) in
  flat_map (be_bytes 4) (blocks (List.length ws) ws H0).

Definition hexdigit (x : N) : ascii :=
  let d := x mod 16 in
  ascii_of_N (if d <? 10 then 48 + d else 87 + d).

Definition hex (bs : list N) : string :=
  fold_right (fun b s => String (hexdigit (b / 16)) (String (hexdigit (b mod 16)) s))
    EmptyString bs.

Definition bytes_of (s : string) : list N :=
  map N_of_ascii (list_ascii_of_string s).

(** [hmac.new(key, msg, hashlib.sha256).digest()] *)
Definition hmac (key msg : list N) : list N :=
  let key' := if (64 <? List.length key)%nat then digest key else key in
  let key'' := key' ++ repeat 0 (64 - List.length key')%nat in
  let ipad := map (N.lxor 0x36) key'' in
  let opad := map (N.lxor 0x5c) key'' in
  digest (opad ++ digest (ipad ++ msg)).

End Sha256.

(** The hex digests of a text given by its UTF-8 bytes. *)
Definition sha256_hex (s : string) : string :=
  Sha256.hex (Sha256.digest (Sha256.bytes_of s)).

Definition hmac_sha256_hex (secret : string) (msg : string) : string :=
  Sha256.hex (Sha256.hmac (Sha256.bytes_of secret) (Sha256.bytes_of msg)).

(** [_sha256_hex] and [_hmac_sha256_hex] of signed_memory.py; the secret is
    bytes already. *)
Definition _sha256_hex (s : string) : res string :=
  b <- encode s ;; Ok (sha256_hex b).

Definition _hmac_sha256_hex (secret : string) (msg : string) : res string :=
  b <- encode msg ;; Ok (hmac_sha256_hex secret b).

(* ================================================================= *)
(** ** json.dumps (as [_canonical_json] calls it) and json.loads *)

Module Json.

Definition dquote : ascii := ascii_of_N 34.
Definition backslash : ascii := ascii_of_N 92.
Definition chr (n : N) : string := String (ascii_of_N n) EmptyString.

Section WithText.
Context `{PyText}.

Local Open Scope string_scope.

(** *** Serialization: [ensure_ascii=False, sort_keys=True, separators=(",", ":")] *)

Definition hex2 (n : N) : string :=
  String (Sha256.hexdigit (n / 16)) (String (Sha256.hexdigit (n mod 16)) EmptyString).

Definition escape_byte (a : ascii) : string :=
  let n := N_of_ascii a in
  if (n =? 34)%N then String backslash (String dquote EmptyString)
  else if (n =? 92)%N then String backslash (String backslash EmptyString)
  else if (n =? 10)%N then String backslash "n"
  else if (n =? 13)%N then String backslash "r"
  else if (n =? 9)%N then String backslash "t"
  else if (n =? 8)%N then String backslash "b"
  else if (n =? 12)%N then String backslash "f"
  else if (n <? 32)%N then String backslash ("u00" ++ hex2 n)
  else String a EmptyString.

Fixpoint escape (s : string) : string :=
  match s with
  | EmptyString => EmptyString
  | String a s' => escape_byte a ++ escape s'
  end.

Definition quote (s : string) : string :=
  String dquote (escape s ++ String dquote EmptyString).

Definition dumps_float (f : float) : string :=
  if is_nan f then "NaN"
  else if is_infinity f then (if (f <? 0)%float then "-Infinity" else "Infinity")
  else float_repr f.

(** [sorted(items)] on the keys, by code point (which is the order of the
    UTF-8 bytes); stable. *)
Fixpoint insert_item {A} (x : string * A) (l : list (string * A)) : list (string * A) :=
  match l with
  | [] => [x]
  | y :: l' => if String.ltb (fst x) (fst y) then x :: l else y :: insert_item x l'
  end.

Definition sort_items {A} (l : list (string * A)) : list (string * A) :=
  fold_left (fun acc x => insert_item x acc) l [].

Fixpoint dumps (v : pyval) : string :=
  match v with
  | PNone => "null"
  | PBool b => if b then "true" else "false"
  | PInt z => string_of_Z z
  | PFloat f => dumps_float f
  | PStr s => quote s
  | PList l => "[" ++ String.concat "," (map dumps l) ++ "]"
  | PDict d =>
      "{" ++ String.concat ","
               (map (fun kv => quote (fst kv) ++ ":" ++ snd kv)
                  (sort_items (map (fun kv => (fst kv, dumps (snd kv))) d)))
          ++ "}"
  end.

(** *** Parsing *)

Definition is_ws (a : ascii) : bool :=
  let n := N_of_ascii a in ((n =? 32) || (n =? 9) || (n =? 10) || (n =? 13))%N.

Fixpoint skip_ws (s : string) : string :=
  match s with
  | String a s' => if is_ws a then skip_ws s' else s
  | EmptyString => s
  end.

Definition is_digit (a : ascii) : bool :=
  let n := N_of_ascii a in ((48 <=? n) && (n <=? 57))%N.

Definition hexval (a : ascii) : option N :=
  let n := N_of_ascii a in
  if ((48 <=? n) && (n <=? 57))%N then Some (n - 48)%N
  else if ((97 <=? n) && (n <=? 102))%N then Some (n - 87)%N
  else if ((65 <=? n) && (n <=? 70))%N then Some (n - 55)%N
  else None.

Definition hex4val (a b c d : ascii) : option N :=
  match hexval a, hexval b, hexval c, hexval d with
  | Some x, Some y, Some z, Some w => Some (((x * 16 + y) * 16 + z) * 16 + w)%N
  | _, _, _, _ => None
  end.

(** The UTF-8 bytes of a code point (a lone surrogate takes three bytes). *)
Definition utf8 (cp : N) : string :=
  (if cp <? 0x80 then chr cp
   else if cp <? 0x800 then chr (0xC0 + cp / 64) ++ chr (0x80 + cp mod 64)
   else if cp <? 0x10000 then
     chr (0xE0 + cp / 4096) ++ chr (0x80 + (cp / 64) mod 64) ++ chr (0x80 + cp mod 64)
   else
     chr (0xF0 + cp / 262144) ++ chr (0x80 + (cp / 4096) mod 64)
     ++ chr (0x80 + (cp / 64) mod 64) ++ chr (0x80 + cp mod 64))%N.

Definition is_high_surrogate (cp : N) : bool := ((0xD800 <=? cp) && (cp <=? 0xDBFF))%N.
Definition is_low_surrogate (cp : N) : bool := ((0xDC00 <=? cp) && (cp <=? 0xDFFF))%N.

(** The character that a one-letter escape stands for. *)
Definition simple_escape (e : ascii) : option N :=
  if Ascii.eqb e dquote then Some 34%N
  else if Ascii.eqb e backslash then Some 92%N
  else if Ascii.eqb e "/" then Some 47%N
  else if Ascii.eqb e "b" then Some 8%N
  else if Ascii.eqb e "f" then Some 12%N
  else if Ascii.eqb e "n" then Some 10%N
  else if Ascii.eqb e "r" then Some 13%N
  else if Ascii.eqb e "t" then Some 9%N
  else None.

(** The low surrogate of an escape [\uXXXX] that follows a high one. *)
Definition low_surrogate (hi : N) (b1 b2 l1 l2 l3 l4 : ascii) : option N :=
  if is_high_surrogate hi && Ascii.eqb b1 backslash && Ascii.eqb b2 "u" then
    match hex4val l1 l2 l3 l4 with
    | Some lo => if is_low_surrogate lo then Some lo else None
    | None => None
    end
  else None.

Definition prepend (t : string) (rest : option (string * string)) : option (string * string) :=
  match rest with
  | Some (t', r) => Some (t ++ t', r)
  | None => None
  end.

(** [scanstring], entered after the opening quote, in strict mode: the
    decoded text and what follows the closing quote. *)
Fixpoint scan_string (s : string) : option (string * string) :=
  match s with
  | EmptyString => None
  | String a s1 =>
      if Ascii.eqb a dquote then Some (EmptyString, s1)
      else if Ascii.eqb a backslash then
        match s1 with
        | EmptyString => None
        | String e s2 =>
            if Ascii.eqb e "u" then
              match s2 with
              | String h1 (String h2 (String h3 (String h4 s3))) =>
                  match hex4val h1 h2 h3 h4 with
                  | None => None
                  | Some hi =>
                      match s3 with
                      | String b1 (String b2 (String l1 (String l2 (String l3 (String l4 s4))))) =>
                          match low_surrogate hi b1 b2 l1 l2 l3 l4 with
                          | Some lo =>
                              prepend (utf8 (0x10000 + (hi - 0xD800) * 1024 + (lo - 0xDC00))%N)
                                (scan_string s4)
                          | None => prepend (utf8 hi) (scan_string s3)
                          end
                      | _ => prepend (utf8 hi) (scan_string s3)
                      end
                  end
              | _ => None
              end
            else
              match simple_escape e with
              | Some c => prepend (chr c) (scan_string s2)
              | None => None
              end
        end
      else if (N_of_ascii a <? 32)%N then None
      else prepend (String a EmptyString) (scan_string s1)
  end.

(** The longest prefix of digits, and the rest. *)
Fixpoint span_digits (s : string) : string * string :=
  match s with
  | String a s' =>
      if is_digit a then let '(ds, r) := span_digits s' in (String a ds, r)
      else (EmptyString, s)
  | EmptyString => (EmptyString, EmptyString)
  end.

Definition Z_of_digits (ds : string) : Z :=
  fold_left (fun acc a => (acc * 10 + Z.of_N (N_of_ascii a - 48))%Z)
    (list_ascii_of_string ds) 0%Z.

(** The integer part [0|[1-9][0-9]*]. *)
Definition scan_int_part (s : string) : option (string * string) :=
  match s with
  | String a s' =>
      if Ascii.eqb a "0" then Some ("0", s')
      else if is_digit a then Some (span_digits s)
      else None
  | EmptyString => None
  end.

(** The fraction [\.[0-9]+], if there is one. *)
Definition scan_frac (s : string) : string * string :=
  match s with
  | String a s' =>
      if Ascii.eqb a "." then
        match span_digits s' with
        | (EmptyString, _) => (EmptyString, s)
        | (ds, r) => (String a ds, r)
        end
      else (EmptyString, s)
  | EmptyString => (EmptyString, s)
  end.

(** The exponent [[eE][-+]?[0-9]+], if there is one. *)
Definition scan_exp (s : string) : string * string :=
  match s with
  | String a s' =>
      if Ascii.eqb a "e" || Ascii.eqb a "E" then
        let '(sg, s'') :=
          match s' with
          | String b t => if Ascii.eqb b "+" || Ascii.eqb b "-"
                          then (String b EmptyString, t) else (EmptyString, s')
          | EmptyString => (EmptyString, s')
          end in
        match span_digits s'' with
        | (EmptyString, _) => (EmptyString, s)
        | (ds, r) => (String a (sg ++ ds), r)
        end
      else (EmptyString, s)
  | EmptyString => (EmptyString, s)
  end.

(** What follows the prefix [p] of [s], when [s] starts with [p]. *)
Fixpoint starts_with (p s : string) : option string :=
  match p, s with
  | EmptyString, _ => Some s
  | String a p', String b s' => if Ascii.eqb a b then starts_with p' s' else None
  | String _ _, EmptyString => None
  end.

(** A number, [s] starting at its first character (after a minus sign when
    [neg]). *)
Definition scan_number (neg : bool) (s : string) : option (pyval * string) :=
  match scan_int_part s with
  | None => None
  | Some (ip, r1) =>
      let '(fp, r2) := scan_frac r1 in
      let '(ep, r3) := scan_exp r2 in
      match fp, ep with
      | EmptyString, EmptyString =>
          Some (PInt (if neg then - Z_of_digits ip else Z_of_digits ip)%Z, r3)
      | _, _ =>
          match float_of_str ((if neg then "-" else "") ++ ip ++ fp ++ ep) with
          | Some f => Some (PFloat f, r3)
          | None => None
          end
      end
  end.

Fixpoint parse_value (fuel : nat) (s : string) {struct fuel} : option (pyval * string) :=
  match fuel with
  | O => None
  | S fuel' =>
      match s with
      | EmptyString => None
      | String a s' =>
          if Ascii.eqb a dquote then
            match scan_string s' with
            | Some (t, r) => Some (PStr t, r)
            | None => None
            end
          else if Ascii.eqb a "{" then
            match skip_ws s' with
            | String b r =>
                if Ascii.eqb b "}" then Some (PDict [], r)
                else parse_members fuel' (String b r) []
            | EmptyString => None
            end
          else if Ascii.eqb a "[" then
            match skip_ws s' with
            | String b r =>
                if Ascii.eqb b "]" then Some (PList [], r)
                else parse_elements fuel' (String b r) []
            | EmptyString => None
            end
          else if Ascii.eqb a "n" then
            match starts_with "null" s with Some r => Some (PNone, r) | None => None end
          else if Ascii.eqb a "t" then
            match starts_with "true" s with Some r => Some (PBool true, r) | None => None end
          else if Ascii.eqb a "f" then
            match starts_with "false" s with Some r => Some (PBool false, r) | None => None end
          else if Ascii.eqb a "N" then
            match starts_with "NaN" s with Some r => Some (PFloat nan, r) | None => None end
          else if Ascii.eqb a "I" then
            match starts_with "Infinity" s with
            | Some r => Some (PFloat infinity, r)
            | None => None
            end
          else if Ascii.eqb a "-" then
            match starts_with "Infinity" s' with
            | Some r => Some (PFloat neg_infinity, r)
            | None => scan_number true s'
            end
          else scan_number false s
      end
  end

with parse_elements (fuel : nat) (s : string) (acc : list pyval) {struct fuel}
  : option (pyval * string) :=
  match fuel with
  | O => None
  | S fuel' =>
      match parse_value fuel' s with
      | None => None
      | Some (v, r) =>
          match skip_ws r with
          | String b r' =>
              if Ascii.eqb b "]" then Some (PList (acc ++ [v]), r')
              else if Ascii.eqb b "," then parse_elements fuel' (skip_ws r') (acc ++ [v])
              else None
          | EmptyString => None
          end
      end
  end

with parse_members (fuel : nat) (s : string) (acc : dict pyval) {struct fuel}
  : option (pyval * string) :=
  match fuel with
  | O => None
  | S fuel' =>
      match s with
      | String q s' =>
          if Ascii.eqb q dquote then
            match scan_string s' with
            | None => None
            | Some (k, r) =>
                match skip_ws r with
                | String c r1 =>
                    if Ascii.eqb c ":" then
                      match parse_value fuel' (skip_ws r1) with
                      | None => None
                      | Some (v, r2) =>
                          match skip_ws r2 with
                          | String b r3 =>
                              if Ascii.eqb b "}" then Some (PDict (dict_set acc k v), r3)
                              else if Ascii.eqb b ","
                              then parse_members fuel' (skip_ws r3) (dict_set acc k v)
                              else None
                          | EmptyString => None
                          end
                      end
                    else None
                | EmptyString => None
                end
            end
          else None
      | EmptyString => None
      end
  end.

(** [json.loads(s)]; [None] is [json.JSONDecodeError]. *)
Definition loads (s : string) : option pyval :=
  match parse_value (2 * String.length s + 2) (skip_ws s) with
  | Some (v, r) =>
      match skip_ws r with
      | EmptyString => Some v
      | _ => None
      end
  | None => None
  end.

End WithText.

End Json.

(* ================================================================= *)
(** ** Text files

    What [path.open("r", encoding="utf-8")] and the loop [for line in f]
    make of the bytes of a file.  The bytes are decoded strictly, a chunk at
    a time; the line ends [\r], [\r\n] and [\n] all come out as [\n]
    (universal newlines), and a line is given with the [\n] that ends it.
    [path.open("a", encoding="utf-8")] writes at the end of the bytes, and
    writes [\n] as it is (as on POSIX). *)

Module TextIO.

Definition CR : ascii := ascii_of_N 13.
Definition LF : ascii := ascii_of_N 10.

(** ["\n"] *)
Definition newline : string := String LF EmptyString.

(** The decoder between two bytes: at a character boundary, or inside a
    character, where the next byte must lie in [lo..hi] and [n] more
    continuation bytes follow it. *)
Inductive dstate : Type :=
| Boundary
| Expect (n : nat) (lo hi : N).

(** One byte.  [None]: the byte is refused (an invalid start byte or an
    invalid continuation byte; this excludes overlong forms, surrogates and
    code points beyond U+10FFFF). *)
Definition step (st : dstate) (c : N) : option dstate :=
  match st with
  | Boundary =>
      (if c <? 0x80 then Some Boundary
       else if c <? 0xC2 then None
       else if c <? 0xE0 then Some (Expect 0 0x80 0xBF)
       else if c =? 0xE0 then Some (Expect 1 0xA0 0xBF)
       else if c =? 0xED then Some (Expect 1 0x80 0x9F)
       else if c <? 0xF0 then Some (Expect 1 0x80 0xBF)
       else if c =? 0xF0 then Some (Expect 2 0x90 0xBF)
       else if c <? 0xF4 then Some (Expect 2 0x80 0xBF)
       else if c =? 0xF4 then Some (Expect 2 0x80 0x8F)
       else None)%N
  | Expect n lo hi =>
      if ((lo <=? c) && (c <=? hi))%N then
        Some (match n with
              | O => Boundary
              | S n' => Expect n' 0x80%N 0xBF%N
              end)
      else None
  end.

(** The decoder after the bytes of [s]; [None] when it refuses one. *)
Fixpoint run (st : dstate) (s : string) : option dstate :=
  match s with
  | EmptyString => Some st
  | String a s' =>
      match step st (N_of_ascii a) with
      | Some st' => run st' s'
      | None => None
      end
  end.

(** The bytes are the UTF-8 of a text: none is refused and the last
    character is whole. *)
Definition utf8_valid (s : string) : bool :=
  match run Boundary s with
  | Some Boundary => true
  | _ => false
  end.

(** A refused byte that the decoder does not refuse at once: after [0xED],
    a byte of [0xA0..0xBF] (the two start a surrogate) that ends the data fed
    so far is held as if the character were cut short, and refused with the
    next read. *)
Definition deferred (st : dstate) (c : N) : bool :=
  match st with
  | Expect 1 _ hi => ((hi =? 0x9F) && (0xA0 <=? c) && (c <=? 0xBF))%N
  | _ => false
  end.

(** The offset of the first byte that the decoder refuses, and whether it
    is one of those. *)
Fixpoint refused (st : dstate) (s : string) (pos : nat) : option (nat * bool) :=
  match s with
  | EmptyString => None
  | String a s' =>
      match step st (N_of_ascii a) with
      | Some st' => refused st' s' (S pos)
      | None => Some (pos, deferred st (N_of_ascii a))
      end
  end.

(** How many bytes the decoder has turned into characters when it has been
    fed the first [limit] bytes of [s]: those of the whole characters among
    them ([pos] is the offset of [s], [last] the last boundary seen). *)
Fixpoint released (st : dstate) (s : string) (limit pos last : nat) : nat :=
  match limit, s with
  | S limit', String a s' =>
      match step st (N_of_ascii a) with
      | Some Boundary => released Boundary s' limit' (S pos) (S pos)
      | Some st' => released st' s' limit' (S pos) last
      | None => last
      end
  | _, _ => last
  end.

(** The lines of a text, each with its line end translated to [\n], and
    what follows the last line end.  When the text is not [final] (more may
    follow), a [\r] at its end is held back: it may be half of a [\r\n]. *)
Fixpoint split_text (final : bool) (s : string) : list string * string :=
  match s with
  | EmptyString => ([], EmptyString)
  | String a s' =>
      if Ascii.eqb a CR then
        match s' with
        | EmptyString => if final then ([newline], EmptyString) else ([], EmptyString)
        | String b s'' =>
            let '(ls, r) := split_text final (if Ascii.eqb b LF then s'' else s') in
            (newline :: ls, r)
        end
      else if Ascii.eqb a LF then
        let '(ls, r) := split_text final s' in (newline :: ls, r)
      else
        let '(ls, r) := split_text final s' in
        match ls with
        | [] => ([], String a r)
        | l :: ls' => (String a l :: ls', r)
        end
  end.

(** The lines that the loop gets from a whole text: the last one may lack
    its line end. *)
Definition all_lines (s : string) : list string :=
  let '(ls, r) := split_text true s in
  match r with
  | EmptyString => ls
  | _ => ls ++ [r]
  end.

Section Reading.
Context `{PyIO}.

(** The bytes that the decoder has been fed before the call that raises:
    the chunks before the one that holds the refused byte (that chunk too
    when the byte ends it and is held, see [deferred]), or the whole file when
    the data end inside a character. *)
Definition fed (b : string) : nat :=
  match refused Boundary b 0 with
  | Some (q, late) =>
      let n := Pos.to_nat chunk_size in
      let start := (q / n) * n in
      let stop := Nat.min (start + n) (String.length b) in
      if late && (S q =? stop)%nat then stop else start
  | None => String.length b
  end.

(** [for line in f]: the lines that the loop gets, and whether the iteration
    then raises [UnicodeDecodeError] instead of ending.  On bytes that are
    not UTF-8 the loop gets the lines that are whole in what has been decoded
    before the chunk that cannot be. *)
Definition read_text (b : string) : list string * bool :=
  if utf8_valid b then (all_lines b, false)
  else (fst (split_text false (substring 0 (released Boundary b (fed b) 0 0) b)), true).

End Reading.

End TextIO.

(* ================================================================= *)
(** ** signed_memory.py *)

Module SignedMemory.

Record SignedEntry : Type := {
  run_id : string;
  seq : Z;
  event : string;
  payload : dict pyval;
  timestamp_utc : string;
  prev_hash : string;
  hash : string;
  signature : string
}.

Definition to_dict (self : SignedEntry) : dict pyval :=
  [ ("run_id", PStr (run_id self));
    ("seq", PInt (seq self));
    ("event", PStr (event self));
    ("timestamp_utc", PStr (timestamp_utc self));
    ("prev_hash", PStr (prev_hash self));
    ("hash", PStr (hash self));
    ("signature", PStr (signature self));
    ("payload", PDict (payload self)) ].

(** The log file at [self.path]: absent, or its bytes. *)
Definition file : Type := option string.

Definition content (f : file) : string :=
  match f with
  | Some b => b
  | None => EmptyString
  end.

(** The object: [self._secret], [self._seq], [self._prev_hash]. *)
Record memory : Type := {
  _secret : option string;
  _seq : Z;
  _prev_hash : string
}.

Section WithText.
Context `{PyText} `{PyIO}.

Definition _canonical_json (obj : pyval) : string := Json.dumps obj.

(** The last line that is not blank. *)
Definition last_line (lines : list string) : option string :=
  fold_left (fun last line => if isblank line then last else Some line) lines None.

(** The body of the [try] of [_load_tail]; [None] when it raises. *)
Definition tail_state (line : string) : option (Z * string) :=
  match Json.loads line with
  | Some (PDict obj) =>
      match py_int (match dict_get obj "seq" with Some v => v | None => PInt 0 end) with
      | Some n =>
          Some ((n + 1)%Z,
                py_str (match dict_get obj "hash" with Some v => v | None => PStr "" end))
      | None => None
      end
  | _ => None
  end.

(** [_load_tail]: the pair [(self._seq, self._prev_hash)] it leaves.  The
    file is read through before the [try]: bytes that are not UTF-8 make the
    loop, and so the constructor, raise. *)
Definition _load_tail (f : file) : res (Z * string) :=
  match f with
  | None => Ok (0%Z, "")
  | Some b =>
      let '(lines, raised) := TextIO.read_text b in
      if raised then Raise UnicodeDecodeError
      else
        Ok match last_line lines with
           | None | Some EmptyString => (0%Z, "")
           | Some line =>
               match tail_state line with
               | Some st => st
               | None => (0%Z, "")
               end
           end
  end.

(** [SignedMemory(run_dir)], with the value of [SIGNING_SECRET] in the
    environment ([""] when it is not set). *)
Definition init (signing_secret : string) (f : file) : res memory :=
  st <- _load_tail f ;;
  Ok {| _secret := if signing_secret =? "" then None else Some signing_secret;
        _seq := fst st;
        _prev_hash := snd st |}.

Definition _compute_hash (entry_dict : dict pyval) : res string :=
  let d := dict_set entry_dict "signature" (PStr "") in
  _sha256_hex (_canonical_json (PDict d)).

Definition _compute_signature (self : memory) (entry_hash : string) : res string :=
  match _secret self with
  | None => Ok ""
  | Some secret => _hmac_sha256_hex secret entry_hash
  end.

(** [append]: the file afterwards, and either the exception raised or the
    object afterwards and the entry returned.  Opening the file for appending
    creates it; the text (the canonical JSON and a newline, which is written
    as it is where the line separator of the system is [\n]) is encoded
    before anything is written, and goes to the end of the bytes. *)
Definition append (self : memory) (f : file) (entry : SignedEntry)
  : file * res (memory * SignedEntry) :=
  let entry1 :=
    {| run_id := run_id entry; seq := _seq self; event := event entry;
       payload := payload entry; timestamp_utc := timestamp_utc entry;
       prev_hash := _prev_hash self; hash := hash entry;
       signature := signature entry |} in
  let entry_dict := to_dict entry1 in
  match (h <- _compute_hash entry_dict ;;
         sg <- _compute_signature self h ;;
         Ok (h, sg)) with
  | Raise e => (f, Raise e)
  | Ok (h, sg) =>
      let entry2 :=
        {| run_id := run_id entry1; seq := seq entry1; event := event entry1;
           payload := payload entry1; timestamp_utc := timestamp_utc entry1;
           prev_hash := prev_hash entry1; hash := h; signature := sg |} in
      match encode (_canonical_json (PDict (to_dict entry2)) ++ TextIO.newline)%string with
      | Raise e => (Some (content f), Raise e)
      | Ok text =>
          (Some (content f ++ text)%string,
           Ok ({| _secret := _secret self; _seq := (_seq self + 1)%Z;
                  _prev_hash := hash entry2 |},
               entry2))
      end
  end.

(** The loop variables of [verify_chain]. *)
Record vstate : Type := {
  checked : nat;
  v_prev_hash : pyval;
  bad : nat;
  notes : list string
}.

(** [obj.get(k, default)] *)
Definition get_default (d : dict pyval) (k : string) (default : pyval) : pyval :=
  match dict_get d k with
  | Some v => v
  | None => default
  end.

Definition seq_note (what : string) (obj : dict pyval) : string :=
  (what ++ " mismatch at seq=" ++ py_str (get obj "seq"))%string.

(** One turn of the loop of [verify_chain] on a line. *)
Definition verify_line (self : memory) (st : vstate) (line : string) : res vstate :=
  if isblank line then Ok st
  else
    match Json.loads line with
    | None => Raise JSONDecodeError
    | Some (PDict obj) =>
        let chain_bad := negb (py_eq (get_default obj "prev_hash" (PStr "")) (v_prev_hash st)) in
        let recompute := dict_set obj "signature" (PStr "") in
        expected_hash <- _sha256_hex (_canonical_json (PDict recompute)) ;;
        let hash_bad := negb (py_eq (get obj "hash") (PStr expected_hash)) in
        sig_bad <-
          match _secret self with
          | Some secret =>
              expected_sig <- _hmac_sha256_hex secret expected_hash ;;
              Ok (negb (py_eq (get obj "signature") (PStr expected_sig)))
          | None => Ok false
          end ;;
        Ok {| checked := S (checked st);
              v_prev_hash := get_default obj "hash" (PStr "");
              bad := bad st + (if chain_bad then 1 else 0) + (if hash_bad then 1 else 0)
                     + (if sig_bad then 1 else 0);
              notes := notes st
                       ++ (if chain_bad then [seq_note "Chain" obj] else [])
                       ++ (if hash_bad then [seq_note "Hash" obj] else [])
                       ++ (if sig_bad then [seq_note "Signature" obj] else []) |}
    | Some _ => Raise (AttributeError "get")
    end.

Fixpoint verify_lines (self : memory) (st : vstate) (lines : list string) : res vstate :=
  match lines with
  | [] => Ok st
  | line :: lines' =>
      match verify_line self st line with
      | Ok st' => verify_lines self st' lines'
      | Raise e => Raise e
      end
  end.

Definition has_secret (self : memory) : bool :=
  match _secret self with Some _ => true | None => false end.

(** [verify_chain]: the report, a dict.  The loop runs on the lines as the
    file gives them; when the bytes are not UTF-8 the iteration raises once
    the lines before the chunk that cannot be decoded are done. *)
Definition verify_chain (self : memory) (f : file) : res (dict pyval) :=
  match f with
  | None =>
      Ok [ ("ok", PBool true); ("checked", PInt 0);
           ("notes", PList [PStr "No log found."]) ]
  | Some b =>
      let '(lines, raised) := TextIO.read_text b in
      match verify_lines self
              {| checked := 0; v_prev_hash := PStr ""; bad := 0; notes := [] |} lines with
      | Raise e => Raise e
      | Ok st =>
          if raised then Raise UnicodeDecodeError
          else
            Ok [ ("ok", PBool (bad st =? 0)%nat);
                 ("checked", PInt (Z.of_nat (checked st)));
                 ("bad", PInt (Z.of_nat (bad st)));
                 ("notes", PList (map PStr (firstn 20 (notes st))));
                 ("signature_enabled", PBool (has_secret self)) ]
      end
  end.

End WithText.

End SignedMemory.

(* ================================================================= *)
(** ** orchestrator.py *)

Module Orchestrator.

Record RunInput : Type := {
  task : string;
  artifacts : dict pyval;
  metrics_current : option (dict pyval);
  metrics_baseline : option (dict pyval);
  window : string;
  domain : string
}.

Record RunResult : Type := {
  run_id : string;
  audit_overall : pyval;
  falsifier_verdict : pyval;
  outputs : dict pyval;
  run_dir : string
}.

(** The object: [self.run_root], the flag of [self.audit_gate] and
    [self.falsifier_engine]. *)
Record orchestrator : Type := {
  run_root : string;
  strict_audit : bool;
  falsifier_engine : FalsifierEngine.engine
}.

Definition CODEX_ID : string := "CIVIC-OS-TH v1.0".

Definition init (run_root : string) (strict_audit require_baseline_for_falsifiers : bool)
  : orchestrator :=
  {| run_root := run_root;
     strict_audit := strict_audit;
     falsifier_engine := FalsifierEngine.init None require_baseline_for_falsifiers |}.

(** The documents that [_ensure_minimum_artifacts] puts in for the missing
    ones. *)
Definition seed_IC (task : string) : dict pyval :=
  [ ("Goal", PStr task);
    ("Deliverable", PStr "A staged reform/service redesign plan with measurable outcomes");
    ("Constraints",
     PList [ PStr "Legality";
            PStr "Due process";
            PStr "Auditability";
            PStr "Rollback-by-default" ]);
    ("Success metrics",
     PList [ PStr "service_latency_median";
            PStr "service_latency_p90";
            PStr "error_rate";
            PStr "transparency_coverage";
            PStr "citizen_burden_index";
            PStr "disparity_index" ]);
    ("Citizen summary",
     PStr ("This change aims to reduce time and burden for citizens while keeping"
            ++ " decisions fair and traceable. We will roll out in stages (pilot →"
            ++ " limited rollout → scale) and publish outcome metrics. If errors,"
            ++ " appeals, or inequality worsen, we pause and roll back.")%string) ].

Definition seed_ES : dict pyval :=
  [ ("Facts", PList [ PStr "Baseline metrics exist or will be collected in pilot." ]);
    ("Assumptions",
     PList [ PStr "Digitization reduces burden if steps are removed, not replicated." ]);
    ("Unknowns",
     PList [ PStr "Frontline workload shift risk";
            PStr "Disparity changes by region" ]);
    ("Sources", PList []);
    ("Data risks", PList [ PStr "Sampling bias"; PStr "Gaming KPIs" ]) ].

Definition seed_FPF : dict pyval :=
  [ ("Axioms",
     PList [ PStr "Incentives shape behavior more than slogans.";
            PStr "What is not measured becomes theatre." ]);
    ("Invariants", PList [ PStr "Time/attention finite"; PStr "Trust fragile" ]);
    ("Variables",
     PList [ PStr "queue_size";
            PStr "review_capacity";
            PStr "validation_rules";
            PStr "appeal_load" ]);
    ("Levers",
     PList [ PStr "staged_rollout";
            PStr "midpoint_validation";
            PStr "simplify_steps";
            PStr "trace_logging" ]);
    ("Falsifiers",
     PList [ PStr "Latency down but errors/appeals up";
            PStr "Throughput up but disparity up";
            PStr "Citizen burden increases after 'digital'" ]);
    ("Minimal tests",
     PList [ PStr "Pilot in 1-2 districts, measure p90 latency + error_rate";
            PStr "A/B test simplified steps vs existing";
            PStr "Equity monitoring by region/group" ]) ].

Definition seed_WM : dict pyval :=
  [ ("Causal structure",
     PStr "Queue + capacity + validation quality determine latency and error rate.");
    ("Loops", PList [ PStr "Rework loop: errors increase rework which increases latency" ]);
    ("Delays", PList [ PStr "Policy changes reflect in metrics with 2-4 week lag" ]);
    ("Bottlenecks", PList [ PStr "Review step" ]);
    ("Constraints", PList [ PStr "Legal due process"; PStr "Staff capacity" ]) ].

Definition seed_SM : dict pyval :=
  [ ("Boundary", PStr "Service delivery workflow and approvals");
    ("Actors & incentives",
     PList [ PStr "Citizens: want fast + fair";
            PStr "Frontline staff: workload + risk avoidance";
            PStr "Managers: KPI + reputation" ]);
    ("Hidden costs/externalities",
     PList [ PStr "Shadow paperwork";
            PStr "Increased appeals load" ]);
    ("Feedback loops/delays",
     PList [ PStr "Errors → appeals → delays → public trust drop" ]);
    ("Corruption surfaces", PList [ PStr "Discretion points without logs" ]);
    ("Capacity constraints", PList [ PStr "Review staff count"; PStr "IT throughput" ]) ].

Definition seed_DS : dict pyval :=
  [ ("Option A",
     PDict [ ("name", PStr "Safe");
             ("description", PStr "Pilot only with strict validation and manual oversight.");
             ("Downside", PStr "Slower improvement");
             ("Triggers/Kill-switch",
              PStr "If error_rate +10% or disparity +5% => pause/rollback") ]);
    ("Option B",
     PDict [ ("name", PStr "Balanced");
             ("description",
              PStr "Pilot + limited rollout with automated checks and public dashboards.");
             ("Downside", PStr "Moderate risk");
             ("Triggers/Kill-switch",
              PStr "If p90 latency not improved within 4 weeks => revise levers") ]);
    ("Option C",
     PDict [ ("name", PStr "Aggressive");
             ("description",
              PStr "Fast scale with automation; only if audit gates pass strongly.");
             ("Downside", PStr "High risk of hidden failures");
             ("Triggers/Kill-switch",
              PStr "Any audit FAIL or falsifier HIGH => freeze immediately") ]);
    ("Global downside bound",
     PStr "No scaling if any HIGH falsifier triggers; rollback to last stable stage.");
    ("Rollback plan",
     PStr "Revert to prior workflow + keep logs; rerun pilot with revised constraints.");
    ("Kill-switch", PStr "Immediate freeze of rollout; route new cases to safe path.") ].

Definition seed_AP : dict pyval :=
  [ ("Stages", PList [ PStr "Pilot"; PStr "Limited rollout"; PStr "Scale" ]);
    ("Instrumentation",
     PStr "Collect latency/error/appeal/burden/disparity + trace logs per step.");
    ("Metrics & thresholds",
     PDict [ ("error_rate", PStr "must not increase >10%");
             ("disparity_index", PStr "must not increase >5%");
             ("transparency_coverage", PStr "must be >= 0.60") ]);
    ("Rollback",
     PStr "If thresholds breached, revert to previous stage and publish incident note.");
    ("Kill-switch", PStr "Freeze scaling; revert routing to pilot-safe workflow.");
    ("Execution checklist",
     PList [ PStr "Define baseline metrics (median/p90 latency, error_rate, burden, disparity)";
            PStr "Enable trace logging for all decision points";
            PStr "Run weekly audit review meeting (Verifier can veto)" ]);
    ("Citizen summary",
     PStr ("We are improving the service in stages. We will publish metrics and keep"
            ++ " decisions traceable. If quality, fairness, or burden worsens, we stop"
            ++ " and roll back.")%string) ].

(** [if name not in artifacts: artifacts[name] = body] *)
Definition seed (artifacts : dict pyval) (name : string) (body : dict pyval) : dict pyval :=
  match dict_get artifacts name with
  | None => dict_set artifacts name (PDict body)
  | Some _ => artifacts
  end.

Definition _ensure_minimum_artifacts (task : string) (artifacts : dict pyval) : dict pyval :=
  let artifacts := seed artifacts "IC" (seed_IC task) in
  let artifacts := seed artifacts "ES" seed_ES in
  let artifacts := seed artifacts "FPF" seed_FPF in
  let artifacts := seed artifacts "WM" seed_WM in
  let artifacts := seed artifacts "SM" seed_SM in
  let artifacts := seed artifacts "DS" seed_DS in
  let artifacts := seed artifacts "AP" seed_AP in
  artifacts.

(** *** [run]

    What [run] touches outside its arguments: the signed log of the run
    directory and the clock.  [clock n] is the [n]-th reading of the clock
    ([_now_utc_iso()]) during the call; [joinpath a b] is [str(Path(a) / b)];
    the run identifier ([uuid.uuid4().hex[:12]]) and the value of
    [SIGNING_SECRET] are given. *)
Record world : Type := {
  log : SignedMemory.file;
  ticks : nat
}.

Definition M (A : Type) : Type := world -> world * res A.

Definition ret {A} (a : A) : M A := fun w => (w, Ok a).

Definition mbind {A B} (m : M A) (k : A -> M B) : M B :=
  fun w =>
    match m w with
    | (w', Ok a) => k a w'
    | (w', Raise e) => (w', Raise e)
    end.

Notation "x <~ m ;; k" := (mbind m (fun x => k))
  (at level 61, m at next level, right associativity).

Section Run.
Context `{PyText} `{PyNum} `{PyIO}.
Variable joinpath : string -> string -> string.
Variable clock : nat -> string.

Definition _now_utc_iso : M string :=
  fun w => ({| log := log w; ticks := S (ticks w) |}, Ok (clock (ticks w))).

(** [SignedEntry(run_id=run_id, seq=0, event=event, payload=payload)]: the
    time stamp is read when the entry is built. *)
Definition SignedEntry (run_id event : string) (payload : dict pyval)
  : M SignedMemory.SignedEntry :=
  t <~ _now_utc_iso ;;
  ret {| SignedMemory.run_id := run_id; SignedMemory.seq := 0;
         SignedMemory.event := event; SignedMemory.payload := payload;
         SignedMemory.timestamp_utc := t; SignedMemory.prev_hash := "";
         SignedMemory.hash := ""; SignedMemory.signature := "" |}.

(** [SignedMemory(run_dir=str(run_dir))] on the log of the run. *)
Definition mem_open (signing_secret : string) : M SignedMemory.memory :=
  fun w => (w, SignedMemory.init signing_secret (log w)).

(** [mem.append(entry)] on the log of the run; the object afterwards. *)
Definition mem_append (mem : SignedMemory.memory) (entry : SignedMemory.SignedEntry)
  : M SignedMemory.memory :=
  fun w =>
    match SignedMemory.append mem (log w) entry with
    | (f, Ok (mem', _)) => ({| log := f; ticks := ticks w |}, Ok mem')
    | (f, Raise e) => ({| log := f; ticks := ticks w |}, Raise e)
    end.

(** [self.audit_gate.evaluate(ctx).to_dict()]: the clock is read once the
    gates have returned. *)
Definition audit (self : orchestrator) (ctx : AuditGate.AuditContext) : M (dict pyval) :=
  fun w =>
    match AuditGate.evaluate (strict_audit self) (clock (ticks w)) ctx with
    | Ok r => ({| log := log w; ticks := S (ticks w) |}, Ok (AuditGate.AuditReport_to_dict r))
    | Raise e => (w, Raise e)
    end.

(** [self.falsifier_engine.evaluate(snap).to_dict()] *)
Definition falsify (self : orchestrator) (snap : FalsifierEngine.MetricsSnapshot)
  : M (dict pyval) :=
  t <~ _now_utc_iso ;;
  ret (FalsifierEngine.to_dict (FalsifierEngine.evaluate (falsifier_engine self) snap t)).

Definition final_status_of (audit_overall falsifier_verdict : pyval) : string :=
  if py_eq audit_overall (PStr "FAIL") then "BLOCKED_BY_AUDIT"
  else if py_eq falsifier_verdict (PStr "FALSIFIED") then "FALSIFIED_IN_MONITORING"
  else "PASS".

Definition run (self : orchestrator) (signing_secret new_run_id : string) (inp : RunInput)
  : M RunResult :=
  fun w0 =>
    let run_id := new_run_id in
    let run_dir := joinpath (run_root self) run_id in
    let artifacts := _ensure_minimum_artifacts (task inp) (artifacts inp) in
    (mem <~ mem_open signing_secret ;;
     e1 <~ SignedEntry run_id "RUN_START"
             [ ("codex_id", PStr CODEX_ID);
               ("task", PStr (task inp));
               ("domain", PStr (domain inp));
               ("window", PStr (window inp));
               ("strict_audit", PBool (strict_audit self));
               ("require_baseline_for_falsifiers",
                PBool (FalsifierEngine.require_baseline (falsifier_engine self))) ] ;;
     mem <~ mem_append mem e1 ;;
     let audit_ctx :=
       {| AuditGate.artifacts := artifacts;
          AuditGate.ctx_metadata := [("domain", PStr (domain inp))] |} in
     audit_report <~ audit self audit_ctx ;;
     e2 <~ SignedEntry run_id "AUDIT_REPORT" audit_report ;;
     mem <~ mem_append mem e2 ;;
     falsified <~
       match metrics_current inp with
       | Some current =>
           let snap :=
             {| FalsifierEngine.current := current;
                FalsifierEngine.baseline := metrics_baseline inp;
                FalsifierEngine.window := window inp;
                FalsifierEngine.metadata := [("domain", PStr (domain inp))] |} in
           falsifier_result <~ falsify self snap ;;
           e3 <~ SignedEntry run_id "FALSIFIER_RESULT" falsifier_result ;;
           mem <~ mem_append mem e3 ;;
           ret (PDict falsifier_result, get falsifier_result "verdict", mem)
       | None => ret (PNone, PStr "OK", mem)
       end ;;
     let '(falsifier_result, falsifier_verdict, mem) := falsified in
     let audit_overall := get audit_report "overall_verdict" in
     let final_status := final_status_of audit_overall falsifier_verdict in
     e4 <~ SignedEntry run_id "RUN_END"
             [ ("final_status", PStr final_status);
               ("audit_overall", audit_overall);
               ("falsifier_verdict", falsifier_verdict);
               ("notes",
                PStr ("Staged rollout only. If audit FAIL or falsified =>"
                      ++ " freeze/rollback + model upgrade.")%string) ] ;;
     _ <~ mem_append mem e4 ;;
     let outputs :=
       [ ("artifacts", PDict artifacts);
         ("audit_report", PDict audit_report);
         ("falsifier_result", falsifier_result);
         ("final_status", PStr final_status);
         ("signed_log_path", PStr (joinpath run_dir "signed_log.jsonl")) ] in
     ret {| run_id := run_id;
            audit_overall := audit_overall;
            falsifier_verdict := falsifier_verdict;
            outputs := outputs;
            run_dir := run_dir |}) w0.

End Run.

End Orchestrator.

(* ================================================================= *)
(** * Properties *)

(** An interpreter stand-in for closed evaluations on data that hold no
    float text and no container to print: none of its fields is reached
    there. *)
Definition plain_text : PyText :=
  {| float_repr := fun _ => "?";
     float_of_str := fun _ => None;
     int_of_str := fun _ => None;
     container_repr := fun _ => "?" |}.

(** The chunk size of CPython, for closed evaluations. *)
Definition plain_io : PyIO := {| chunk_size := 8192 |}.

(** ** Floats: what equality says about the order *)

Lemma float_eqb_leb (x y : float) : (x =? y)%float = true -> (x <=? y)%float = true.
Proof.
  rewrite eqb_spec, leb_spec. unfold SFeqb, SFleb.
  destruct (SFcompare (Prim2SF x) (Prim2SF y)) as [[]|]; congruence.
Qed.

Lemma float_eqb_sym (x y : float) : (x =? y)%float = (y =? x)%float.
Proof.
  rewrite !eqb_spec. unfold SFeqb.
  destruct (Prim2SF x) as [[]|[]| |[] mx ex], (Prim2SF y) as [[]|[]| |[] my ey];
    simpl; try reflexivity.
  all: change (Pos.compare_cont Eq mx my) with (Pos.compare mx my);
    change (Pos.compare_cont Eq my mx) with (Pos.compare my mx);
    rewrite (Z.compare_antisym ey ex), (Pos.compare_antisym my mx);
    destruct (ey ?= ex)%Z; simpl; try reflexivity;
    destruct (my ?= mx)%positive; reflexivity.
Qed.

Lemma float_eqb_geb (x y : float) : (x =? y)%float = true -> (y <=? x)%float = true.
Proof. rewrite float_eqb_sym. apply float_eqb_leb. Qed.

Lemma float_eqb_not_ltb (x y : float) : (x =? y)%float = true -> (x <? y)%float = false.
Proof.
  rewrite eqb_spec, ltb_spec. unfold SFeqb, SFltb.
  destruct (SFcompare (Prim2SF x) (Prim2SF y)) as [[]|]; congruence.
Qed.

(* ----------------------------------------------------------------- *)
(** ** Falsifier engine *)

Section FalsifierProps.
Context `{PyText}.
Import FalsifierEngine.

Variable self : engine.
Variable snap : MetricsSnapshot.

(** A rule's contribution to [hits]: nothing, or one hit with the rule's
    code and severity, and the latter exactly when the rule fires. *)
Definition contributes (l : list FalsifierHit) (c sev : string) (fires : bool) : Prop :=
  (fires = true -> exists h, l = [h] /\ code h = c /\ severity h = sev)
  /\ (fires = false -> l = []).

Ltac contribution :=
  unfold contributes; split; intro Hf;
  repeat match goal with
         | |- context [match ?x with _ => _ end] => destruct x eqn:?
         end;
  try discriminate; try reflexivity;
  try (eexists; repeat split; reflexivity).

Lemma baseline_missing_contribution :
  contributes (baseline_missing_hits self snap) "baseline_missing" "MEDIUM"
    (require_baseline self && no_baseline (baseline snap)).
Proof. unfold baseline_missing_hits. contribution. Qed.

Lemma latency_down_errors_up_contribution :
  contributes (latency_down_errors_up_hits self snap) "latency_down_errors_up" "HIGH"
    (latency_down_errors_up_fires self snap).
Proof.
  unfold latency_down_errors_up_hits.
  destruct (latency_down_errors_up_fires self snap) eqn:E;
    unfold latency_down_errors_up_fires in E; contribution.
Qed.

Lemma throughput_up_disparity_up_contribution :
  contributes (throughput_up_disparity_up_hits self snap) "throughput_up_disparity_up" "HIGH"
    (throughput_up_disparity_up_fires self snap).
Proof.
  unfold throughput_up_disparity_up_hits.
  destruct (throughput_up_disparity_up_fires self snap) eqn:E;
    unfold throughput_up_disparity_up_fires in E; contribution.
Qed.

Lemma transparency_contribution :
  contributes (transparency_hits self snap) "transparency_claims_unverifiable_logs" "MEDIUM"
    (transparency_fires self snap).
Proof.
  unfold transparency_hits.
  destruct (transparency_fires self snap) eqn:E;
    unfold transparency_fires in E; contribution.
Qed.

Lemma shadow_paperwork_contribution :
  contributes (shadow_paperwork_hits self snap) "shadow_paperwork_grows" "HIGH"
    (shadow_paperwork_fires self snap).
Proof.
  unfold shadow_paperwork_hits.
  destruct (shadow_paperwork_fires self snap) eqn:E;
    unfold shadow_paperwork_fires in E; contribution.
Qed.

Lemma citizen_burden_contribution :
  contributes (citizen_burden_hits self snap) "citizen_burden_up_after_digital" "HIGH"
    (citizen_burden_fires self snap).
Proof.
  unfold citizen_burden_hits.
  destruct (citizen_burden_fires self snap) eqn:E;
    unfold citizen_burden_fires in E; contribution.
Qed.

Lemma error_rate_extreme_contribution :
  contributes (error_rate_extreme_hits snap) "error_rate_extreme" "HIGH"
    (error_rate_extreme_fires snap).
Proof.
  unfold error_rate_extreme_hits.
  destruct (error_rate_extreme_fires snap) eqn:E;
    unfold error_rate_extreme_fires in E; contribution.
Qed.

(** The rules in the order in which [evaluate] runs them. *)
Definition rules : list (list FalsifierHit * string * string * bool) :=
  [ (baseline_missing_hits self snap, "baseline_missing", "MEDIUM",
     require_baseline self && no_baseline (baseline snap));
    (latency_down_errors_up_hits self snap, "latency_down_errors_up", "HIGH",
     latency_down_errors_up_fires self snap);
    (throughput_up_disparity_up_hits self snap, "throughput_up_disparity_up", "HIGH",
     throughput_up_disparity_up_fires self snap);
    (transparency_hits self snap, "transparency_claims_unverifiable_logs", "MEDIUM",
     transparency_fires self snap);
    (shadow_paperwork_hits self snap, "shadow_paperwork_grows", "HIGH",
     shadow_paperwork_fires self snap);
    (citizen_burden_hits self snap, "citizen_burden_up_after_digital", "HIGH",
     citizen_burden_fires self snap);
    (error_rate_extreme_hits snap, "error_rate_extreme", "HIGH",
     error_rate_extreme_fires snap) ].

Lemma rules_contribute :
  Forall (fun r => let '(l, c, sev, fires) := r in contributes l c sev fires) rules.
Proof.
  unfold rules. repeat apply Forall_cons; try apply Forall_nil.
  - apply baseline_missing_contribution.
  - apply latency_down_errors_up_contribution.
  - apply throughput_up_disparity_up_contribution.
  - apply transparency_contribution.
  - apply shadow_paperwork_contribution.
  - apply citizen_burden_contribution.
  - apply error_rate_extreme_contribution.
Qed.

Lemma all_hits_rules :
  all_hits self snap = flat_map (fun r => fst (fst (fst r))) rules.
Proof. unfold all_hits, rules. simpl. rewrite app_nil_r. reflexivity. Qed.

(** A hit is in [hits] exactly when it is the contribution of a rule that
    fires. *)
Lemma in_all_hits (h : FalsifierHit) :
  In h (all_hits self snap) <->
  exists l c sev, In (l, c, sev, true) rules /\ l = [h] /\ code h = c /\ severity h = sev.
Proof.
  rewrite all_hits_rules, in_flat_map. split.
  - intros [[[[l c] sev] fires] [Hin Hh]]. simpl in Hh.
    pose proof rules_contribute as HF. rewrite Forall_forall in HF.
    specialize (HF _ Hin). simpl in HF. destruct HF as [Ht Hff].
    destruct fires.
    + destruct (Ht eq_refl) as [h' [-> [Hc Hs]]].
      destruct Hh as [<-|[]]. exists [h'], c, sev. auto.
    + rewrite (Hff eq_refl) in Hh. destruct Hh.
  - intros [l [c [sev [Hin [-> _]]]]]. exists ([h], c, sev, true). simpl. auto.
Qed.

Lemma rule_fires_iff (l : list FalsifierHit) (c sev : string) (fires : bool) :
  In (l, c, sev, fires) rules ->
  ((exists h, In h (all_hits self snap) /\ code h = c) <-> fires = true).
Proof.
  intro Hin. split.
  - intros [h [Hh Hc]]. apply in_all_hits in Hh.
    destruct Hh as [l' [c' [sev' [Hin' [-> [Hc' _]]]]]].
    assert (c' = c) by congruence. subst c'.
    unfold rules in Hin, Hin'. simpl in Hin, Hin'.
    repeat match goal with
           | Hx : _ \/ _ |- _ => destruct Hx
           | Hx : False |- _ => destruct Hx
           end;
      repeat match goal with
             | Hx : (_, _, _, _) = (_, _, _, _) |- _ => inversion Hx; clear Hx
             end;
      subst; try discriminate; congruence.
  - intros ->.
    pose proof rules_contribute as HF. rewrite Forall_forall in HF.
    specialize (HF _ Hin). simpl in HF. destruct HF as [Ht _].
    destruct (Ht eq_refl) as [h [-> [Hc Hs]]].
    exists h. split; [|exact Hc].
    apply in_all_hits. exists [h], c, sev. auto.
Qed.

Lemma hit_severity (h : FalsifierHit) :
  In h (all_hits self snap) -> severity h = "HIGH" \/ severity h = "MEDIUM".
Proof.
  intro Hh. apply in_all_hits in Hh.
  destruct Hh as [l [c [sev [Hin [_ [_ <-]]]]]].
  unfold rules in Hin. simpl in Hin.
  repeat match goal with
         | Hx : _ \/ _ |- _ => destruct Hx
         | Hx : False |- _ => destruct Hx
         | Hx : (_, _, _, _) = (_, _, _, _) |- _ => inversion Hx; clear Hx
         end; auto.
Qed.

Lemma filter_nonempty {A} (f : A -> bool) (l : list A) :
  (0 <? List.length (filter f l))%nat = true <-> exists a, In a l /\ f a = true.
Proof.
  rewrite Nat.ltb_lt. split.
  - destruct (filter f l) as [|a l'] eqn:E; simpl; [lia|]. intros _.
    exists a. apply filter_In. rewrite E. left. reflexivity.
  - intros [a Ha]. apply filter_In in Ha.
    destruct (filter f l); [destruct Ha | simpl; lia].
Qed.

Lemma verdict_falsified_iff (now : string) :
  verdict (evaluate self snap now) = "FALSIFIED" <->
  exists h, In h (hits (evaluate self snap now)) /\ severity h = "HIGH".
Proof.
  unfold evaluate. simpl.
  destruct (0 <? List.length (filter is_high (all_hits self snap)))%nat eqn:E.
  - split; [intros _|reflexivity].
    apply filter_nonempty in E. destruct E as [h [Hin Hh]].
    exists h. split; [exact Hin|]. apply String.eqb_eq. exact Hh.
  - split; [discriminate|].
    intros [h [Hin Hh]].
    assert (E' : (0 <? List.length (filter is_high (all_hits self snap)))%nat = true).
    { apply filter_nonempty. exists h. split; [exact Hin|].
      unfold is_high. rewrite Hh. reflexivity. }
    congruence.
Qed.

Lemma verdict_ok_otherwise (now : string) :
  verdict (evaluate self snap now) <> "FALSIFIED" ->
  verdict (evaluate self snap now) = "OK".
Proof.
  unfold evaluate. simpl.
  destruct (0 <? List.length (filter is_high (all_hits self snap)))%nat; congruence.
Qed.

End FalsifierProps.

(** The keys that [evaluate] reads are bound whatever the overrides. *)
Lemma dict_set_binds {V} (d : dict V) (k k' : string) (v : V) :
  dict_get d k <> None -> dict_get (dict_set d k' v) k <> None.
Proof.
  induction d as [|[k0 v0] d IH]; simpl; [congruence|].
  destruct (String.eqb k' k0) eqn:E'; simpl.
  - destruct (String.eqb k k0); [congruence|auto].
  - destruct (String.eqb k k0); [congruence|auto].
Qed.

Lemma dict_update_binds {V} (o d : dict V) (k : string) :
  dict_get d k <> None -> dict_get (dict_update d o) k <> None.
Proof.
  unfold dict_update. revert d.
  induction o as [|[k' v'] o IH]; simpl; intros d Hd; [exact Hd|].
  apply IH. apply dict_set_binds. exact Hd.
Qed.

Lemma init_binds_defaults (o : option (dict float)) (rb : bool) (k : string) :
  In k (map fst FalsifierEngine.default_thresholds) ->
  dict_get (FalsifierEngine.thresholds (FalsifierEngine.init o rb)) k <> None.
Proof.
  intro Hk.
  assert (Hd : dict_get FalsifierEngine.default_thresholds k <> None).
  { simpl in Hk.
    repeat (destruct Hk as [<-|Hk]; [simpl; congruence|]). destruct Hk. }
  destruct o as [o|]; simpl; [apply dict_update_binds|]; exact Hd.
Qed.

(** The rule with code [c] has a hit in the result [r]. *)
Definition fired (r : FalsifierEngine.FalsifierResult) (c : string) : Prop :=
  exists h, In h (FalsifierEngine.hits r) /\ FalsifierEngine.code h = c.

Section FalsifierClaims.
Context `{PyText}.
Import FalsifierEngine.

Lemma fired_iff (self : engine) (snap : MetricsSnapshot) (now : string)
  (l : list FalsifierHit) (c sev : string) (fires : bool) :
  In (l, c, sev, fires) (rules self snap) ->
  (fired (evaluate self snap now) c <-> fires = true).
Proof. intro Hin. unfold fired. simpl. eapply rule_fires_iff. exact Hin. Qed.

Local Tactic Notation "rule" integer(n) :=
  unfold rules; simpl; do n right; left; reflexivity.

Lemma latency_fired_iff self snap now :
  fired (evaluate self snap now) "latency_down_errors_up" <->
  exists x y, ch snap "service_latency_median" = Some x /\ ch snap "error_rate" = Some y
              /\ (x <=? thr self "latency_improve")%float = true
              /\ (thr self "error_worsen" <=? y)%float = true.
Proof.
  rewrite (fired_iff self snap now _ _ _ (latency_down_errors_up_fires self snap))
    by (rule 1).
  unfold latency_down_errors_up_fires.
  destruct (ch snap "service_latency_median") as [x|], (ch snap "error_rate") as [y|];
    split; try discriminate.
  - intro E. apply andb_true_iff in E. exists x, y. tauto.
  - intros [x' [y' [Hx [Hy [H1 H2]]]]]. inversion Hx. inversion Hy. subst.
    rewrite H1, H2. reflexivity.
  - intros [x' [y' [_ [Hy _]]]]. discriminate.
  - intros [x' [y' [Hx _]]]. discriminate.
  - intros [x' [y' [Hx _]]]. discriminate.
Qed.

Lemma throughput_fired_iff self snap now :
  fired (evaluate self snap now) "throughput_up_disparity_up" <->
  exists x y, ch snap "throughput" = Some x /\ ch snap "disparity_index" = Some y
              /\ (thr self "throughput_improve" <=? x)%float = true
              /\ (thr self "disparity_worsen" <=? y)%float = true.
Proof.
  rewrite (fired_iff self snap now _ _ _ (throughput_up_disparity_up_fires self snap))
    by (rule 2).
  unfold throughput_up_disparity_up_fires.
  destruct (ch snap "throughput") as [x|], (ch snap "disparity_index") as [y|];
    split; try discriminate.
  - intro E. apply andb_true_iff in E. exists x, y. tauto.
  - intros [x' [y' [Hx [Hy [H1 H2]]]]]. inversion Hx. inversion Hy. subst.
    rewrite H1, H2. reflexivity.
  - intros [x' [y' [_ [Hy _]]]]. discriminate.
  - intros [x' [y' [Hx _]]]. discriminate.
  - intros [x' [y' [Hx _]]]. discriminate.
Qed.

Lemma transparency_fired_iff self snap now :
  fired (evaluate self snap now) "transparency_claims_unverifiable_logs" <->
  exists t, trans_cur snap = Some t /\ (t <? thr self "transparency_min")%float = true.
Proof.
  rewrite (fired_iff self snap now _ _ _ (transparency_fires self snap)) by (rule 3).
  unfold transparency_fires.
  destruct (trans_cur snap) as [t|]; split; try discriminate.
  - intro E. exists t. auto.
  - intros [t' [Ht E]]. inversion Ht. subst. exact E.
  - intros [t' [Ht _]]. discriminate.
Qed.

Lemma shadow_fired_iff self snap now :
  fired (evaluate self snap now) "shadow_paperwork_grows" <->
  exists x, ch snap "shadow_paperwork_index" = Some x
            /\ (thr self "shadow_paperwork_worsen" <=? x)%float = true.
Proof.
  rewrite (fired_iff self snap now _ _ _ (shadow_paperwork_fires self snap)) by (rule 4).
  unfold shadow_paperwork_fires.
  destruct (ch snap "shadow_paperwork_index") as [t|]; split; try discriminate.
  - intro E. exists t. auto.
  - intros [t' [Ht E]]. inversion Ht. subst. exact E.
  - intros [t' [Ht _]]. discriminate.
Qed.

Lemma burden_fired_iff self snap now :
  fired (evaluate self snap now) "citizen_burden_up_after_digital" <->
  exists x, ch snap "citizen_burden_index" = Some x
            /\ (thr self "burden_worsen" <=? x)%float = true.
Proof.
  rewrite (fired_iff self snap now _ _ _ (citizen_burden_fires self snap)) by (rule 5).
  unfold citizen_burden_fires.
  destruct (ch snap "citizen_burden_index") as [t|]; split; try discriminate.
  - intro E. exists t. auto.
  - intros [t' [Ht E]]. inversion Ht. subst. exact E.
  - intros [t' [Ht _]]. discriminate.
Qed.

Lemma error_extreme_fired_iff self snap now :
  fired (evaluate self snap now) "error_rate_extreme" <->
  exists e, err_cur snap = Some e /\ (0.20 <=? e)%float = true.
Proof.
  rewrite (fired_iff self snap now _ _ _ (error_rate_extreme_fires snap)) by (rule 6).
  unfold error_rate_extreme_fires.
  destruct (err_cur snap) as [t|]; split; try discriminate.
  - intro E. exists t. auto.
  - intros [t' [Ht E]]. inversion Ht. subst. exact E.
  - intros [t' [Ht _]]. discriminate.
Qed.

End FalsifierClaims.

(** C4, as stated, fails at a rule of the battery: with the default
    thresholds, a transparency coverage of exactly [transparency_min] (0.60)
    does not trigger [transparency_claims_unverifiable_logs]; the comparison
    of that rule is strict. *)
Lemma transparency_floor_is_strict :
  let self := FalsifierEngine.init None false in
  let snap :=
    {| FalsifierEngine.current := [("transparency_coverage", PFloat 0.60)];
       FalsifierEngine.baseline := None;
       FalsifierEngine.window := "weekly";
       FalsifierEngine.metadata := [] |} in
  @FalsifierEngine.trans_cur plain_text snap = Some 0.60%float
  /\ (0.60 =? FalsifierEngine.thr self "transparency_min")%float = true
  /\ FalsifierEngine.hits (@FalsifierEngine.evaluate plain_text self snap "now") = [].
Proof. vm_compute. repeat split; reflexivity. Qed.

(** C4 (amended): for every metrics snapshot and every threshold table, the
    verdict is FALSIFIED iff the hit list holds a HIGH hit, and OK otherwise
    (every hit is HIGH or MEDIUM, and MEDIUM hits alone give OK).  Each rule
    that compares a change with a threshold fires exactly when its changes are
    defined and meet their thresholds under [<=] / [>=], so that a change equal
    to the threshold meets it; [error_rate_extreme] likewise at 0.20.  The
    transparency floor is strict: it fires exactly when the coverage is
    defined and [<] the minimum, and not at equality. *)
Theorem falsifier_verdict_and_boundaries `{PyText}
  (self : FalsifierEngine.engine) (snap : FalsifierEngine.MetricsSnapshot) (now : string) :
  let r := FalsifierEngine.evaluate self snap now in
  let ch := FalsifierEngine.ch snap in
  let thr := FalsifierEngine.thr self in
  (FalsifierEngine.verdict r = "FALSIFIED" <->
   exists h, In h (FalsifierEngine.hits r) /\ FalsifierEngine.severity h = "HIGH")
  /\ (FalsifierEngine.verdict r <> "FALSIFIED" -> FalsifierEngine.verdict r = "OK")
  /\ (forall h, In h (FalsifierEngine.hits r) ->
        FalsifierEngine.severity h = "HIGH" \/ FalsifierEngine.severity h = "MEDIUM")
  /\ (fired r "latency_down_errors_up" <->
      exists x y, ch "service_latency_median" = Some x /\ ch "error_rate" = Some y
                  /\ (x <=? thr "latency_improve")%float = true
                  /\ (thr "error_worsen" <=? y)%float = true)
  /\ (fired r "throughput_up_disparity_up" <->
      exists x y, ch "throughput" = Some x /\ ch "disparity_index" = Some y
                  /\ (thr "throughput_improve" <=? x)%float = true
                  /\ (thr "disparity_worsen" <=? y)%float = true)
  /\ (fired r "shadow_paperwork_grows" <->
      exists x, ch "shadow_paperwork_index" = Some x
                /\ (thr "shadow_paperwork_worsen" <=? x)%float = true)
  /\ (fired r "citizen_burden_up_after_digital" <->
      exists x, ch "citizen_burden_index" = Some x
                /\ (thr "burden_worsen" <=? x)%float = true)
  /\ (fired r "error_rate_extreme" <->
      exists e, FalsifierEngine.err_cur snap = Some e /\ (0.20 <=? e)%float = true)
  /\ (fired r "transparency_claims_unverifiable_logs" <->
      exists t, FalsifierEngine.trans_cur snap = Some t
                /\ (t <? thr "transparency_min")%float = true)
  /\ (forall x t : float,
        (x =? t)%float = true ->
        (x <=? t)%float = true /\ (t <=? x)%float = true /\ (x <? t)%float = false).
Proof.
  cbv zeta.
  split; [apply verdict_falsified_iff|].
  split; [apply verdict_ok_otherwise|].
  split; [intros h Hh; apply hit_severity in Hh; exact Hh|].
  split; [apply latency_fired_iff|].
  split; [apply throughput_fired_iff|].
  split; [apply shadow_fired_iff|].
  split; [apply burden_fired_iff|].
  split; [apply error_extreme_fired_iff|].
  split; [apply transparency_fired_iff|].
  intros x t E. split; [|split].
  - apply float_eqb_leb. exact E.
  - apply float_eqb_geb. exact E.
  - apply float_eqb_not_ltb. exact E.
Qed.

(** C5: both copies of the percentage-change function return [None] when
    the baseline is missing or non-numeric ([None] after coercion), or equal
    to 0, or when the current value is missing or non-numeric, and otherwise
    exactly [(c - b) / abs(b)]; a value that is [None], a list, a dict, or a
    string that [float()] rejects coerces to [None]; and in [evaluate], which
    has no exception path, a rule one of whose changes is undefined does not
    fire. *)
Theorem pct_change_undefined_or_exact `{PyText} :
  (forall c b, Metrics._pct_change c b = FalsifierEngine._pct_change c b)
  /\ (forall c, FalsifierEngine._pct_change c None = None)
  /\ (forall b, FalsifierEngine._pct_change None b = None)
  /\ (forall c b, (b =? 0)%float = true -> FalsifierEngine._pct_change c (Some b) = None)
  /\ (forall c b, (b =? 0)%float = false ->
        FalsifierEngine._pct_change (Some c) (Some b) = Some ((c - b) / abs b)%float)
  /\ (forall v,
        v = PNone \/ (exists l, v = PList l) \/ (exists d, v = PDict d)
        \/ (exists s, v = PStr s /\ float_of_str s = None) ->
        Metrics._num v = None /\ FalsifierEngine._num v = None)
  /\ (forall self snap now,
        let r := FalsifierEngine.evaluate self snap now in
        let ch := FalsifierEngine.ch snap in
        (ch "service_latency_median" = None \/ ch "error_rate" = None ->
         ~ fired r "latency_down_errors_up")
        /\ (ch "throughput" = None \/ ch "disparity_index" = None ->
            ~ fired r "throughput_up_disparity_up")
        /\ (ch "shadow_paperwork_index" = None -> ~ fired r "shadow_paperwork_grows")
        /\ (ch "citizen_burden_index" = None ->
            ~ fired r "citizen_burden_up_after_digital")).
Proof.
  split; [reflexivity|].
  split; [intros [c|]; reflexivity|].
  split; [intros [b|]; reflexivity|].
  split; [intros [c|] b E; simpl; [rewrite E|]; reflexivity|].
  split; [intros c b E; simpl; rewrite E; reflexivity|].
  split.
  { intros v [->|[[l ->]|[[d ->]|[s [-> Hs]]]]]; simpl; auto. }
  intros self snap now. cbv zeta.
  split; [|split; [|split]].
  - intros Hn Hf. apply latency_fired_iff in Hf.
    destruct Hf as [x [y [Hx [Hy _]]]]. destruct Hn; congruence.
  - intros Hn Hf. apply throughput_fired_iff in Hf.
    destruct Hf as [x [y [Hx [Hy _]]]]. destruct Hn; congruence.
  - intros Hn Hf. apply shadow_fired_iff in Hf.
    destruct Hf as [x [Hx _]]. congruence.
  - intros Hn Hf. apply burden_fired_iff in Hf.
    destruct Hf as [x [Hx _]]. congruence.
Qed.

(* ----------------------------------------------------------------- *)
(** ** Metrics and the engine on booleans *)

Lemma dict_get_In {V} (d : dict V) (k : string) (v : V) :
  dict_get d k = Some v -> In k (map fst d).
Proof.
  induction d as [|[k0 v0] d IH]; simpl; [discriminate|].
  destruct (String.eqb k k0) eqn:E.
  - apply String.eqb_eq in E. auto.
  - auto.
Qed.

Lemma dict_get_tabulate {B} (f : string -> B) (keys : list string) (k : string) :
  In k keys -> dict_get (map (fun x => (x, f x)) keys) k = Some (f k).
Proof.
  induction keys as [|a keys IH]; simpl; [tauto|].
  intros Hin. destruct (String.eqb k a) eqn:E.
  - apply String.eqb_eq in E. subst. reflexivity.
  - destruct Hin as [->|Hin]; [rewrite String.eqb_refl in E; discriminate|auto].
Qed.

Lemma get_bool_bound (d : dict pyval) (k : string) (c : bool) :
  get d k = PBool c -> dict_get d k = Some (PBool c).
Proof. unfold get. destruct (dict_get d k); [congruence|discriminate]. Qed.

Section MetricsProps.
Context `{PyText}.

(** [normalize] leaves a boolean as it is. *)
Lemma normalize_keeps_bool (req : list string) (d : dict pyval) (k : string) (c : bool) :
  dict_get d k = Some (PBool c) ->
  dict_get (Metrics.normalize req d) k = Some (PBool c).
Proof.
  induction d as [|[k0 v0] d IH]; simpl; [discriminate|].
  destruct (String.eqb k k0) eqn:E; intro Hg.
  - inversion Hg. subst v0.
    destruct (Metrics.is_metric_key req k0); simpl; rewrite E; reflexivity.
  - destruct (Metrics.is_metric_key req k0); [destruct (Metrics._num v0)|];
      simpl; rewrite E; auto.
Qed.

Lemma normalize_nonempty (req : list string) (d : dict pyval) :
  d <> [] -> Metrics.normalize req d <> [].
Proof. destruct d; simpl; congruence. Qed.

(** The percentage change that [compute_deltas] reports for a key whose
    current value is a boolean. *)
Lemma compute_deltas_bool (req : list string) (cur : dict pyval)
  (base : option (dict pyval)) (k : string) (c : bool) :
  get cur k = PBool c ->
  dict_get (Metrics.pct (Metrics.compute_deltas req cur base)) k = Some None.
Proof.
  intro Hc. apply get_bool_bound in Hc.
  pose proof (normalize_keeps_bool req cur k c Hc) as Hn.
  unfold Metrics.compute_deltas. cbv zeta. simpl Metrics.pct.
  rewrite dict_get_tabulate.
  - unfold get. rewrite Hn. reflexivity.
  - unfold Metrics.delta_keys. apply nodup_In. apply in_or_app. left.
    eapply dict_get_In. exact Hn.
Qed.

End MetricsProps.

(** C10, as stated, fails when the baseline is [False]: the engine coerces it
    to 0.0, so its change is undefined too and the rule is skipped; the engine
    and the delta calculator agree. *)
Lemma bool_changes_agree_on_false_baseline :
  let cur := [("shadow_paperwork_index", PBool true)] in
  let base := Some [("shadow_paperwork_index", PBool false)] in
  let snap :=
    {| FalsifierEngine.current := cur; FalsifierEngine.baseline := base;
       FalsifierEngine.window := "weekly"; FalsifierEngine.metadata := [] |} in
  @FalsifierEngine._pct_change
     (@FalsifierEngine._num plain_text (PBool true))
     (@FalsifierEngine._num plain_text (PBool false)) = None
  /\ Metrics._pct_change (@Metrics._num plain_text (PBool true))
       (@Metrics._num plain_text (PBool false)) = None
  /\ @FalsifierEngine.ch plain_text snap "shadow_paperwork_index" = None
  /\ dict_get (Metrics.pct (@Metrics.compute_deltas plain_text (Metrics.init None) cur base))
       "shadow_paperwork_index" = Some None.
Proof. vm_compute. repeat split; reflexivity. Qed.

(** C10 (amended): on every boolean the coercion of the Metrics module
    returns [None] and that of the engine returns 1.0 for [True] and 0.0 for
    [False].  So for a boolean-valued metric whose baseline is [True] the two
    percentage changes disagree: the engine computes [(c - 1.0) / abs(1.0)]
    and evaluates the dependent rule with it, while the delta calculator
    reports [None]; when the baseline is [False] both are undefined. *)
Theorem bool_coercions_disagree `{PyText} :
  (forall b : bool,
     Metrics._num (PBool b) = None
     /\ FalsifierEngine._num (PBool b) = Some (if b then 1 else 0)%float)
  /\ (forall c : bool,
        FalsifierEngine._pct_change (FalsifierEngine._num (PBool c))
          (FalsifierEngine._num (PBool true))
        = Some (((if c then 1 else 0) - 1) / abs 1)%float
        /\ Metrics._pct_change (Metrics._num (PBool c)) (Metrics._num (PBool true)) = None)
  /\ (forall c : bool,
        FalsifierEngine._pct_change (FalsifierEngine._num (PBool c))
          (FalsifierEngine._num (PBool false)) = None
        /\ Metrics._pct_change (Metrics._num (PBool c)) (Metrics._num (PBool false)) = None)
  /\ (forall (snap : FalsifierEngine.MetricsSnapshot) (req : list string)
             (bd : dict pyval) (k : string) (c : bool),
        get (FalsifierEngine.current snap) k = PBool c ->
        FalsifierEngine.baseline snap = Some bd ->
        get bd k = PBool true ->
        FalsifierEngine.ch snap k = Some (((if c then 1 else 0) - 1) / abs 1)%float
        /\ dict_get (Metrics.pct
                       (Metrics.compute_deltas req (FalsifierEngine.current snap)
                          (FalsifierEngine.baseline snap))) k = Some None).
Proof.
  split; [intros b; split; reflexivity|].
  split; [intros c; split; reflexivity|].
  split; [intros c; split; reflexivity|].
  intros snap req bd k c Hc Hb Hbk. split.
  - unfold FalsifierEngine.ch. rewrite Hc, Hb.
    destruct bd as [|kv bd']; [discriminate|].
    simpl FalsifierEngine.no_baseline. cbv iota. rewrite Hbk. reflexivity.
  - apply (compute_deltas_bool req _ _ k c). exact Hc.
Qed.

(* ----------------------------------------------------------------- *)
(** ** Audit gate *)

Module AuditSpec.
Import AuditGate.

(** The seven documents of a bundle. *)
Definition documents : list string := ["IC"; "ES"; "FPF"; "WM"; "SM"; "DS"; "AP"].

(** A bundle each of whose document bodies is a mapping, or is absent or
    falsy (and then read as the empty mapping). *)
Definition well_formed (a : dict pyval) : bool :=
  forallb (fun name => is_dict (doc a name)) documents.

(** What [x.get(k)] holds when [x] is a mapping. *)
Definition peek (x : pyval * string) : pyval :=
  match fst x with
  | PDict d => get d (snd x)
  | _ => PNone
  end.

(** The value of a logical field: that of its first alias whose value is
    truthy, and that of the last alias when none is. *)
Fixpoint alias (x : pyval * string) (xs : list (pyval * string)) : pyval :=
  match xs with
  | [] => peek x
  | y :: ys => if truthy (peek x) then peek x else alias y ys
  end.

Section Bundle.
Variable a : dict pyval.

Let ic := doc a "IC".
Let es := doc a "ES".
Let fpf := doc a "FPF".
Let wm := doc a "WM".
Let sm := doc a "SM".
Let ds := doc a "DS".
Let ap := doc a "AP".

Definition facts : list pyval := _as_list (alias (es, "Facts") [(es, "facts")]).
Definition sources : list pyval := _as_list (alias (es, "Sources") [(es, "sources")]).
Definition stages : list pyval :=
  _as_list (alias (ap, "Stages") [(ap, "stages"); (ap, "Steps"); (ap, "steps")]).
Definition actors : list pyval :=
  _as_list (alias (sm, "Actors & incentives") [(sm, "Actors"); (sm, "actors")]).
Definition incentives : list pyval :=
  _as_list (alias (sm, "Incentives") [(sm, "incentives")]).
Definition citizen_summary : pyval :=
  alias (PDict a, "CitizenSummary")
    [(ic, "Citizen summary"); (ic, "citizen_summary");
     (ap, "Citizen summary"); (ap, "citizen_summary")].
Definition decision_options : nat :=
  options_count (alias (ds, "Option A") [(ds, "OptionA")])
    (alias (ds, "Option B") [(ds, "OptionB")])
    (alias (ds, "Option C") [(ds, "OptionC")])
    (peek (ds, "options")).

(** The required fields of each gate, as extracted. *)
Definition truth_required : list (string * pyval) :=
  [ ("ES.Facts", PList facts);
    ("ES.Assumptions",
     PList (_as_list (alias (es, "Assumptions") [(es, "assumptions")])));
    ("FPF.Falsifiers",
     PList (_as_list (alias (fpf, "Falsifiers") [(fpf, "falsifiers")]))) ].

Definition logic_required : list (string * pyval) :=
  [ ("WM.Causal structure",
     alias (wm, "Causal structure") [(wm, "causal_structure"); (wm, "CausalStructure")]);
    ("FPF.Variables", PList (_as_list (alias (fpf, "Variables") [(fpf, "variables")])));
    ("FPF.Levers", PList (_as_list (alias (fpf, "Levers") [(fpf, "levers")]))) ].

Definition risk_required : list (string * pyval) :=
  [ ("DS.Global downside bound",
     alias (ds, "Global downside bound")
       [(ds, "GlobalDownsideBound"); (ds, "DownsideBound")]);
    ("AP.Rollback",
     alias (ds, "Rollback plan") [(ds, "Rollback"); (ap, "Rollback"); (ap, "rollback")]);
    ("AP.Kill-switch",
     alias (ds, "Kill-switch") [(ds, "KillSwitch"); (ap, "Kill-switch"); (ap, "KillSwitch")]) ].

Definition bias_required : list (string * pyval) :=
  [ ("SM.Actors/Incentives", PList (if nonempty actors then actors else incentives));
    ("SM.Corruption surfaces",
     PList (_as_list (alias (sm, "Corruption surfaces") [(sm, "corruption_surfaces")])));
    ("SM.Hidden costs/externalities",
     PList (_as_list (alias (sm, "Hidden costs/externalities") [(sm, "hidden_costs")]))) ].

Definition clarity_required : list (string * pyval) :=
  [ ("IC.Goal", alias (ic, "Goal") [(ic, "goal")]);
    ("IC.Deliverable", alias (ic, "Deliverable") [(ic, "deliverable")]);
    ("IC.Success metrics", alias (ic, "Success metrics") [(ic, "success_metrics")]) ].

(** No required field of the list is missing. *)
Definition all_present (required : list (string * pyval)) : bool :=
  forallb (fun nv => negb (is_missing (snd nv))) required.

(** The hard condition of each gate beyond presence. *)
Definition truth_hard : bool := has_text facts || has_text sources.
Definition logic_hard : bool := (2 <=? decision_options)%nat.
Definition risk_hard : bool := nonempty stages.
Definition bias_hard : bool := true.
Definition clarity_hard : bool := _is_nonempty_str citizen_summary.

(** The five gates in order: name, required fields, hard condition. *)
Definition gates : list (string * list (string * pyval) * bool) :=
  [ ("Truth Gate", truth_required, truth_hard);
    ("Logic Gate", logic_required, logic_hard);
    ("Risk Gate", risk_required, risk_hard);
    ("Bias Gate", bias_required, bias_hard);
    ("Clarity Gate", clarity_required, clarity_hard) ].

Definition gate_passes (g : string * list (string * pyval) * bool) : bool :=
  all_present (snd (fst g)) && snd g.

End Bundle.

End AuditSpec.

Section AuditGates.
Import AuditGate AuditSpec.

Lemma or_chain_ok (x : pyval * string) (xs : list (pyval * string)) :
  forallb (fun p => is_dict (fst p)) (x :: xs) = true ->
  or_chain x xs = Ok (alias x xs).
Proof.
  revert x. induction xs as [|y ys IH]; intros [v k] Hd; simpl in Hd.
  - destruct v; try discriminate. reflexivity.
  - apply andb_true_iff in Hd. destruct Hd as [Hv Hd].
    destruct v; try discriminate. simpl.
    unfold peek. simpl. destruct (truthy (get d k)); [reflexivity|].
    apply IH. exact Hd.
Qed.

Lemma or_chain_raises (x : pyval) (k : string) (xs : list (pyval * string)) :
  is_dict x = false -> or_chain (x, k) xs = Raise (AttributeError "get").
Proof. destruct x, xs; simpl; intro; try discriminate; reflexivity. Qed.

(** Whatever the operands, a chain returns or raises the one exception. *)
Lemma or_chain_total (x : pyval * string) (xs : list (pyval * string)) :
  (exists v, or_chain x xs = Ok v) \/ or_chain x xs = Raise (AttributeError "get").
Proof.
  revert x. induction xs as [|y ys IH]; intros [v k]; destruct v; simpl; eauto.
  destruct (truthy (get d k)); eauto.
Qed.

Lemma pget_ok (x : pyval) (k : string) :
  is_dict x = true -> pget x k = Ok (peek (x, k)).
Proof. destruct x; try discriminate. reflexivity. Qed.

Lemma bind_ok {A B} (v : A) (k : A -> res B) : bind (Ok v) k = k v.
Proof. reflexivity. Qed.

Lemma count_missing_none (required : list (string * pyval)) :
  negb (nonempty (_count_missing_required required)) = all_present required.
Proof.
  unfold _count_missing_required, all_present.
  induction required as [|[n v] l IH]; simpl; [reflexivity|].
  destruct (is_missing v); simpl; [reflexivity|exact IH].
Qed.

Variable a : dict pyval.

Ltac chain_side :=
  simpl forallb;
  repeat match goal with
         | Hd : is_dict _ = true |- _ => rewrite Hd
         end;
  reflexivity.

Ltac step :=
  progress (rewrite ?or_chain_ok by chain_side; rewrite ?pget_ok by assumption;
            cbn [bind]).

Lemma evidence_ok :
  is_dict (doc a "ES") = true ->
  _has_any_textual_evidence (doc a "ES") = Ok (truth_hard a).
Proof.
  intro Hes. unfold _has_any_textual_evidence.
  step. unfold truth_hard, facts, sources.
  destruct (has_text (_as_list (alias (doc a "ES", "Facts") [(doc a "ES", "facts")]))).
  - reflexivity.
  - cbn [bind]. simpl orb. destruct (has_text _); reflexivity.
Qed.

(** What a gate returns on the bundle: a result with the name of the gate,
    and PASS exactly when no required field is missing and the hard
    condition holds. *)
Definition gate_result_ok (gr : GateResult) (g : string * list (string * pyval) * bool) : Prop :=
  gate gr = fst (fst g) /\ verdict gr = (if gate_passes g then "PASS" else "FAIL").

Definition gate_ok (run : res GateResult) (g : string * list (string * pyval) * bool) : Prop :=
  exists gr, run = Ok gr /\ gate_result_ok gr g.

Lemma truth_gate_ok :
  is_dict (doc a "ES") = true -> is_dict (doc a "FPF") = true ->
  is_dict (doc a "DS") = true ->
  gate_ok (_truth_gate a) ("Truth Gate", truth_required a, truth_hard a).
Proof.
  intros Hes Hfpf Hds. unfold gate_ok, _truth_gate.
  repeat step. rewrite (evidence_ok Hes). cbn [bind].
  eexists. split; [reflexivity|]. split; [reflexivity|].
  cbv zeta. cbn [verdict]. rewrite count_missing_none. reflexivity.
Qed.

Lemma logic_gate_ok :
  is_dict (doc a "WM") = true -> is_dict (doc a "DS") = true ->
  is_dict (doc a "FPF") = true ->
  gate_ok (_logic_gate a) ("Logic Gate", logic_required a, logic_hard a).
Proof.
  intros Hwm Hds Hfpf. unfold gate_ok, _logic_gate.
  repeat step.
  eexists. split; [reflexivity|]. split; [reflexivity|].
  cbv zeta. cbn [verdict]. rewrite count_missing_none. reflexivity.
Qed.

Lemma risk_gate_ok :
  is_dict (doc a "DS") = true -> is_dict (doc a "AP") = true ->
  gate_ok (_risk_gate a) ("Risk Gate", risk_required a, risk_hard a).
Proof.
  intros Hds Hap. unfold gate_ok, _risk_gate.
  repeat step.
  eexists. split; [reflexivity|]. split; [reflexivity|].
  cbv zeta. cbn [verdict]. rewrite count_missing_none. reflexivity.
Qed.

Lemma bias_gate_ok :
  is_dict (doc a "SM") = true -> is_dict (doc a "ES") = true ->
  is_dict (doc a "DS") = true ->
  gate_ok (_bias_gate a) ("Bias Gate", bias_required a, bias_hard).
Proof.
  intros Hsm Hes Hds. unfold gate_ok, _bias_gate.
  repeat step.
  destruct (List.length (_as_list (alias (doc a "ES", "Facts") [(doc a "ES", "facts")])) <? 3)%nat;
    repeat step;
    (eexists; split; [reflexivity|]; split; [reflexivity|];
     cbv zeta; cbn [verdict]; rewrite count_missing_none;
     unfold gate_passes; cbn [fst snd]; unfold bias_hard;
     rewrite andb_true_r; reflexivity).
Qed.

Lemma clarity_gate_ok :
  is_dict (doc a "IC") = true -> is_dict (doc a "AP") = true ->
  gate_ok (_clarity_gate a) ("Clarity Gate", clarity_required a, clarity_hard a).
Proof.
  intros Hic Hap. unfold gate_ok, _clarity_gate.
  assert (Ha : is_dict (PDict a) = true) by reflexivity.
  repeat step.
  eexists. split; [reflexivity|]. split; [reflexivity|].
  cbv zeta. cbn [verdict]. rewrite count_missing_none. reflexivity.
Qed.

End AuditGates.

(* ----------------------------------------------------------------- *)
(** ** The de-duplication loop *)

(** Each string once, at the place of its first occurrence. *)
Fixpoint dedup_first (l : list string) : list string :=
  match l with
  | [] => []
  | a :: l' => a :: filter (fun x => negb (String.eqb x a)) (dedup_first l')
  end.

Lemma filter_twice {A} (f g : A -> bool) (l : list A) :
  filter f (filter g l) = filter (fun x => g x && f x) l.
Proof.
  induction l as [|a l IH]; simpl; [reflexivity|].
  destruct (g a); simpl; [destruct (f a)|]; rewrite IH; reflexivity.
Qed.

Lemma dedup_first_filter (p : string -> bool) (l : list string) :
  dedup_first (filter p l) = filter p (dedup_first l).
Proof.
  induction l as [|b m IH]; simpl; [reflexivity|].
  destruct (p b) eqn:Hb; simpl.
  - rewrite IH, !filter_twice. f_equal. apply filter_ext. intro x. apply andb_comm.
  - rewrite IH, filter_twice. apply filter_ext. intro x.
    destruct (String.eqb x b) eqn:E; simpl; [|reflexivity].
    apply String.eqb_eq in E. subst. exact Hb.
Qed.

Lemma dedup_into_spec (acc l : list string) :
  dedup_into acc l
  = acc ++ dedup_first (filter (fun x => negb (existsb (String.eqb x) acc)) l).
Proof.
  revert acc. induction l as [|a l IH]; intro acc; simpl.
  - rewrite app_nil_r. reflexivity.
  - destruct (existsb (String.eqb a) acc) eqn:E; simpl.
    + apply IH.
    + rewrite IH, <- app_assoc. simpl. f_equal. f_equal.
      rewrite <- dedup_first_filter, filter_twice. f_equal.
      apply filter_ext. intro x. rewrite existsb_app. simpl.
      rewrite orb_false_r, negb_orb. reflexivity.
Qed.

Lemma dedup_into_nil (l : list string) : dedup_into [] l = dedup_first l.
Proof.
  rewrite dedup_into_spec. simpl. f_equal.
  induction l as [|a l IH]; simpl; congruence.
Qed.

Lemma dedup_first_In (l : list string) (x : string) :
  In x (dedup_first l) <-> In x l.
Proof.
  induction l as [|a l IH]; simpl; [tauto|].
  rewrite filter_In, IH. split.
  - intros [->|[Hx _]]; auto.
  - intros [->|Hx]; [auto|].
    destruct (String.eqb x a) eqn:E.
    + apply String.eqb_eq in E. auto.
    + right. auto.
Qed.

Lemma dedup_first_NoDup (l : list string) : NoDup (dedup_first l).
Proof.
  induction l as [|a l IH]; simpl; constructor.
  - rewrite filter_In. intros [_ Hn]. rewrite String.eqb_refl in Hn. discriminate.
  - apply NoDup_filter. exact IH.
Qed.

Lemma firstn_NoDup {A} (n : nat) (l : list A) : NoDup l -> NoDup (firstn n l).
Proof.
  revert n. induction l as [|a l IH]; intros [|n] Hl; simpl; try constructor.
  - inversion Hl; subst. intro Hin. apply H1.
    rewrite <- (firstn_skipn n l). apply in_or_app. auto.
  - inversion Hl; auto.
Qed.

(* ----------------------------------------------------------------- *)
(** ** The report of [evaluate] *)

Section AuditReportShape.
Import AuditGate AuditSpec.

(** The fixes of the failed gates, gate after gate. *)
Definition failed_fixes (grs : list GateResult) : list string :=
  flat_map fixes (filter is_fail grs).

(** What the claim about minimum fixes describes: the first fix of each
    failed gate. *)
Definition first_fix_of_each_failed (grs : list GateResult) : list string :=
  flat_map (fun gr => firstn 1 (fixes gr)) (filter is_fail grs).

Lemma collect_fixes_from (grs : list GateResult) (acc : list string) :
  fold_left (fun acc gr => if is_fail gr then dedup_into acc (fixes gr) else acc) grs acc
  = dedup_into acc (failed_fixes grs).
Proof.
  revert acc. induction grs as [|gr grs IH]; intro acc; [reflexivity|].
  simpl fold_left. rewrite IH. unfold failed_fixes. simpl filter.
  destruct (is_fail gr); [|reflexivity].
  simpl flat_map.
  generalize (flat_map fixes (filter is_fail grs)) as rest.
  generalize (fixes gr) as fs. clear. intro fs. revert acc.
  induction fs as [|f fs IHf]; intros acc rest; simpl; [reflexivity|apply IHf].
Qed.

Lemma collect_fixes_spec (grs : list GateResult) :
  collect_fixes grs = dedup_first (failed_fixes grs).
Proof. unfold collect_fixes. rewrite collect_fixes_from. apply dedup_into_nil. Qed.

(** What [evaluate] puts in the report, when it returns one. *)
Lemma evaluate_report (strict : bool) (now : string) (ctx : AuditContext) (r : AuditReport) :
  evaluate strict now ctx = Ok r ->
  exists truth logic risk bias clarity,
    _truth_gate (artifacts ctx) = Ok truth
    /\ _logic_gate (artifacts ctx) = Ok logic
    /\ _risk_gate (artifacts ctx) = Ok risk
    /\ _bias_gate (artifacts ctx) = Ok bias
    /\ _clarity_gate (artifacts ctx) = Ok clarity
    /\ gate_results r = [truth; logic; risk; bias; clarity]
    /\ overall_verdict r
       = (if forallb is_pass (gate_results r) then "PASS" else "FAIL")
    /\ minimum_fixes r = firstn 8 (collect_fixes (gate_results r)).
Proof.
  unfold evaluate. cbv zeta.
  destruct (_truth_gate (artifacts ctx)) as [truth|]; [|discriminate].
  destruct (_logic_gate (artifacts ctx)) as [logic|]; [|discriminate].
  destruct (_risk_gate (artifacts ctx)) as [risk|]; [|discriminate].
  destruct (_bias_gate (artifacts ctx)) as [bias|]; [|discriminate].
  destruct (_clarity_gate (artifacts ctx)) as [clarity|]; [|discriminate].
  cbn [bind]. intro E. inversion E. subst r. clear E.
  exists truth, logic, risk, bias, clarity. cbn [gate_results overall_verdict minimum_fixes].
  repeat split; reflexivity.
Qed.

Lemma well_formed_doc (a : dict pyval) (name : string) :
  well_formed a = true -> In name documents -> is_dict (doc a name) = true.
Proof.
  unfold well_formed. rewrite forallb_forall. auto.
Qed.

(** On a well-formed bundle every gate returns, and so does [evaluate]. *)
Lemma evaluate_returns (strict : bool) (now : string) (ctx : AuditContext) :
  well_formed (artifacts ctx) = true ->
  exists r, evaluate strict now ctx = Ok r
    /\ Forall2 gate_result_ok (gate_results r) (gates (artifacts ctx)).
Proof.
  intro Hwf.
  pose proof (fun n H => well_formed_doc (artifacts ctx) n Hwf H) as Hd.
  assert (Hic := Hd "IC" ltac:(simpl; tauto)).
  assert (Hes := Hd "ES" ltac:(simpl; tauto)).
  assert (Hfpf := Hd "FPF" ltac:(simpl; tauto)).
  assert (Hwm := Hd "WM" ltac:(simpl; tauto)).
  assert (Hsm := Hd "SM" ltac:(simpl; tauto)).
  assert (Hds := Hd "DS" ltac:(simpl; tauto)).
  assert (Hap := Hd "AP" ltac:(simpl; tauto)).
  pose proof (truth_gate_ok _ Hes Hfpf Hds) as Ht.
  pose proof (logic_gate_ok _ Hwm Hds Hfpf) as Hl.
  pose proof (risk_gate_ok _ Hds Hap) as Hr.
  pose proof (bias_gate_ok _ Hsm Hes Hds) as Hb.
  pose proof (clarity_gate_ok _ Hic Hap) as Hc.
  destruct Ht as [t [Et Ht]], Hl as [l [El Hl]], Hr as [k [Er Hr]],
           Hb as [b [Eb Hb]], Hc as [c [Ec Hc]].
  unfold evaluate. cbv zeta. rewrite Et, El, Er, Eb, Ec. cbn [bind].
  eexists. split; [reflexivity|].
  cbn [gate_results]. unfold gates.
  repeat (apply Forall2_cons; [assumption|]). apply Forall2_nil.
Qed.

End AuditReportShape.



Section AuditClaims.
Import AuditGate AuditSpec.

Lemma overall_pass_iff (strict : bool) (now : string) (ctx : AuditContext) (r : AuditReport) :
  evaluate strict now ctx = Ok r ->
  (overall_verdict r = "PASS" <-> forall gr, In gr (gate_results r) -> verdict gr = "PASS").
Proof.
  intro E. apply evaluate_report in E.
  destruct E as [t [l [k [b [c [_ [_ [_ [_ [_ [_ [Ho _]]]]]]]]]]]].
  rewrite Ho. destruct (forallb is_pass (gate_results r)) eqn:F.
  - split; [intros _|reflexivity].
    rewrite forallb_forall in F. intros gr Hin.
    apply String.eqb_eq. apply (F gr Hin).
  - split; [discriminate|]. intro Hall.
    assert (F' : forallb is_pass (gate_results r) = true).
    { apply forallb_forall. intros gr Hin. unfold is_pass.
      rewrite (Hall gr Hin). reflexivity. }
    congruence.
Qed.

Lemma overall_pass_or_fail (strict : bool) (now : string) (ctx : AuditContext) (r : AuditReport) :
  evaluate strict now ctx = Ok r ->
  overall_verdict r = "PASS" \/ overall_verdict r = "FAIL".
Proof.
  intro E. apply evaluate_report in E.
  destruct E as [t [l [k [b [c [_ [_ [_ [_ [_ [_ [Ho _]]]]]]]]]]]].
  rewrite Ho. destruct (forallb is_pass (gate_results r)); auto.
Qed.



End AuditClaims.

(* ----------------------------------------------------------------- *)
(** ** When [evaluate] raises *)

Section AuditRaises.
Import AuditGate AuditSpec.

Variable a : dict pyval.

Ltac chain_side :=
  simpl forallb;
  repeat match goal with
         | Hd : is_dict _ = true |- _ => rewrite Hd
         end;
  reflexivity.

Ltac run :=
  rewrite ?or_chain_ok by chain_side; rewrite ?pget_ok by assumption;
  rewrite ?evidence_ok by assumption; cbn [bind].

Lemma truth_gate_raises :
  is_dict (doc a "ES") && is_dict (doc a "FPF") && is_dict (doc a "DS") = false ->
  _truth_gate a = Raise (AttributeError "get").
Proof.
  intro Hb. unfold _truth_gate.
  destruct (is_dict (doc a "ES")) eqn:Hes.
  - destruct (is_dict (doc a "FPF")) eqn:Hfpf.
    + destruct (is_dict (doc a "DS")) eqn:Hds; [discriminate|].
      rewrite !(or_chain_raises (doc a "DS")) by assumption. run. reflexivity.
    + rewrite !(or_chain_raises (doc a "FPF")) by assumption. run. reflexivity.
  - rewrite !(or_chain_raises (doc a "ES")) by assumption. reflexivity.
Qed.

Lemma logic_gate_raises :
  is_dict (doc a "WM") = false -> _logic_gate a = Raise (AttributeError "get").
Proof.
  intro Hwm. unfold _logic_gate.
  rewrite !(or_chain_raises (doc a "WM")) by assumption. reflexivity.
Qed.

Lemma risk_gate_raises :
  is_dict (doc a "DS") = true -> is_dict (doc a "AP") = false -> _risk_gate a = Raise (AttributeError "get").
Proof.
  intros Hds Hap. unfold _risk_gate.
  rewrite !(or_chain_raises (doc a "AP")) by assumption.
  destruct (or_chain_total (doc a "DS", "Rollback plan")
              [(doc a "DS", "Rollback"); (doc a "AP", "Rollback"); (doc a "AP", "rollback")])
    as [[v1 ->]| ->]; [|run; reflexivity].
  destruct (or_chain_total (doc a "DS", "Kill-switch")
              [(doc a "DS", "KillSwitch"); (doc a "AP", "Kill-switch");
               (doc a "AP", "KillSwitch")])
    as [[v2 ->]| ->]; run; reflexivity.
Qed.

Lemma bias_gate_raises :
  is_dict (doc a "SM") = false -> _bias_gate a = Raise (AttributeError "get").
Proof.
  intro Hsm. unfold _bias_gate.
  rewrite !(or_chain_raises (doc a "SM")) by assumption. reflexivity.
Qed.

Lemma clarity_gate_raises :
  is_dict (doc a "IC") = false -> _clarity_gate a = Raise (AttributeError "get").
Proof.
  intro Hic. unfold _clarity_gate.
  rewrite !(or_chain_raises (doc a "IC")) by assumption.
  destruct (or_chain_total (PDict a, "CitizenSummary")
              [(doc a "IC", "Citizen summary"); (doc a "IC", "citizen_summary");
               (doc a "AP", "Citizen summary"); (doc a "AP", "citizen_summary")])
    as [[v ->]| ->]; reflexivity.
Qed.

End AuditRaises.

(** [evaluate] returns a report on the well-formed bundles, and on every
    other bundle raises the [AttributeError] of [.get] on a value that is not
    a mapping. *)
Lemma evaluate_raises_iff (strict : bool) (now : string) (ctx : AuditGate.AuditContext) :
  AuditSpec.well_formed (AuditGate.artifacts ctx) = false <->
  AuditGate.evaluate strict now ctx = Raise (AttributeError "get").
Proof.
  split.
  - intro Hwf. unfold AuditGate.evaluate. cbv zeta.
    set (a := AuditGate.artifacts ctx) in *.
    destruct (AuditGate.is_dict (AuditGate.doc a "ES")
              && AuditGate.is_dict (AuditGate.doc a "FPF")
              && AuditGate.is_dict (AuditGate.doc a "DS")) eqn:H3.
    2:{ rewrite (truth_gate_raises a H3). reflexivity. }
    apply andb_true_iff in H3. destruct H3 as [H2 Hds].
    apply andb_true_iff in H2. destruct H2 as [Hes Hfpf].
    destruct (truth_gate_ok a Hes Hfpf Hds) as [t [-> _]]. cbn [bind].
    destruct (AuditGate.is_dict (AuditGate.doc a "WM")) eqn:Hwm.
    2:{ rewrite (logic_gate_raises a Hwm). reflexivity. }
    destruct (logic_gate_ok a Hwm Hds Hfpf) as [l [-> _]]. cbn [bind].
    destruct (AuditGate.is_dict (AuditGate.doc a "AP")) eqn:Hap.
    2:{ rewrite (risk_gate_raises a Hds Hap). reflexivity. }
    destruct (risk_gate_ok a Hds Hap) as [k [-> _]]. cbn [bind].
    destruct (AuditGate.is_dict (AuditGate.doc a "SM")) eqn:Hsm.
    2:{ rewrite (bias_gate_raises a Hsm). reflexivity. }
    destruct (bias_gate_ok a Hsm Hes Hds) as [b [-> _]]. cbn [bind].
    destruct (AuditGate.is_dict (AuditGate.doc a "IC")) eqn:Hic.
    2:{ rewrite (clarity_gate_raises a Hic). reflexivity. }
    exfalso. unfold AuditSpec.well_formed in Hwf. simpl in Hwf.
    fold a in Hwf. rewrite Hic, Hes, Hfpf, Hwm, Hsm, Hds, Hap in Hwf. discriminate.
  - intro E. destruct (AuditSpec.well_formed (AuditGate.artifacts ctx)) eqn:Hwf; [|reflexivity].
    destruct (evaluate_returns strict now ctx Hwf) as [r [E' _]]. congruence.
Qed.

(** The bundle of [test_audit_gate_passes_with_minimum_artifacts]. *)
Definition minimum_artifacts : dict pyval :=
  [ ("IC", PDict [ ("Goal", PStr "Reduce latency");
                   ("Deliverable", PStr "Staged plan");
                   ("Success metrics", PList [PStr "service_latency_median"]);
                   ("Citizen summary",
                    PStr "We will reduce latency with staged rollout and publish metrics.") ]);
    ("ES", PDict [ ("Facts", PList [PStr "baseline collected"]);
                   ("Assumptions", PList [PStr "pilot reflects reality"]);
                   ("Unknowns", PList [PStr "staff capacity variance"]);
                   ("Sources", PList [PStr "internal metrics"]);
                   ("Data risks", PList [PStr "gaming KPIs"]) ]);
    ("FPF", PDict [ ("Variables", PList [PStr "queue_size"]);
                    ("Levers", PList [PStr "staged_rollout"]);
                    ("Falsifiers", PList [PStr "Latency down but errors up"]);
                    ("Minimal tests", PList [PStr "pilot test"]) ]);
    ("WM", PDict [ ("Causal structure", PStr "queue/capacity affects latency");
                   ("Loops", PList [PStr "rework loop"]);
                   ("Delays", PList [PStr "policy lag"]);
                   ("Bottlenecks", PList [PStr "review"]);
                   ("Constraints", PList [PStr "due process"]) ]);
    ("SM", PDict [ ("Actors & incentives",
                    PList [PStr "citizens want fast"; PStr "staff avoid risk"]);
                   ("Hidden costs/externalities", PList [PStr "shadow paperwork"]);
                   ("Corruption surfaces", PList [PStr "discretion without logs"]) ]);
    ("DS", PDict [ ("Option A", PDict [("name", PStr "Safe")]);
                   ("Option B", PDict [("name", PStr "Balanced")]);
                   ("Global downside bound", PStr "no scale if falsified");
                   ("Rollback plan", PStr "revert to stable stage");
                   ("Kill-switch", PStr "freeze rollout") ]);
    ("AP", PDict [ ("Stages", PList [PStr "Pilot"]);
                   ("Instrumentation", PStr "collect metrics");
                   ("Metrics & thresholds", PDict [("error_rate", PStr "<= +10%")]);
                   ("Rollback", PStr "revert");
                   ("Kill-switch", PStr "freeze");
                   ("Execution checklist", PList [PStr "log everything"]);
                   ("Citizen summary", PStr "Staged rollout with rollback.") ]) ].

(** The bundle of [test_audit_gate_fails_when_missing_core_fields]. *)
Definition goal_only_artifacts : dict pyval :=
  [ ("IC", PDict [("Goal", PStr "x")]) ].


(** C6, as stated, fails on the empty bundle: all five gates fail, and
    [minimum_fixes] holds eight strings, the two fixes of the Truth gate and
    the three of the Logic and of the Risk gate each, whereas the first fix
    of each failed gate would be five strings. *)
Lemma minimum_fixes_holds_every_fix :
  match AuditGate.evaluate true "now"
          {| AuditGate.artifacts := []; AuditGate.ctx_metadata := [] |} with
  | Ok r =>
      map AuditGate.verdict (AuditGate.gate_results r)
      = ["FAIL"; "FAIL"; "FAIL"; "FAIL"; "FAIL"]
      /\ map (fun gr => List.length (AuditGate.fixes gr)) (AuditGate.gate_results r)
         = [2; 3; 3; 1; 3]%nat
      /\ List.length (AuditGate.minimum_fixes r) = 8%nat
      /\ List.length (first_fix_of_each_failed (AuditGate.gate_results r)) = 5%nat
      /\ AuditGate.minimum_fixes r
         <> firstn 8 (dedup_first (first_fix_of_each_failed (AuditGate.gate_results r)))
  | Raise _ => False
  end.
Proof.
  vm_compute. repeat split; try reflexivity. intro E. discriminate E.
Qed.

(** C6 (amended): in every report, [minimum_fixes] is the list of the fix
    strings of the FAILed gates (every fix of each such gate, in the order the
    gate detected them), taken in gate order, each string kept once at its
    first occurrence, and cut to its first 8 entries; so it holds at most 8
    entries, no string twice, and only fixes of failed gates. *)
Theorem minimum_fixes_spec (strict : bool) (now : string) (ctx : AuditGate.AuditContext) :
  AuditSpec.well_formed (AuditGate.artifacts ctx) = true ->
  exists r,
    AuditGate.evaluate strict now ctx = Ok r
    /\ map AuditGate.gate (AuditGate.gate_results r)
       = ["Truth Gate"; "Logic Gate"; "Risk Gate"; "Bias Gate"; "Clarity Gate"]
    /\ AuditGate.minimum_fixes r
       = firstn 8 (dedup_first (failed_fixes (AuditGate.gate_results r)))
    /\ (List.length (AuditGate.minimum_fixes r) <= 8)%nat
    /\ NoDup (AuditGate.minimum_fixes r)
    /\ (forall f, In f (AuditGate.minimum_fixes r) ->
          exists gr, In gr (AuditGate.gate_results r)
                     /\ AuditGate.verdict gr = "FAIL" /\ In f (AuditGate.fixes gr)).
Proof.
  intro Hwf.
  destruct (evaluate_returns strict now ctx Hwf) as [r [E HF]].
  exists r. split; [exact E|].
  destruct (evaluate_report strict now ctx r E)
    as [t [l [k [b [c [_ [_ [_ [_ [_ [Hg [_ Hm]]]]]]]]]]]].
  rewrite collect_fixes_spec in Hm.
  split.
  { rewrite Hg in HF |- *. unfold AuditSpec.gates in HF.
    repeat match goal with
           | Hx : Forall2 _ (_ :: _) (_ :: _) |- _ => inversion Hx; clear Hx; subst
           end.
    repeat match goal with
           | Hx : gate_result_ok _ _ |- _ => destruct Hx as [Hx _]; simpl in Hx
           end.
    simpl. congruence. }
  split; [exact Hm|]. rewrite Hm.
  split; [apply firstn_le_length|].
  split; [apply firstn_NoDup, dedup_first_NoDup|].
  intros f Hf.
  assert (Hin : In f (dedup_first (failed_fixes (AuditGate.gate_results r)))).
  { rewrite <- (firstn_skipn 8). apply in_or_app. left. exact Hf. }
  apply (proj1 (dedup_first_In _ _)) in Hin. unfold failed_fixes in Hin.
  apply in_flat_map in Hin. destruct Hin as [gr [Hgr Hfix]].
  apply filter_In in Hgr. destruct Hgr as [Hgr Hfail].
  exists gr. split; [exact Hgr|]. split; [|exact Hfix].
  apply String.eqb_eq. exact Hfail.
Qed.

Lemma minimum_fixes_spec_witness :
  AuditSpec.well_formed goal_only_artifacts = true
  /\ exists r,
       AuditGate.evaluate true "now"
         {| AuditGate.artifacts := goal_only_artifacts; AuditGate.ctx_metadata := [] |} = Ok r
       /\ (List.length (AuditGate.minimum_fixes r) <= 8)%nat
       /\ NoDup (AuditGate.minimum_fixes r).
Proof.
  split; [reflexivity|].
  destruct (minimum_fixes_spec true "now"
              {| AuditGate.artifacts := goal_only_artifacts; AuditGate.ctx_metadata := [] |}
              eq_refl)
    as [r [E [_ [_ [Hlen [Hnd _]]]]]].
  exists r. auto.
Defined.

(** C7: the claim does not hold of the code.  A document whose body is a
    non-empty string is not replaced by [{}] (only a falsy body is), and the
    first [.get] on it raises [AttributeError]; more generally [evaluate]
    raises on exactly the bundles with a document body that is truthy and not
    a mapping. *)
Theorem evaluate_raises_on_non_mapping_document :
  AuditGate.evaluate true "now"
    {| AuditGate.artifacts := [("ES", PStr "free text")]; AuditGate.ctx_metadata := [] |}
  = Raise (AttributeError "get")
  /\ (forall strict now ctx,
        AuditGate.evaluate strict now ctx = Raise (AttributeError "get") <->
        exists name, In name AuditSpec.documents
                     /\ truthy (get (AuditGate.artifacts ctx) name) = true
                     /\ AuditGate.is_dict (get (AuditGate.artifacts ctx) name) = false).
Proof.
  split; [vm_compute; reflexivity|].
  intros strict now ctx. rewrite <- evaluate_raises_iff.
  unfold AuditSpec.well_formed. split.
  - intro Hwf.
    destruct (forallb (fun name => AuditGate.is_dict (AuditGate.doc (AuditGate.artifacts ctx) name))
                AuditSpec.documents) eqn:F; [discriminate|].
    clear Hwf.
    assert (Hex : exists name, In name AuditSpec.documents
                   /\ AuditGate.is_dict (AuditGate.doc (AuditGate.artifacts ctx) name) = false).
    { induction AuditSpec.documents as [|n ns IH]; simpl in F; [discriminate|].
      apply andb_false_iff in F. destruct F as [F|F].
      - exists n. simpl. auto.
      - destruct (IH F) as [n' [Hin Hn']]. exists n'. simpl. auto. }
    destruct Hex as [name [Hin Hd]]. exists name. split; [exact Hin|].
    unfold AuditGate.doc, or_ in Hd.
    destruct (truthy (get (AuditGate.artifacts ctx) name)); [auto|discriminate].
  - intros [name [Hin [Ht Hd]]].
    destruct (forallb (fun name => AuditGate.is_dict (AuditGate.doc (AuditGate.artifacts ctx) name))
                AuditSpec.documents) eqn:F; [|reflexivity].
    rewrite forallb_forall in F. specialize (F name Hin).
    unfold AuditGate.doc, or_ in F. rewrite Ht in F. congruence.
Qed.

(* ----------------------------------------------------------------- *)
(** ** The JSON parser: every call consumes input, so its fuel suffices *)

Section ParserTermination.
Context `{PyText}.
Import Json.

Lemma skip_ws_length (s : string) : String.length (skip_ws s) <= String.length s.
Proof.
  induction s as [|a s IH]; simpl; [lia|].
  destruct (is_ws a); simpl; lia.
Qed.

Lemma prepend_inv (t : string) (rest : option (string * string)) (t' r : string) :
  prepend t rest = Some (t', r) -> exists t0, rest = Some (t0, r).
Proof. destruct rest as [[t0 r0]|]; simpl; [|discriminate]. intro E. inversion E. eauto. Qed.

Lemma scan_string_shorter (n : nat) :
  forall s t r, String.length s <= n -> scan_string s = Some (t, r) ->
                String.length r < String.length s.
Proof.
  induction n as [|n IH]; intros s t r Hn.
  - destruct s; [discriminate|simpl in Hn; lia].
  - destruct s as [|a s1]; [discriminate|]. simpl in Hn.
    cbn [scan_string].
    destruct (Ascii.eqb a dquote).
    { intro E. inversion E. subst. simpl. lia. }
    destruct (Ascii.eqb a backslash).
    2:{ destruct (N_of_ascii a <? 32)%N; [discriminate|].
        intro E. apply prepend_inv in E. destruct E as [t0 E].
        apply IH in E; [simpl; lia|lia]. }
    destruct s1 as [|e s2]; [discriminate|]. simpl in Hn.
    destruct (Ascii.eqb e "u").
    2:{ destruct (simple_escape e); [|discriminate].
        intro E. apply prepend_inv in E. destruct E as [t0 E].
        apply IH in E; [simpl; lia|lia]. }
    destruct s2 as [|h1 [|h2 [|h3 [|h4 s3]]]]; try discriminate. simpl in Hn.
    destruct (hex4val h1 h2 h3 h4) as [hi|]; [|discriminate].
    assert (Hs3 : forall t', prepend t' (scan_string s3) = Some (t, r) ->
                             String.length r < String.length (String a (String e (String h1 (String h2 (String h3 (String h4 s3))))))).
    { intros t' E. apply prepend_inv in E. destruct E as [t0 E].
      apply IH in E; [simpl; lia|lia]. }
    destruct s3 as [|b1 [|b2 [|l1 [|l2 [|l3 [|l4 s4]]]]]]; try (apply Hs3).
    destruct (low_surrogate hi b1 b2 l1 l2 l3 l4); [|apply Hs3].
    intro E. apply prepend_inv in E. destruct E as [t0 E].
    apply IH in E; [simpl; lia|simpl in Hn; lia].
Qed.

Lemma span_digits_length (s : string) :
  String.length (fst (span_digits s)) + String.length (snd (span_digits s)) = String.length s.
Proof.
  induction s as [|a s IH]; simpl; [reflexivity|].
  destruct (is_digit a); simpl; [|lia].
  destruct (span_digits s) as [ds r]. simpl in *. lia.
Qed.

Lemma span_digits_rest (s : string) :
  String.length (snd (span_digits s)) <= String.length s.
Proof. pose proof (span_digits_length s). lia. Qed.

Lemma scan_int_part_shorter (s ip r : string) :
  scan_int_part s = Some (ip, r) -> String.length r < String.length s.
Proof.
  destruct s as [|a s']; [discriminate|]. unfold scan_int_part.
  destruct (Ascii.eqb a "0").
  - intro E. inversion E. subst. simpl. lia.
  - destruct (is_digit a) eqn:Ed; [|discriminate].
    intro E. inversion E as [E']. clear E.
    cbn [span_digits] in E'. rewrite Ed in E'.
    pose proof (span_digits_rest s') as Hl.
    destruct (span_digits s') as [ds r']. inversion E'. subst. simpl in *. lia.
Qed.

Lemma scan_frac_rest (s : string) :
  String.length (snd (scan_frac s)) <= String.length s.
Proof.
  destruct s as [|a s']; [simpl; lia|]. unfold scan_frac.
  destruct (Ascii.eqb a "."); [|simpl; lia].
  pose proof (span_digits_rest s') as Hl.
  destruct (span_digits s') as [[|d ds] r]; simpl in *; lia.
Qed.

Lemma scan_exp_rest (s : string) :
  String.length (snd (scan_exp s)) <= String.length s.
Proof.
  destruct s as [|a s']; [simpl; lia|]. unfold scan_exp.
  destruct (Ascii.eqb a "e" || Ascii.eqb a "E"); [|simpl; lia].
  destruct s' as [|b t].
  - simpl. lia.
  - destruct (Ascii.eqb b "+" || Ascii.eqb b "-").
    + pose proof (span_digits_rest t) as Hl.
      destruct (span_digits t) as [[|d ds] r]; simpl in *; lia.
    + pose proof (span_digits_rest (String b t)) as Hl.
      destruct (span_digits (String b t)) as [[|d ds] r]; simpl in *; lia.
Qed.

Lemma scan_number_shorter (neg : bool) (s : string) (v : pyval) (r : string) :
  scan_number neg s = Some (v, r) -> String.length r < String.length s.
Proof.
  unfold scan_number.
  destruct (scan_int_part s) as [[ip r1]|] eqn:Ei; [|discriminate].
  apply scan_int_part_shorter in Ei.
  pose proof (scan_frac_rest r1) as Hf.
  destruct (scan_frac r1) as [fp r2]. simpl in Hf.
  pose proof (scan_exp_rest r2) as He.
  destruct (scan_exp r2) as [ep r3]. simpl in He.
  destruct fp, ep; try (destruct (float_of_str _); [|discriminate]);
    intro E; inversion E; subst; lia.
Qed.

Lemma starts_with_length (p s r : string) :
  starts_with p s = Some r -> String.length r + String.length p = String.length s.
Proof.
  revert s. induction p as [|a p IH]; intros s; simpl.
  - intro E. inversion E. lia.
  - destruct s as [|b s']; [discriminate|].
    destruct (Ascii.eqb a b); [|discriminate].
    intro E. apply IH in E. simpl. lia.
Qed.


Ltac ws_len x :=
  let Hw := fresh "Hw" in
  pose proof (skip_ws_length x) as Hw;
  destruct (skip_ws x) eqn:?; simpl in Hw.

Lemma parse_shorter (fuel : nat) :
  (forall s v r, parse_value fuel s = Some (v, r) -> String.length r < String.length s)
  /\ (forall s acc v r, parse_elements fuel s acc = Some (v, r) ->
                         String.length r < String.length s)
  /\ (forall s acc v r, parse_members fuel s acc = Some (v, r) ->
                         String.length r < String.length s).
Proof.
  induction fuel as [|k [IHv [IHe IHm]]].
  - repeat split; intros; discriminate.
  - split; [|split].
    + intros s v r. destruct s as [|a s']; [discriminate|]. cbn [parse_value].
      destruct (Ascii.eqb a dquote).
      { destruct (scan_string s') as [[t r0]|] eqn:Es; [|discriminate].
        apply (scan_string_shorter _ _ _ _ (le_n _)) in Es.
        intro E. inversion E. subst. simpl. lia. }
      destruct (Ascii.eqb a "{").
      { ws_len s'; [discriminate|].
        destruct (Ascii.eqb _ "}").
        - intro E. inversion E. subst. simpl. lia.
        - intro E. apply IHm in E. simpl in *. lia. }
      destruct (Ascii.eqb a "[").
      { ws_len s'; [discriminate|].
        destruct (Ascii.eqb _ "]").
        - intro E. inversion E. subst. simpl. lia.
        - intro E. apply IHe in E. simpl in *. lia. }
      destruct (Ascii.eqb a "n").
      { destruct (starts_with "null" _) eqn:Es; [|discriminate].
        apply starts_with_length in Es. intro E. inversion E. subst. simpl in *. lia. }
      destruct (Ascii.eqb a "t").
      { destruct (starts_with "true" _) eqn:Es; [|discriminate].
        apply starts_with_length in Es. intro E. inversion E. subst. simpl in *. lia. }
      destruct (Ascii.eqb a "f").
      { destruct (starts_with "false" _) eqn:Es; [|discriminate].
        apply starts_with_length in Es. intro E. inversion E. subst. simpl in *. lia. }
      destruct (Ascii.eqb a "N").
      { destruct (starts_with "NaN" _) eqn:Es; [|discriminate].
        apply starts_with_length in Es. intro E. inversion E. subst. simpl in *. lia. }
      destruct (Ascii.eqb a "I").
      { destruct (starts_with "Infinity" _) eqn:Es; [|discriminate].
        apply starts_with_length in Es. intro E. inversion E. subst. simpl in *. lia. }
      destruct (Ascii.eqb a "-").
      { destruct (starts_with "Infinity" s') eqn:Es.
        - apply starts_with_length in Es. intro E. inversion E. subst. simpl in *. lia.
        - intro E. apply scan_number_shorter in E. simpl. lia. }
      intro E. apply scan_number_shorter in E. exact E.
    + intros s acc v r. cbn [parse_elements].
      destruct (parse_value k s) as [[v1 r1]|] eqn:Ev; [|discriminate].
      apply IHv in Ev.
      ws_len r1; [discriminate|].
      destruct (Ascii.eqb _ "]").
      { intro E. inversion E. subst. lia. }
      destruct (Ascii.eqb _ ","); [|discriminate].
      intro E. apply IHe in E.
      match type of E with
      | _ < String.length (skip_ws ?x) => pose proof (skip_ws_length x)
      end. lia.
    + intros s acc v r. cbn [parse_members].
      destruct s as [|q s']; [discriminate|].
      destruct (Ascii.eqb q dquote); [|discriminate].
      destruct (scan_string s') as [[key r0]|] eqn:Es; [|discriminate].
      apply (scan_string_shorter _ _ _ _ (le_n _)) in Es.
      ws_len r0; [discriminate|].
      destruct (Ascii.eqb _ ":"); [|discriminate].
      match goal with
      | |- context [parse_value k (skip_ws ?x)] =>
          pose proof (skip_ws_length x);
          destruct (parse_value k (skip_ws x)) as [[v2 r2]|] eqn:Ev; [|discriminate]
      end.
      apply IHv in Ev.
      ws_len r2; [discriminate|].
      destruct (Ascii.eqb _ "}").
      { intro E. inversion E. subst. simpl. lia. }
      destruct (Ascii.eqb _ ","); [|discriminate].
      intro E. apply IHm in E.
      match type of E with
      | _ < String.length (skip_ws ?x) => pose proof (skip_ws_length x)
      end. simpl. lia.
Qed.


(** Fuel beyond twice the length of the text changes nothing. *)
Lemma parse_fuel (fuel : nat) :
  forall fuel', fuel <= fuel' ->
  (forall s, 2 * String.length s + 1 <= fuel -> parse_value fuel' s = parse_value fuel s)
  /\ (forall s acc, 2 * String.length s + 2 <= fuel ->
                     parse_elements fuel' s acc = parse_elements fuel s acc)
  /\ (forall s acc, 2 * String.length s + 1 <= fuel ->
                     parse_members fuel' s acc = parse_members fuel s acc).
Proof.
  induction fuel as [|k IH]; intros fuel' Hle.
  - repeat split; intros; lia.
  - destruct fuel' as [|k']; [lia|].
    assert (Hk : k <= k') by lia.
    destruct (IH k' Hk) as [IHv [IHe IHm]]. clear IH.
    split; [|split].
    + intros s Hs. destruct s as [|a s']; [reflexivity|]. cbn [parse_value].
      simpl in Hs.
      destruct (Ascii.eqb a dquote); [reflexivity|].
      destruct (Ascii.eqb a "{").
      { ws_len s'; [reflexivity|].
        destruct (Ascii.eqb _ "}"); [reflexivity|].
        apply IHm. simpl. lia. }
      destruct (Ascii.eqb a "[").
      { ws_len s'; [reflexivity|].
        destruct (Ascii.eqb _ "]"); [reflexivity|].
        apply IHe. simpl. lia. }
      reflexivity.
    + intros s acc Hs. cbn [parse_elements].
      rewrite (IHv s) by lia.
      destruct (parse_value k s) as [[v1 r1]|] eqn:Ev; [|reflexivity].
      apply (proj1 (parse_shorter k)) in Ev.
      ws_len r1; [reflexivity|].
      destruct (Ascii.eqb _ "]"); [reflexivity|].
      destruct (Ascii.eqb _ ","); [|reflexivity].
      apply IHe.
      match goal with
      | |- context [String.length (skip_ws ?x)] => pose proof (skip_ws_length x)
      end. lia.
    + intros s acc Hs. cbn [parse_members].
      destruct s as [|q s']; [reflexivity|]. simpl in Hs.
      destruct (Ascii.eqb q dquote); [|reflexivity].
      destruct (scan_string s') as [[key r0]|] eqn:Es; [|reflexivity].
      apply (scan_string_shorter _ _ _ _ (le_n _)) in Es.
      ws_len r0; [reflexivity|].
      destruct (Ascii.eqb _ ":"); [|reflexivity].
      match goal with
      | |- context [parse_value k (skip_ws ?x)] =>
          pose proof (skip_ws_length x) as Hx;
          rewrite (IHv (skip_ws x)) by lia;
          destruct (parse_value k (skip_ws x)) as [[v2 r2]|] eqn:Ev; [|reflexivity]
      end.
      apply (proj1 (parse_shorter k)) in Ev.
      ws_len r2; [reflexivity|].
      destruct (Ascii.eqb _ "}"); [reflexivity|].
      destruct (Ascii.eqb _ ","); [|reflexivity].
      apply IHm.
      match goal with
      | |- context [String.length (skip_ws ?x)] => pose proof (skip_ws_length x)
      end. lia.
Qed.

(** The fuel that [loads] gives the parser is enough: with any more of it
    the outcome is the same. *)
Lemma loads_fuel_enough (s : string) (fuel : nat) :
  2 * String.length s + 2 <= fuel ->
  parse_value fuel (skip_ws s) = parse_value (2 * String.length s + 2) (skip_ws s).
Proof.
  intro Hf. pose proof (skip_ws_length s) as Hw.
  apply (proj1 (parse_fuel (2 * String.length s + 2) fuel Hf)). lia.
Qed.

End ParserTermination.

(* ----------------------------------------------------------------- *)
(** ** Signed memory *)

Module LogSpec.
Import SignedMemory.

(** A run of [append] calls on one object, in order, up to the first that
    raises: the file afterwards, and the object afterwards with the entries
    returned. *)
Fixpoint append_all `{PyText} (self : memory) (f : file) (entries : list SignedEntry)
  : file * res (memory * list SignedEntry) :=
  match entries with
  | [] => (f, Ok (self, []))
  | e :: es =>
      match append self f e with
      | (f1, Raise ex) => (f1, Raise ex)
      | (f1, Ok (self1, e1)) =>
          match append_all self1 f1 es with
          | (f2, Raise ex) => (f2, Raise ex)
          | (f2, Ok (self2, outs)) => (f2, Ok (self2, e1 :: outs))
          end
      end
  end.

(** The canonical JSON of an entry. *)
Definition line_of `{PyText} (e : SignedEntry) : string :=
  _canonical_json (PDict (to_dict e)).

(** The bytes that [append] writes for an entry: its canonical JSON and a
    newline. *)
Definition written_of `{PyText} (e : SignedEntry) : string :=
  (line_of e ++ TextIO.newline)%string.

(** The bytes that a run of appends writes. *)
Fixpoint written `{PyText} (outs : list SignedEntry) : string :=
  match outs with
  | [] => EmptyString
  | e :: outs' => (written_of e ++ written outs')%string
  end.

(** The bytes of a file that holds these lines, each ended by a newline. *)
Fixpoint text (lines : list string) : string :=
  match lines with
  | [] => EmptyString
  | l :: lines' => (l ++ TextIO.newline ++ text lines')%string
  end.

(** Each entry carries the hash of the one before it, the first [prev]. *)
Fixpoint chained (prev : string) (l : list SignedEntry) : Prop :=
  match l with
  | [] => True
  | e :: l' => prev_hash e = prev /\ chained (hash e) l'
  end.

(** Consecutive sequence numbers from [n]. *)
Fixpoint numbered (n : Z) (l : list SignedEntry) : Prop :=
  match l with
  | [] => True
  | e :: l' => seq e = n /\ numbered (n + 1)%Z l'
  end.

(** The entry with its [hash] and [signature] fields replaced. *)
Definition with_hash_signature (e : SignedEntry) (h s : string) : SignedEntry :=
  {| run_id := run_id e; seq := seq e; event := event e; payload := payload e;
     timestamp_utc := timestamp_utc e; prev_hash := prev_hash e;
     hash := h; signature := s |}.


(** The hash [append] stores: over the entry with the signature cleared and
    the hash field still holding what it held when the entry was passed in
    ([h0]; the empty string for an entry built with the defaults). *)
Definition hash_at_append `{PyText} (h0 : string) (e : SignedEntry) : string :=
  sha256_hex (_canonical_json (PDict (to_dict (with_hash_signature e h0 "")))).

Definition signature_of (secret : option string) (e : SignedEntry) : string :=
  match secret with
  | Some s => hmac_sha256_hex s (hash e)
  | None => ""
  end.

(** What [append] makes of the entry [e_in]. *)
Definition sealed `{PyText} (secret : option string) (e_in e : SignedEntry) : Prop :=
  run_id e = run_id e_in /\ event e = event e_in /\ payload e = payload e_in
  /\ timestamp_utc e = timestamp_utc e_in
  /\ hash e = hash_at_append (hash e_in) e
  /\ signature e = signature_of secret e.

(** A line on which the loop of [verify_chain] goes on: blank, or a JSON
    object whose canonical text can be encoded (it holds no lone
    surrogate). *)
Definition object_line `{PyText} (line : string) : bool :=
  isblank line
  || match Json.loads line with
     | Some (PDict obj) =>
         negb (has_surrogate
                 (_canonical_json (PDict (dict_set obj "signature" (PStr "")))))
     | _ => false
     end.

Definition start : vstate :=
  {| checked := 0; v_prev_hash := PStr ""; bad := 0; notes := [] |}.

(** The object that the constructor leaves on a missing log. *)
Definition fresh (signing_secret : string) : memory :=
  {| _secret := if signing_secret =? "" then None else Some signing_secret;
     _seq := 0;
     _prev_hash := "" |}.

(** An entry built with the defaults, as the orchestrator builds them. *)
Definition run_start : SignedEntry :=
  {| run_id := "r1"; seq := 0; event := "RUN_START";
     payload := [("task", PStr "t")];
     timestamp_utc := "2024-01-01T00:00:00+00:00";
     prev_hash := ""; hash := ""; signature := "" |}.

(** Two appends of it on a fresh object with a signing secret. *)
Definition demo_run : file * res (memory * list SignedEntry) :=
  @append_all plain_text (fresh "s3cret") None [run_start; run_start].

Definition demo_file : file := fst demo_run.

Definition demo_memory : memory :=
  match snd demo_run with
  | Ok (m, _) => m
  | Raise _ => fresh "s3cret"
  end.


End LogSpec.

(** A hex digest is plain ASCII. *)
Lemma has_surrogate_below (s : string) :
  (forall a, In a (list_ascii_of_string s) -> N_of_ascii a <> 237%N) ->
  has_surrogate s = false.
Proof.
  induction s as [|a s IH]; [reflexivity|].
  intro Hall. destruct s as [|b s']; [reflexivity|].
  change (has_surrogate (String a (String b s')))
    with (((N_of_ascii a =? 237) && (160 <=? N_of_ascii b))%N
          || has_surrogate (String b s')).
  rewrite IH.
  - assert (Ha : N_of_ascii a <> 237%N) by (apply Hall; left; reflexivity).
    apply N.eqb_neq in Ha. rewrite Ha. reflexivity.
  - intros c Hc. apply Hall. right. exact Hc.
Qed.

Lemma hexdigit_ascii (x : N) : N_of_ascii (Sha256.hexdigit x) <> 237%N.
Proof.
  unfold Sha256.hexdigit. cbv zeta.
  assert (Hd : (x mod 16 < 16)%N) by (apply N.mod_lt; discriminate).
  destruct (x mod 16 <? 10)%N eqn:E; rewrite N_ascii_embedding; lia.
Qed.

Lemma hex_no_surrogate (bs : list N) : has_surrogate (Sha256.hex bs) = false.
Proof.
  apply has_surrogate_below. induction bs as [|b bs IH]; simpl; [tauto|].
  intros a [<-|[<-|Ha]]; [apply hexdigit_ascii|apply hexdigit_ascii|auto].
Qed.

Lemma hmac_of_digest_ok (secret s : string) :
  _hmac_sha256_hex secret (sha256_hex s) = Ok (hmac_sha256_hex secret (sha256_hex s)).
Proof.
  unfold _hmac_sha256_hex, encode, sha256_hex. rewrite hex_no_surrogate. reflexivity.
Qed.

Section LogProps.
Context `{PyText} `{PyIO}.
Import SignedMemory LogSpec.

Lemma encode_inv (s b : string) : encode s = Ok b -> b = s.
Proof. unfold encode. destruct (has_surrogate s); congruence. Qed.

Lemma sha256_inv (s h : string) : _sha256_hex s = Ok h -> h = sha256_hex s.
Proof.
  unfold _sha256_hex. destruct (encode s) as [b|ex] eqn:E; cbn [bind]; [|discriminate].
  apply encode_inv in E. congruence.
Qed.

Lemma compute_signature_inv (self : memory) (t sg : string) :
  _compute_signature self (sha256_hex t) = Ok sg ->
  sg = match _secret self with
       | Some secret => hmac_sha256_hex secret (sha256_hex t)
       | None => ""
       end.
Proof.
  unfold _compute_signature. destruct (_secret self) as [secret|].
  - rewrite hmac_of_digest_ok. congruence.
  - congruence.
Qed.

(** What a call of [append] that returns has done. *)
Lemma append_ok (self self' : memory) (f f' : file) (e e' : SignedEntry) :
  append self f e = (f', Ok (self', e')) ->
  f' = Some (content f ++ written_of e')%string
  /\ self' = {| _secret := _secret self; _seq := (_seq self + 1)%Z;
                _prev_hash := hash e' |}
  /\ sealed (_secret self) e e'
  /\ prev_hash e' = _prev_hash self
  /\ seq e' = _seq self.
Proof.
  unfold append. cbv zeta.
  match goal with
  | |- context [_compute_hash ?d] => destruct (_compute_hash d) as [h|ex] eqn:Eh
  end; cbn [bind]; [|discriminate].
  destruct (_compute_signature self h) as [sg|ex] eqn:Es; cbn [bind]; [|discriminate].
  match goal with
  | |- context [encode ?t] => destruct (encode t) as [line|ex] eqn:El
  end; [|discriminate].
  intro E. injection E as <- <- <-.
  apply encode_inv in El. apply sha256_inv in Eh. subst line h.
  apply compute_signature_inv in Es. subst sg.
  unfold sealed, written_of, line_of, hash_at_append, signature_of.
  cbn [run_id event payload timestamp_utc hash signature prev_hash seq].
  repeat split; reflexivity.
Qed.

Lemma append_all_spec (entries : list SignedEntry) (self self' : memory) (f f' : file)
  (outs : list SignedEntry) :
  append_all self f entries = (f', Ok (self', outs)) ->
  content f' = (content f ++ written outs)%string
  /\ _secret self' = _secret self
  /\ _seq self' = (_seq self + Z.of_nat (List.length entries))%Z
  /\ Forall2 (sealed (_secret self)) entries outs
  /\ chained (_prev_hash self) outs
  /\ numbered (_seq self) outs.
Proof.
  revert self f outs. induction entries as [|e es IH]; intros self f outs.
  - simpl. intro E. inversion E. subst.
    simpl. rewrite Z.add_0_r.
    assert (Hnil : forall x : string, (x ++ "")%string = x).
    { intro x. induction x as [|a x IHx]; simpl; [reflexivity|]. rewrite IHx. reflexivity. }
    rewrite Hnil. repeat split; auto.
  - cbn [append_all].
    destruct (append self f e) as [f1 [[self1 e1]|ex]] eqn:Ea; [|discriminate].
    destruct (append_all self1 f1 es) as [f2 [[self2 outs']|ex]] eqn:Eall; [|discriminate].
    intro E. inversion E. subst f2 self2 outs. clear E.
    destruct (append_ok _ _ _ _ _ _ Ea) as [Hf1 [Hself1 [Hse [Hp Hn]]]].
    destruct (IH _ _ _ Eall) as [Hl [Hs [Hq [Hsealed [Hch Hnum]]]]].
    rewrite Hself1 in Hs, Hq, Hsealed, Hch, Hnum.
    cbn [_secret _seq _prev_hash] in Hs, Hq, Hsealed, Hch, Hnum.
    rewrite Hf1 in Hl. cbn [content] in Hl.
    split.
    { rewrite Hl. cbn [written].
      assert (Hassoc : forall x y z : string, ((x ++ y) ++ z = x ++ (y ++ z))%string).
      { intros x y z. induction x as [|a x IHx]; simpl; [reflexivity|].
        rewrite IHx. reflexivity. }
      apply Hassoc. }
    split; [exact Hs|].
    split.
    { rewrite Hq. cbn [List.length]. lia. }
    split; [constructor; assumption|].
    split; [split; assumption|].
    split; assumption.
Qed.

(** On bytes that are UTF-8 the loop gets every line and the iteration
    ends; on other bytes it raises. *)
Lemma read_text_valid (b : string) :
  TextIO.utf8_valid b = true -> TextIO.read_text b = (TextIO.all_lines b, false).
Proof. unfold TextIO.read_text. intros ->. reflexivity. Qed.

Lemma read_text_invalid (b : string) :
  TextIO.utf8_valid b = false -> snd (TextIO.read_text b) = true.
Proof. unfold TextIO.read_text. intros ->. reflexivity. Qed.

Lemma verify_lines_app (self : memory) (pre rest : list string) (st : vstate) :
  verify_lines self st (pre ++ rest)
  = match verify_lines self st pre with
    | Ok st' => verify_lines self st' rest
    | Raise e => Raise e
    end.
Proof.
  revert st. induction pre as [|l pre IH]; intro st; simpl; [reflexivity|].
  destruct (verify_line self st l); [apply IH|reflexivity].
Qed.

(** The loop goes on exactly on the lines that are blank or encodable
    objects. *)
Lemma verify_line_object (self : memory) (st : vstate) (line : string) :
  object_line line = true <-> exists st', verify_line self st line = Ok st'.
Proof.
  unfold object_line, verify_line.
  destruct (isblank line); [cbn [orb]; split; eauto|]. cbn [orb].
  destruct (Json.loads line) as [v|];
    [|split; [discriminate|intros [st' E]; discriminate]].
  destruct v as [| | | | | |obj];
    try (split; [discriminate|intros [st' E]; discriminate]).
  unfold _sha256_hex, _canonical_json, encode.
  destruct (has_surrogate (Json.dumps (PDict (dict_set obj "signature" (PStr "")))))
    eqn:Eh; cbn [bind negb].
  - split; [discriminate|intros [st' E]; discriminate].
  - split; [intros _|reflexivity].
    destruct (_secret self) as [secret|].
    + rewrite hmac_of_digest_ok. cbn [bind]. eauto.
    + cbn [bind]. eauto.
Qed.

Lemma verify_lines_objects (self : memory) (lines : list string) (st : vstate) :
  forallb object_line lines = true -> exists st', verify_lines self st lines = Ok st'.
Proof.
  revert st. induction lines as [|l lines IH]; intros st Hall; simpl; [eauto|].
  simpl in Hall. apply andb_true_iff in Hall. destruct Hall as [Hl Hall].
  destruct (proj1 (verify_line_object self st l) Hl) as [st' ->]. apply IH. exact Hall.
Qed.

Lemma verify_line_invalid (self : memory) (st : vstate) (line : string) :
  isblank line = false -> Json.loads line = None ->
  verify_line self st line = Raise JSONDecodeError.
Proof. unfold verify_line. intros -> ->. reflexivity. Qed.

Lemma verify_lines_invalid (self : memory) (lines : list string) (line : string) (st : vstate) :
  In line lines -> isblank line = false -> Json.loads line = None ->
  exists e, verify_lines self st lines = Raise e.
Proof.
  intros Hin Hb Hl. revert st.
  induction lines as [|l lines IH]; intro st; [destruct Hin|].
  simpl. destruct (verify_line self st l) as [st'|e] eqn:E; [|eauto].
  destruct Hin as [->|Hin].
  - rewrite (verify_line_invalid self st line Hb Hl) in E. discriminate.
  - apply IH. exact Hin.
Qed.

(** [verify_chain] on bytes that are UTF-8 is the loop on their lines. *)
Lemma verify_chain_valid (self : memory) (b : string) :
  TextIO.utf8_valid b = true ->
  verify_chain self (Some b)
  = match verify_lines self start (TextIO.all_lines b) with
    | Raise e => Raise e
    | Ok st =>
        Ok [ ("ok", PBool (bad st =? 0)%nat);
             ("checked", PInt (Z.of_nat (checked st)));
             ("bad", PInt (Z.of_nat (bad st)));
             ("notes", PList (map PStr (firstn 20 (notes st))));
             ("signature_enabled", PBool (has_secret self)) ]
    end.
Proof.
  intro Hv. unfold verify_chain. rewrite (read_text_valid b Hv). reflexivity.
Qed.

(** On bytes that are not UTF-8 [verify_chain] raises: on a line that the
    loop gets before the iteration fails, or with the decoding error. *)
Lemma verify_chain_undecodable (self : memory) (b : string) :
  TextIO.utf8_valid b = false ->
  verify_chain self (Some b)
  = match verify_lines self start (fst (TextIO.read_text b)) with
    | Raise e => Raise e
    | Ok _ => Raise UnicodeDecodeError
    end.
Proof.
  intro Hv. unfold verify_chain. pose proof (read_text_invalid b Hv) as Hr.
  destruct (TextIO.read_text b) as [lines raised]. cbn [fst snd] in *. subst raised.
  fold start. destruct (verify_lines self start lines); reflexivity.
Qed.

End LogProps.

(** C1: the claim does not hold of the code.  [append] hashes the entry
    while its hash field still holds the value it came with (the empty
    string), and [verify_chain] recomputes the hash over the parsed line,
    whose hash field holds the stored hash; so the log that one [append] on a
    fresh object writes is reported with a hash mismatch: ok is false and bad
    is 1, with no tampering at all (and bad is 2, with a signature mismatch
    besides, when a signing secret is set). *)
Theorem verify_chain_rejects_untampered_log `{PyText} `{PyIO} :
  match SignedMemory.init "" None with
  | Ok fresh =>
      match SignedMemory.append fresh None LogSpec.run_start with
      | (f, Ok (self, e)) =>
          f = Some (LogSpec.written_of e)
          /\ SignedMemory.verify_chain self f
             = Ok [ ("ok", PBool false); ("checked", PInt 1); ("bad", PInt 1);
                    ("notes", PList [PStr "Hash mismatch at seq=0"]);
                    ("signature_enabled", PBool false) ]
      | (_, Raise _) => False
      end
  | Raise _ => False
  end
  /\ match SignedMemory.init "s3cret" None with
     | Ok fresh =>
         match SignedMemory.append fresh None LogSpec.run_start with
         | (f, Ok (self, e)) =>
             f = Some (LogSpec.written_of e)
             /\ SignedMemory.verify_chain self f
                = Ok [ ("ok", PBool false); ("checked", PInt 1); ("bad", PInt 2);
                       ("notes", PList [PStr "Hash mismatch at seq=0";
                                        PStr "Signature mismatch at seq=0"]);
                       ("signature_enabled", PBool true) ]
         | (_, Raise _) => False
         end
     | Raise _ => False
     end.
Proof. vm_compute. repeat split; reflexivity. Qed.




(** C8, as stated, fails when the log file does not exist: the mapping
    returned then has the keys ok, checked and notes only. *)
Lemma missing_log_report_lacks_keys :
  match @SignedMemory.verify_chain plain_text plain_io (LogSpec.fresh "") None with
  | Ok report =>
      map fst report = ["ok"; "checked"; "notes"]
      /\ dict_get report "bad" = None
      /\ dict_get report "signature_enabled" = None
  | Raise _ => False
  end.
Proof. vm_compute. repeat split; reflexivity. Qed.

(** C8 (amended): when the log file does not exist, [verify_chain] returns
    a mapping with ok true and checked 0; when the file exists and each of its
    lines is blank or parses to a JSON object (with no lone surrogate in its
    text), it returns a mapping with exactly the keys ok, checked, bad, notes
    and signature_enabled, where ok says that bad is 0, notes holds the first
    20 mismatch notes, and signature_enabled says whether a secret is set.
    (A file has lines when its bytes are UTF-8.) *)
Theorem verify_chain_report `{PyText} `{PyIO}
  (self : SignedMemory.memory) (f : SignedMemory.file) :
  match f with
  | None =>
      exists report,
        SignedMemory.verify_chain self f = Ok report
        /\ dict_get report "ok" = Some (PBool true)
        /\ dict_get report "checked" = Some (PInt 0)
  | Some b =>
      TextIO.utf8_valid b = true ->
      forallb LogSpec.object_line (TextIO.all_lines b) = true ->
      exists st report,
        SignedMemory.verify_lines self LogSpec.start (TextIO.all_lines b) = Ok st
        /\ SignedMemory.verify_chain self f = Ok report
        /\ map fst report = ["ok"; "checked"; "bad"; "notes"; "signature_enabled"]
        /\ dict_get report "ok" = Some (PBool (SignedMemory.bad st =? 0)%nat)
        /\ dict_get report "checked" = Some (PInt (Z.of_nat (SignedMemory.checked st)))
        /\ dict_get report "bad" = Some (PInt (Z.of_nat (SignedMemory.bad st)))
        /\ dict_get report "notes"
           = Some (PList (map PStr (firstn 20 (SignedMemory.notes st))))
        /\ (List.length (firstn 20 (SignedMemory.notes st)) <= 20)%nat
        /\ dict_get report "signature_enabled"
           = Some (PBool (SignedMemory.has_secret self))
  end.
Proof.
  destruct f as [b|]; [|eexists; repeat split; reflexivity].
  intros Hv Hall.
  destruct (verify_lines_objects self (TextIO.all_lines b) LogSpec.start Hall) as [st Hst].
  exists st. eexists. split; [exact Hst|].
  rewrite (verify_chain_valid self b Hv), Hst.
  split; [reflexivity|].
  repeat split; try reflexivity. apply firstn_le_length.
Qed.

Lemma verify_chain_report_witness :
  TextIO.utf8_valid (SignedMemory.content LogSpec.demo_file) = true
  /\ forallb (@LogSpec.object_line plain_text)
       (TextIO.all_lines (SignedMemory.content LogSpec.demo_file)) = true
  /\ exists report,
       @SignedMemory.verify_chain plain_text plain_io LogSpec.demo_memory
         (Some (SignedMemory.content LogSpec.demo_file)) = Ok report
       /\ map fst report = ["ok"; "checked"; "bad"; "notes"; "signature_enabled"].
Proof.
  assert (Hv : TextIO.utf8_valid (SignedMemory.content LogSpec.demo_file) = true)
    by (vm_compute; reflexivity).
  assert (Hall : forallb (@LogSpec.object_line plain_text)
                   (TextIO.all_lines (SignedMemory.content LogSpec.demo_file)) = true)
    by (vm_compute; reflexivity).
  split; [exact Hv|]. split; [exact Hall|].
  destruct (@verify_chain_report plain_text plain_io LogSpec.demo_memory
              (Some (SignedMemory.content LogSpec.demo_file)) Hv Hall)
    as [st [report [_ [Hr [Hk _]]]]].
  exists report. split; assumption.
Defined.

(** C9, as stated, fails in two ways.  When an earlier line is valid JSON
    but not an object, [.get] on the parsed value raises [AttributeError]
    before the unparsable line is read.  And a line that is not UTF-8 (here
    the byte 0xFF) is no valid JSON, but the file iterator raises
    [UnicodeDecodeError] before the JSON parser sees it. *)
Lemma earlier_non_object_line_raises_first :
  Json.loads (H := plain_text) (String.append "not json" TextIO.newline) = None
  /\ isblank (String.append "not json" TextIO.newline) = false
  /\ TextIO.all_lines (LogSpec.text ["[]"; "not json"])
     = [String.append "[]" TextIO.newline; String.append "not json" TextIO.newline]
  /\ @SignedMemory.verify_chain plain_text plain_io (LogSpec.fresh "")
       (Some (LogSpec.text ["[]"; "not json"]))
     = Raise (AttributeError "get")
  /\ @SignedMemory.verify_chain plain_text plain_io (LogSpec.fresh "")
       (Some (LogSpec.text [String (ascii_of_N 255) EmptyString]))
     = Raise UnicodeDecodeError.
Proof. vm_compute. repeat split; reflexivity. Qed.

(** C9 (amended): when the log file is UTF-8 text and holds a non-blank
    line that is not valid JSON, [verify_chain] returns no report: it raises.
    The exception is the JSON parse error of that line whenever the loop gets
    to it, that is when each line before it is blank or parses to a JSON
    object (with no lone surrogate in its text); the lines after it are not
    read.  When the bytes of the file are not UTF-8, [verify_chain] raises as
    well: with [UnicodeDecodeError], unless one of the lines that the loop
    gets before the iteration fails makes it raise first. *)
Theorem verify_chain_raises_on_invalid_json `{PyText} `{PyIO}
  (self : SignedMemory.memory) (b : string) :
  (TextIO.utf8_valid b = true ->
   forall line,
     In line (TextIO.all_lines b) -> isblank line = false -> Json.loads line = None ->
     (exists e, SignedMemory.verify_chain self (Some b) = Raise e)
     /\ (forall pre post,
           TextIO.all_lines b = pre ++ line :: post ->
           forallb LogSpec.object_line pre = true ->
           SignedMemory.verify_chain self (Some b) = Raise JSONDecodeError))
  /\ (TextIO.utf8_valid b = false ->
      (exists e, SignedMemory.verify_chain self (Some b) = Raise e)
      /\ (forallb LogSpec.object_line (fst (TextIO.read_text b)) = true ->
          SignedMemory.verify_chain self (Some b) = Raise UnicodeDecodeError)).
Proof.
  split.
  - intros Hv line Hin Hb Hl. rewrite (verify_chain_valid self b Hv). split.
    + destruct (verify_lines_invalid self _ line LogSpec.start Hin Hb Hl) as [e He].
      exists e. rewrite He. reflexivity.
    + intros pre post -> Hpre.
      rewrite verify_lines_app.
      destruct (verify_lines_objects self pre LogSpec.start Hpre) as [st ->].
      simpl. rewrite (verify_line_invalid self st line Hb Hl). reflexivity.
  - intro Hv. rewrite (verify_chain_undecodable self b Hv). split.
    + destruct (SignedMemory.verify_lines self LogSpec.start (fst (TextIO.read_text b)));
        eexists; reflexivity.
    + intro Hall.
      destruct (verify_lines_objects self _ LogSpec.start Hall) as [st ->]. reflexivity.
Qed.

Lemma verify_chain_raises_on_invalid_json_witness :
  @SignedMemory.verify_chain plain_text plain_io (LogSpec.fresh "")
    (Some (LogSpec.text ["{}"; "not json"; "{}"]))
  = Raise JSONDecodeError
  /\ @SignedMemory.verify_chain plain_text plain_io (LogSpec.fresh "")
       (Some (String (ascii_of_N 255) (LogSpec.text ["not json"])))
     = Raise UnicodeDecodeError.
Proof.
  destruct (@verify_chain_raises_on_invalid_json plain_text plain_io (LogSpec.fresh "")
              (LogSpec.text ["{}"; "not json"; "{}"])) as [Hvalid _].
  destruct (@verify_chain_raises_on_invalid_json plain_text plain_io (LogSpec.fresh "")
              (String (ascii_of_N 255) (LogSpec.text ["not json"]))) as [_ Hbad].
  split.
  - refine (proj2 (Hvalid _ (String.append "not json" TextIO.newline) _ _ _)
              [String.append "{}" TextIO.newline] [String.append "{}" TextIO.newline] _ _).
    + vm_compute. reflexivity.
    + vm_compute. auto.
    + vm_compute. reflexivity.
    + vm_compute. reflexivity.
    + vm_compute. reflexivity.
    + vm_compute. reflexivity.
  - apply (proj2 (Hbad eq_refl)). vm_compute. reflexivity.
Defined.

(* ----------------------------------------------------------------- *)
(** ** The embedding on known values *)

Example sha256_empty :
  sha256_hex "" = "e3b0c44298fc1c149afbf4c8996fb92427ae41e4649b934ca495991b7852b855".
Proof. vm_compute. reflexivity. Qed.

Example sha256_abc :
  sha256_hex "abc" = "ba7816bf8f01cfea414140de5dae2223b00361a396177a9cb410ff61f20015ad".
Proof. vm_compute. reflexivity. Qed.

Example sha256_two_blocks :
  sha256_hex "abcdbcdecdefdefgefghfghighijhijkijkljklmklmnlmnomnopnopq"
  = "248d6a61d20638b8e5c026930c3e6039a33ce45964ff2167f6ecedd419db06c1".
Proof. vm_compute. reflexivity. Qed.

Example hmac_sha256_rfc4231_case2 :
  hmac_sha256_hex "Jefe" "what do ya want for nothing?"
  = "5bdcc146bf60754e6a042426089575c75a003f089d2739839dec58b964ec3843".
Proof. vm_compute. reflexivity. Qed.

Example canonical_json_sorts_keys :
  @Json.dumps plain_text
    (PDict [("b", PInt 1); ("a", PList [PStr "x"; PNone; PInt (-5)]); ("B", PDict [])])
  = ("{" ++ Json.quote "B" ++ ":{}," ++ Json.quote "a" ++ ":[" ++ Json.quote "x"
     ++ ",null,-5]," ++ Json.quote "b" ++ ":1}")%string.
Proof. vm_compute. reflexivity. Qed.

Example loads_after_dumps :
  let v := PDict [("a", PList [PStr "x"; PNone; PInt (-5); PBool true]); ("b", PDict [])] in
  @Json.loads plain_text (@Json.dumps plain_text v) = Some v.
Proof. vm_compute. reflexivity. Qed.

Example strip_is_unicode_aware :
  isblank (String (ascii_of_N 32) (String (ascii_of_N 9)
             (String (ascii_of_N 194) (String (ascii_of_N 160) EmptyString)))) = true
  /\ isblank " x " = false.
Proof. vm_compute. split; reflexivity. Qed.

(** Reading a text file: every kind of line end gives [\n], and the last
    line may lack one. *)
Example lines_of_a_text :
  TextIO.all_lines
    (string_of_list_ascii (map ascii_of_N [97; 13; 10; 98; 13; 99; 10; 10; 100]%N))
  = map (fun l => string_of_list_ascii (map ascii_of_N l))
      [[97; 10]; [98; 10]; [99; 10]; [10]; [100]]%N.
Proof. vm_compute. reflexivity. Qed.

(** With reads of four bytes: the loop gets the lines of the reads before
    the one that holds a byte that is no UTF-8, and none of that read; a
    character cut short at the end of the file is refused after the last read;
    [0xED 0xA0] at the end of a read is refused with the next one. *)
Example lines_before_a_refused_byte :
  let io := {| chunk_size := 4 |} in
  let bytes l := string_of_list_ascii (map ascii_of_N l) in
  @TextIO.read_text io (bytes [97; 10; 98; 10; 255; 10]%N)
  = ([bytes [97; 10]%N; bytes [98; 10]%N], true)
  /\ @TextIO.read_text io (bytes [97; 10; 255; 10]%N) = ([], true)
  /\ @TextIO.read_text io (bytes [97; 10; 226; 130]%N) = ([bytes [97; 10]%N], true)
  /\ @TextIO.read_text io (bytes [97; 10; 237; 160; 98]%N) = ([bytes [97; 10]%N], true)
  /\ @TextIO.read_text io (bytes [97; 10; 224; 128; 98]%N) = ([], true)
  /\ @TextIO.read_text io (bytes [97; 13; 226]%N) = ([], true)
  /\ @TextIO.read_text io (bytes [97; 13]%N) = ([bytes [97; 10]%N], false).
Proof. vm_compute. repeat split; reflexivity. Qed.

(** The scenarios of the specification and the test suite. *)
Example latency_down_errors_up_scenario :
  let snap :=
    {| FalsifierEngine.current :=
         [("service_latency_median", PInt 8); ("error_rate", PFloat 0.12)];
       FalsifierEngine.baseline :=
         Some [("service_latency_median", PInt 10); ("error_rate", PFloat 0.10)];
       FalsifierEngine.window := "weekly";
       FalsifierEngine.metadata := [] |} in
  let r := @FalsifierEngine.evaluate plain_text (FalsifierEngine.init None true) snap "now" in
  FalsifierEngine.verdict r = "FALSIFIED"
  /\ map FalsifierEngine.code (FalsifierEngine.hits r) = ["latency_down_errors_up"].
Proof. vm_compute. split; reflexivity. Qed.

Example error_rate_extreme_scenario :
  let snap :=
    {| FalsifierEngine.current := [("error_rate", PFloat 0.25)];
       FalsifierEngine.baseline := None;
       FalsifierEngine.window := "unknown";
       FalsifierEngine.metadata := [] |} in
  let r := @FalsifierEngine.evaluate plain_text (FalsifierEngine.init None false) snap "now" in
  FalsifierEngine.verdict r = "FALSIFIED"
  /\ map FalsifierEngine.code (FalsifierEngine.hits r) = ["error_rate_extreme"].
Proof. vm_compute. split; reflexivity. Qed.

Example borderline_latency_scenario :
  let metrics lat thr :=
    [ ("service_latency_median", PInt lat); ("error_rate", PFloat 0.10);
      ("throughput", PInt thr); ("disparity_index", PFloat 1.00);
      ("transparency_coverage", PFloat 0.70); ("citizen_burden_index", PFloat 1.00) ] in
  let snap :=
    {| FalsifierEngine.current := metrics 9%Z 105%Z;
       FalsifierEngine.baseline := Some (metrics 10%Z 100%Z);
       FalsifierEngine.window := "weekly";
       FalsifierEngine.metadata := [] |} in
  let r := @FalsifierEngine.evaluate plain_text (FalsifierEngine.init None true) snap "now" in
  @FalsifierEngine.ch plain_text snap "service_latency_median" = Some (-0.10)%float
  /\ FalsifierEngine.verdict r = "OK"
  /\ FalsifierEngine.hits r = [].
Proof. vm_compute. repeat split; reflexivity. Qed.

Example empty_bundle_scenario :
  match AuditGate.evaluate true "now"
          {| AuditGate.artifacts := []; AuditGate.ctx_metadata := [] |} with
  | Ok r =>
      map AuditGate.verdict (AuditGate.gate_results r)
      = ["FAIL"; "FAIL"; "FAIL"; "FAIL"; "FAIL"]
      /\ AuditGate.overall_verdict r = "FAIL"
      /\ AuditGate.minimum_fixes r <> []
  | Raise _ => False
  end.
Proof. vm_compute. repeat split; try reflexivity. intro E. discriminate E. Qed.

Example goal_only_bundle_fails :
  match AuditGate.evaluate true "now"
          {| AuditGate.artifacts := goal_only_artifacts; AuditGate.ctx_metadata := [] |} with
  | Ok r => AuditGate.overall_verdict r = "FAIL"
  | Raise _ => False
  end.
Proof. vm_compute. reflexivity. Qed.

Example minimum_artifacts_pass :
  match AuditGate.evaluate true "now"
          {| AuditGate.artifacts := minimum_artifacts; AuditGate.ctx_metadata := [] |} with
  | Ok r => AuditGate.overall_verdict r = "PASS" /\ AuditGate.minimum_fixes r = []
  | Raise _ => False
  end.
Proof. vm_compute. split; reflexivity. Qed.

(** An object created on the log that two appends wrote resumes where they
    stopped: same counter, same tail hash. *)
Example init_resumes_from_tail :
  @SignedMemory.init plain_text plain_io "s3cret" LogSpec.demo_file
  = Ok LogSpec.demo_memory
  /\ SignedMemory._seq LogSpec.demo_memory = 2%Z.
Proof. vm_compute. split; reflexivity. Qed.

(* ================================================================= *)
(** * Further properties of the code *)

(* ----------------------------------------------------------------- *)
(** ** Metrics: normalisation, validation and deltas *)

Module MetricsSpec.

(** What [normalize] makes of the value bound to [k]. *)
Definition normalized `{PyText} (req : list string) (k : string) (v : pyval) : pyval :=
  if Metrics.is_metric_key req k then
    match Metrics._num v with
    | Some n => PFloat n
    | None => v
    end
  else v.

(** The number that [compute_deltas] takes as the baseline of [k]. *)
Definition baseline_num `{PyText} (baseline : option (dict pyval)) (k : string)
  : option float :=
  match baseline with
  | Some bd => Metrics._num (get bd k)
  | None => None
  end.

Definition is_bool (v : pyval) : bool :=
  match v with PBool _ => true | _ => false end.

End MetricsSpec.

Section MetricsMore.
Context `{PyText}.
Import MetricsSpec.
Variable req : list string.

Lemma normalize_map (d : dict pyval) :
  Metrics.normalize req d = map (fun kv => (fst kv, normalized req (fst kv) (snd kv))) d.
Proof.
  unfold Metrics.normalize, normalized. apply map_ext. intros [k v]. simpl.
  destruct (Metrics.is_metric_key req k); [|reflexivity].
  destruct (Metrics._num v); reflexivity.
Qed.

Lemma dict_get_normalize (d : dict pyval) (k : string) :
  dict_get (Metrics.normalize req d) k = option_map (normalized req k) (dict_get d k).
Proof.
  rewrite normalize_map.
  induction d as [|[k' v] d IH]; [reflexivity|].
  cbn [map dict_get fst snd].
  destruct (String.eqb_spec k k') as [->|Hne]; [reflexivity|exact IH].
Qed.

Lemma map_fst_normalize (d : dict pyval) : map fst (Metrics.normalize req d) = map fst d.
Proof. rewrite normalize_map, map_map. reflexivity. Qed.

Lemma num_normalized (k : string) (v : pyval) :
  Metrics._num (normalized req k v) = Metrics._num v.
Proof.
  unfold normalized. destruct (Metrics.is_metric_key req k); [|reflexivity].
  destruct (Metrics._num v) eqn:E; [reflexivity|exact E].
Qed.

Lemma is_none_normalized (k : string) (v : pyval) :
  Metrics.is_none (normalized req k v) = Metrics.is_none v.
Proof.
  unfold normalized. destruct (Metrics.is_metric_key req k); [|reflexivity].
  destruct (Metrics._num v) eqn:E; [|reflexivity].
  destruct v; try reflexivity. discriminate.
Qed.

Lemma normalized_twice (k : string) (v : pyval) :
  normalized req k (normalized req k v) = normalized req k v.
Proof.
  unfold normalized at 1. rewrite num_normalized.
  destruct (Metrics.is_metric_key req k) eqn:Ek; [|reflexivity].
  unfold normalized. rewrite Ek.
  destruct (Metrics._num v) eqn:E; reflexivity.
Qed.

Lemma num_get_normalize (d : dict pyval) (k : string) :
  Metrics._num (get (Metrics.normalize req d) k) = Metrics._num (get d k).
Proof.
  unfold get. rewrite dict_get_normalize.
  destruct (dict_get d k); [apply num_normalized|reflexivity].
Qed.

Lemma is_none_iff (v : pyval) : Metrics.is_none v = true <-> v = PNone.
Proof. destruct v; simpl; split; congruence. Qed.

Lemma filter_nil_iff {A} (p : A -> bool) (l : list A) :
  filter p l = [] <-> forall x, In x l -> p x = false.
Proof.
  induction l as [|a l IH]; simpl.
  - split; [intros _ x []|reflexivity].
  - destruct (p a) eqn:E.
    + split; [discriminate|]. intro Hall. rewrite (Hall a (or_introl eq_refl)) in E.
      discriminate.
    + rewrite IH. split.
      * intros Hall x [<-|Hx]; [exact E|apply Hall; exact Hx].
      * intros Hall x Hx. apply Hall. right. exact Hx.
Qed.

Lemma validate_normalize (cur : dict pyval) (base : option (dict pyval)) :
  Metrics.validate req (Metrics.normalize req cur) base = Metrics.validate req cur base.
Proof.
  unfold Metrics.validate.
  assert (Hm : forall k,
             match dict_get (Metrics.normalize req cur) k with
             | None => true
             | Some v => Metrics.is_none v
             end
             = match dict_get cur k with
               | None => true
               | Some v => Metrics.is_none v
               end).
  { intro k. rewrite dict_get_normalize. destruct (dict_get cur k); [|reflexivity].
    apply is_none_normalized. }
  assert (Hn : forall k,
             match dict_get (Metrics.normalize req cur) k with
             | None => false
             | Some v => negb (Metrics.is_none v)
                         && match Metrics._num v with None => true | Some _ => false end
             end
             = match dict_get cur k with
               | None => false
               | Some v => negb (Metrics.is_none v)
                           && match Metrics._num v with None => true | Some _ => false end
               end).
  { intro k. rewrite dict_get_normalize. destruct (dict_get cur k); [|reflexivity].
    simpl. rewrite is_none_normalized, num_normalized. reflexivity. }
  rewrite (filter_ext _ _ Hm), (filter_ext _ _ Hn). reflexivity.
Qed.

Lemma delta_keys_In (cur : dict pyval) (base : option (dict pyval)) (k : string) :
  In k (Metrics.delta_keys cur base) <->
  In k (map fst cur) \/ exists bd, base = Some bd /\ In k (map fst bd).
Proof.
  unfold Metrics.delta_keys. rewrite nodup_In, in_app_iff.
  destruct base as [bd|]; split; intros [Hc|Hb]; auto.
  - right. exists bd. auto.
  - destruct Hb as [bd' [E Hb]]. injection E as <-. auto.
  - destruct Hb.
  - destruct Hb as [bd' [E _]]. discriminate.
Qed.

(** The keys of the two tables of [compute_deltas]: those of the current
    metrics and of the baseline. *)
Lemma deltas_keys (current : dict pyval) (baseline : option (dict pyval)) (k : string) :
  let d := Metrics.compute_deltas req current baseline in
  map fst (Metrics.pct d) = map fst (Metrics.absolute d)
  /\ (In k (map fst (Metrics.absolute d)) <->
      In k (map fst current) \/ exists bd, baseline = Some bd /\ In k (map fst bd)).
Proof.
  cbv zeta. unfold Metrics.compute_deltas. cbn [Metrics.absolute Metrics.pct].
  rewrite !map_map. cbn [fst]. split; [reflexivity|].
  rewrite map_id, delta_keys_In, map_fst_normalize.
  destruct baseline as [[|kv bd]|].
  - split; intros [Hc|[bd [E Hb]]]; auto; try discriminate.
    injection E as <-. destruct Hb.
  - split; intros [Hc|[bd' [E Hb]]]; auto; right.
    + assert (E' : bd' = Metrics.normalize req (kv :: bd)) by congruence.
      subst bd'. rewrite map_fst_normalize in Hb. eauto.
    + injection E as <-. eexists. split; [reflexivity|].
      rewrite map_fst_normalize. exact Hb.
  - split; intros [Hc|[bd [E Hb]]]; auto; discriminate.
Qed.

(** The entries of the two tables, from the values as given: normalisation
    does not show in them. *)
Lemma deltas_lookup (current : dict pyval) (baseline : option (dict pyval)) (k : string) :
  let d := Metrics.compute_deltas req current baseline in
  let c := Metrics._num (get current k) in
  let b := baseline_num baseline k in
  In k (map fst (Metrics.absolute d)) ->
  dict_get (Metrics.absolute d) k
  = Some (match c, b with
          | Some x, Some y => Some (x - y)%float
          | _, _ => None
          end)
  /\ dict_get (Metrics.pct d) k = Some (Metrics._pct_change c b).
Proof.
  cbv zeta. unfold Metrics.compute_deltas. cbn [Metrics.absolute Metrics.pct].
  set (cur := Metrics.normalize req current).
  set (base := match baseline with
               | None | Some [] => None
               | Some bd => Some (Metrics.normalize req bd)
               end).
  assert (Hb : match base with
               | None | Some [] => None
               | Some bd => Metrics._num (get bd k)
               end = baseline_num baseline k).
  { subst base. unfold baseline_num. destruct baseline as [[|kv bd]|]; try reflexivity.
    pose proof (normalize_nonempty req (kv :: bd)) as Hne.
    destruct (Metrics.normalize req (kv :: bd)) as [|kv' bd'] eqn:En.
    - exfalso. apply Hne; [discriminate|reflexivity].
    - rewrite <- En. apply num_get_normalize. }
  assert (Hc : Metrics._num (get cur k) = Metrics._num (get current k))
    by apply num_get_normalize.
  rewrite map_map. cbn [fst]. rewrite map_id. intro Hin.
  rewrite (dict_get_tabulate _ _ k Hin).
  rewrite (dict_get_tabulate
             (fun k0 => Metrics._pct_change (Metrics._num (get cur k0))
                          match base with
                          | None | Some [] => None
                          | Some bd => Metrics._num (get bd k0)
                          end) _ k Hin).
  rewrite Hb, Hc. split; reflexivity.
Qed.

Lemma num_agree (v : pyval) :
  is_bool v = false -> FalsifierEngine._num v = Metrics._num v.
Proof. destruct v; try reflexivity. discriminate. Qed.

Lemma get_unbound (d : dict pyval) (k : string) : ~ In k (map fst d) -> get d k = PNone.
Proof.
  intro Hn. unfold get. destruct (dict_get d k) as [v|] eqn:E; [|reflexivity].
  apply dict_get_In in E. contradiction.
Qed.

End MetricsMore.

(** X1.  [normalize] keeps the keys and their order, changes a value only under
    a metric key (a required metric, or a key that ends in [_index], [_rate]
    or [_coverage]) and only into the float it coerces to, and applying it
    twice is applying it once. *)
Theorem normalize_idempotent `{PyText} (req : list string) (raw : dict pyval) :
  Metrics.normalize req (Metrics.normalize req raw) = Metrics.normalize req raw
  /\ map fst (Metrics.normalize req raw) = map fst raw
  /\ (forall k v, dict_get raw k = Some v ->
        dict_get (Metrics.normalize req raw) k
        = Some (if Metrics.is_metric_key req k
                then match Metrics._num v with Some n => PFloat n | None => v end
                else v)).
Proof.
  split; [|split].
  - rewrite !normalize_map, map_map. apply map_ext. intros [k v]. simpl.
    rewrite normalized_twice. reflexivity.
  - apply map_fst_normalize.
  - intros k v E. rewrite dict_get_normalize, E. reflexivity.
Qed.

(** X2.  [validate] sorts the required metrics three ways: missing (not bound,
    or bound to [None]), non-numeric (bound to a value that does not coerce
    to a float; a [bool] is one), and numeric.  [ok] holds exactly when all
    of them are numeric, and normalising the metrics first changes nothing
    in the outcome. *)
Theorem validate_partitions `{PyText} (req : list string) (cur : dict pyval)
  (base : option (dict pyval)) :
  let r := Metrics.validate req cur base in
  (forall k, In k (Metrics.missing r) <->
             In k req /\ (dict_get cur k = None \/ dict_get cur k = Some PNone))
  /\ (forall k, In k (Metrics.non_numeric r) <->
                In k req /\ exists v, dict_get cur k = Some v /\ v <> PNone
                                      /\ Metrics._num v = None)
  /\ (Metrics.ok r = true <->
      forall k, In k req -> exists v f, dict_get cur k = Some v /\ Metrics._num v = Some f)
  /\ Metrics.validate req (Metrics.normalize req cur) base = r.
Proof.
  cbv zeta. split; [|split; [|split; [|apply validate_normalize]]].
  - intro k. unfold Metrics.validate. cbn [Metrics.missing]. rewrite filter_In.
    destruct (dict_get cur k) as [v|].
    + rewrite is_none_iff. split.
      * intros [Hk ->]. auto.
      * intros [Hk [E|E]]; [discriminate|]. injection E as ->. auto.
    + split; intros [Hk _]; auto.
  - intro k. unfold Metrics.validate. cbn [Metrics.non_numeric]. rewrite filter_In.
    destruct (dict_get cur k) as [v|].
    + rewrite andb_true_iff, negb_true_iff. split.
      * intros [Hk [Hn Hf]]. split; [exact Hk|]. exists v. split; [reflexivity|].
        split.
        -- intros ->. discriminate.
        -- destruct (Metrics._num v); [discriminate|reflexivity].
      * intros [Hk [v' [E [Hn Hf]]]]. injection E as <-. split; [exact Hk|].
        rewrite Hf. split; [|reflexivity].
        destruct (Metrics.is_none v) eqn:Ei; [|reflexivity].
        apply is_none_iff in Ei. contradiction.
    + split; [intros [_ E]; discriminate|intros [_ [v [E _]]]; discriminate].
  - unfold Metrics.validate. cbn [Metrics.ok].
    match goal with |- context [filter ?p req] => set (m := filter p req) end.
    match goal with |- context [filter ?p req] => set (n := filter p req) end.
    assert (Hok : (match m, n with [], [] => true | _, _ => false end) = true
                  <-> m = [] /\ n = []).
    { destruct m, n; split; try discriminate; try tauto; intros [? ?]; discriminate. }
    rewrite Hok. clear Hok. subst m n.
    rewrite !filter_nil_iff. split.
    + intros [Hm Hn] k Hk. specialize (Hm k Hk). specialize (Hn k Hk).
      destruct (dict_get cur k) as [v|]; [|discriminate].
      rewrite Hm in Hn. simpl in Hn.
      destruct (Metrics._num v) as [f|] eqn:Ef; [|discriminate].
      exists v, f. split; [reflexivity|exact Ef].
    + intro Hall. split; intros k Hk; destruct (Hall k Hk) as [v [f [-> Hf]]].
      * destruct v; try reflexivity. discriminate.
      * rewrite Hf. apply andb_false_r.
Qed.

(** X3.  The tables [absolute] and [pct] of [compute_deltas] have the same keys,
    those of the current metrics and of the baseline.  Under such a key,
    [absolute] holds [c - b] when the current value and the baseline value
    both coerce to a number, and [None] otherwise; [pct] holds a number only
    where [absolute] does and the baseline is not zero, and that number is the
    absolute change divided by [abs(b)]. *)
Theorem compute_deltas_tables `{PyText} (req : list string) (current : dict pyval)
  (baseline : option (dict pyval)) (k : string) :
  let d := Metrics.compute_deltas req current baseline in
  let c := Metrics._num (get current k) in
  let b := MetricsSpec.baseline_num baseline k in
  map fst (Metrics.pct d) = map fst (Metrics.absolute d)
  /\ (In k (map fst (Metrics.absolute d)) <->
      In k (map fst current) \/ exists bd, baseline = Some bd /\ In k (map fst bd))
  /\ (In k (map fst (Metrics.absolute d)) ->
      dict_get (Metrics.absolute d) k
      = Some (match c, b with
              | Some x, Some y => Some (x - y)%float
              | _, _ => None
              end))
  /\ (forall p, dict_get (Metrics.pct d) k = Some (Some p) <->
        exists a y, dict_get (Metrics.absolute d) k = Some (Some a)
                    /\ b = Some y /\ (y =? 0)%float = false /\ p = (a / abs y)%float).
Proof.
  cbv zeta.
  destruct (deltas_keys req current baseline k) as [Hsame Hkeys].
  pose proof (deltas_lookup req current baseline k) as Hget. cbv zeta in Hget.
  split; [exact Hsame|]. split; [exact Hkeys|].
  split; [intro Hin; exact (proj1 (Hget Hin))|].
  intro p. split.
  - intro Hp.
    assert (Hin : In k (map fst (Metrics.absolute
                                   (Metrics.compute_deltas req current baseline)))).
    { rewrite <- Hsame. apply (dict_get_In _ _ _ Hp). }
    destruct (Hget Hin) as [Ha Hq]. rewrite Hq in Hp. rewrite Ha.
    clear Hget Ha Hq Hkeys Hin Hsame. unfold Metrics._pct_change in Hp.
    destruct (Metrics._num (get current k)) as [x|]; [|discriminate].
    destruct (MetricsSpec.baseline_num baseline k) as [y|]; [|discriminate].
    destruct (y =? 0)%float eqn:Ey; [discriminate|].
    injection Hp as <-. exists (x - y)%float, y.
    split; [reflexivity|]. split; [reflexivity|]. split; [exact Ey|reflexivity].
  - intros [a [y [Ha [Hb [Hy ->]]]]].
    assert (Hin : In k (map fst (Metrics.absolute
                                   (Metrics.compute_deltas req current baseline))))
      by apply (dict_get_In _ _ _ Ha).
    destruct (Hget Hin) as [Ha' Hq]. rewrite Hq. rewrite Ha' in Ha.
    clear Hget Ha' Hq Hkeys Hin Hsame. unfold Metrics._pct_change.
    rewrite Hb in *.
    destruct (Metrics._num (get current k)) as [x|]; [|discriminate].
    rewrite Hy. injection Ha as <-. reflexivity.
Qed.

(** X4.  On a metric whose current and baseline values are not of type [bool],
    the percentage change that the falsifier engine computes is the one that
    [compute_deltas] reports (an undefined change where the table has no
    entry). *)
Theorem engine_change_is_reported_change `{PyText} (req : list string)
  (snap : FalsifierEngine.MetricsSnapshot) (k : string) :
  MetricsSpec.is_bool (get (FalsifierEngine.current snap) k) = false ->
  (forall bd, FalsifierEngine.baseline snap = Some bd ->
              MetricsSpec.is_bool (get bd k) = false) ->
  FalsifierEngine.ch snap k
  = match dict_get (Metrics.pct
                      (Metrics.compute_deltas req (FalsifierEngine.current snap)
                         (FalsifierEngine.baseline snap))) k with
    | Some p => p
    | None => None
    end.
Proof.
  intros Hc Hb.
  set (current := FalsifierEngine.current snap) in *.
  set (baseline := FalsifierEngine.baseline snap) in *.
  assert (Hch : FalsifierEngine.ch snap k
                = Metrics._pct_change (Metrics._num (get current k))
                    (MetricsSpec.baseline_num baseline k)).
  { unfold FalsifierEngine.ch. fold current. fold baseline.
    rewrite (num_agree _ Hc). unfold MetricsSpec.baseline_num.
    destruct baseline as [bd|] eqn:Eb; [|reflexivity].
    rewrite <- (num_agree _ (Hb bd eq_refl)).
    destruct bd as [|kv bd']; [|reflexivity].
    simpl. destruct (Metrics._num (get current k)); reflexivity. }
  destruct (deltas_keys req current baseline k) as [Hsame Hkeys].
  pose proof (deltas_lookup req current baseline k) as Hget. cbv zeta in Hget.
  destruct (in_dec string_dec k
              (map fst (Metrics.absolute (Metrics.compute_deltas req current baseline))))
    as [Hin|Hout].
  - rewrite (proj2 (Hget Hin)). exact Hch.
  - destruct (dict_get (Metrics.pct (Metrics.compute_deltas req current baseline)) k)
      as [p|] eqn:Ep.
    { exfalso. apply Hout. rewrite <- Hsame. apply (dict_get_In _ _ _ Ep). }
    rewrite Hch.
    assert (Hnc : ~ In k (map fst current)) by (intro Hx; apply Hout, Hkeys; auto).
    rewrite (get_unbound _ _ Hnc). reflexivity.
Qed.

Lemma engine_change_is_reported_change_witness :
  let snap :=
    {| FalsifierEngine.current := [("error_rate", PFloat 0.12)];
       FalsifierEngine.baseline := Some [("error_rate", PFloat 0.10)];
       FalsifierEngine.window := "weekly";
       FalsifierEngine.metadata := [] |} in
  @FalsifierEngine.ch plain_text snap "error_rate"
  = match dict_get (Metrics.pct
                      (@Metrics.compute_deltas plain_text (Metrics.init None)
                         (FalsifierEngine.current snap) (FalsifierEngine.baseline snap)))
            "error_rate" with
    | Some p => p
    | None => None
    end.
Proof.
  intro snap.
  apply (@engine_change_is_reported_change plain_text (Metrics.init None) snap "error_rate").
  - reflexivity.
  - intros bd E. injection E as <-. reflexivity.
Defined.

(* ----------------------------------------------------------------- *)
(** ** Dictionaries: assignment and update *)

Lemma dict_get_set {V} (d : dict V) (k k' : string) (v : V) :
  dict_get (dict_set d k v) k' = if String.eqb k' k then Some v else dict_get d k'.
Proof.
  induction d as [|[k0 v0] d IH]; simpl.
  - destruct (String.eqb k' k); reflexivity.
  - destruct (String.eqb_spec k k0) as [->|Hne]; simpl.
    + destruct (String.eqb k' k0); reflexivity.
    + rewrite IH. destruct (String.eqb_spec k' k0) as [->|Hne'];
        [|reflexivity].
      destruct (String.eqb_spec k0 k) as [->|_]; [contradiction|reflexivity].
Qed.

Lemma dict_get_none {V} (d : dict V) (k : string) :
  ~ In k (map fst d) -> dict_get d k = None.
Proof.
  induction d as [|[k0 v0] d IH]; simpl; [reflexivity|].
  intro Hn. destruct (String.eqb_spec k k0) as [->|Hne]; [exfalso; auto|].
  apply IH. auto.
Qed.

(** After [d.update(o)], a key holds what [o] binds it to, and what [d]
    does when [o] does not bind it. *)
Lemma dict_get_update {V} (o d : dict V) (k : string) :
  NoDup (map fst o) ->
  dict_get (dict_update d o) k
  = match dict_get o k with
    | Some v => Some v
    | None => dict_get d k
    end.
Proof.
  unfold dict_update. revert d.
  induction o as [|[k0 v0] o IH]; intros d Hnd; simpl; [reflexivity|].
  simpl in Hnd. inversion Hnd as [|x l Hnotin Hnd']. subst.
  rewrite (IH _ Hnd'), dict_get_set.
  destruct (String.eqb_spec k k0) as [->|Hne]; [|reflexivity].
  rewrite (dict_get_none _ _ Hnotin). reflexivity.
Qed.

(* ----------------------------------------------------------------- *)
(** ** Falsifier engine: thresholds, bounds, and the baseline *)

Section FalsifierMore.
Context `{PyText}.
Import FalsifierEngine.

Lemma contributes_codes (l : list FalsifierHit) (c sev : string) (fires : bool) :
  contributes l c sev fires -> map code l = if fires then [c] else [].
Proof.
  intros [Ht Hf]. destruct fires.
  - destruct (Ht eq_refl) as [h [-> [<- _]]]. reflexivity.
  - rewrite (Hf eq_refl). reflexivity.
Qed.

Lemma contributes_high (l : list FalsifierHit) (c : string) (fires : bool) :
  contributes l c "HIGH" fires -> filter is_high l = l.
Proof.
  intros [Ht Hf]. destruct fires.
  - destruct (Ht eq_refl) as [h [-> [_ Hs]]]. simpl. unfold is_high. rewrite Hs. reflexivity.
  - rewrite (Hf eq_refl). reflexivity.
Qed.

Lemma contributes_medium (l : list FalsifierHit) (c : string) (fires : bool) :
  contributes l c "MEDIUM" fires -> filter is_high l = [].
Proof.
  intros [Ht Hf]. destruct fires.
  - destruct (Ht eq_refl) as [h [-> [_ Hs]]]. simpl. unfold is_high. rewrite Hs. reflexivity.
  - rewrite (Hf eq_refl). reflexivity.
Qed.

(** The codes of the rules in the order of [evaluate], each with the flag
    that says whether it fires. *)
Definition flagged (self : engine) (snap : MetricsSnapshot) : list (bool * string) :=
  [ (require_baseline self && no_baseline (baseline snap), "baseline_missing");
    (latency_down_errors_up_fires self snap, "latency_down_errors_up");
    (throughput_up_disparity_up_fires self snap, "throughput_up_disparity_up");
    (transparency_fires self snap, "transparency_claims_unverifiable_logs");
    (shadow_paperwork_fires self snap, "shadow_paperwork_grows");
    (citizen_burden_fires self snap, "citizen_burden_up_after_digital");
    (error_rate_extreme_fires snap, "error_rate_extreme") ].

Lemma hits_codes (self : engine) (snap : MetricsSnapshot) :
  map code (all_hits self snap) = map snd (filter fst (flagged self snap)).
Proof.
  unfold all_hits. rewrite !map_app.
  rewrite (contributes_codes _ _ _ _ (baseline_missing_contribution self snap)),
    (contributes_codes _ _ _ _ (latency_down_errors_up_contribution self snap)),
    (contributes_codes _ _ _ _ (throughput_up_disparity_up_contribution self snap)),
    (contributes_codes _ _ _ _ (transparency_contribution self snap)),
    (contributes_codes _ _ _ _ (shadow_paperwork_contribution self snap)),
    (contributes_codes _ _ _ _ (citizen_burden_contribution self snap)),
    (contributes_codes _ _ _ _ (error_rate_extreme_contribution snap)).
  unfold flagged. cbn [filter fst].
  destruct (require_baseline self && no_baseline (baseline snap)),
    (latency_down_errors_up_fires self snap),
    (throughput_up_disparity_up_fires self snap),
    (transparency_fires self snap),
    (shadow_paperwork_fires self snap),
    (citizen_burden_fires self snap),
    (error_rate_extreme_fires snap); reflexivity.
Qed.

(** The codes of the rules that fire are distinct when those of all the
    rules are. *)
Lemma fired_codes_NoDup (rules : list (bool * string)) :
  NoDup (map snd rules) -> NoDup (map snd (filter fst rules)).
Proof.
  induction rules as [|[fires c] rules IH]; cbn [map filter fst snd]; [auto|].
  intro Hnd. inversion Hnd as [|x m Hnotin Hnd']. subst.
  destruct fires; [|auto]. cbn [map snd]. constructor; [|auto].
  intro Hin. apply Hnotin. apply in_map_iff in Hin.
  destruct Hin as [y [Hy Hin]]. apply filter_In in Hin.
  apply in_map_iff. exists y. tauto.
Qed.

Lemma ch_without_baseline (snap : MetricsSnapshot) (key : string) :
  no_baseline (baseline snap) = true -> ch snap key = None.
Proof.
  intro Hnb. unfold ch. destruct (baseline snap) as [b|].
  - rewrite Hnb. destruct (_num (get (current snap) key)); reflexivity.
  - destruct (_num (get (current snap) key)); reflexivity.
Qed.

(** Without a baseline no rule on a change can fire. *)
Lemma change_rules_need_baseline (self : engine) (snap : MetricsSnapshot) :
  no_baseline (baseline snap) = true ->
  latency_down_errors_up_fires self snap = false
  /\ throughput_up_disparity_up_fires self snap = false
  /\ shadow_paperwork_fires self snap = false
  /\ citizen_burden_fires self snap = false.
Proof.
  intro Hnb.
  unfold latency_down_errors_up_fires, throughput_up_disparity_up_fires,
    shadow_paperwork_fires, citizen_burden_fires.
  rewrite !(ch_without_baseline snap _ Hnb). repeat split; reflexivity.
Qed.

Lemma dedup_first_length (l : list string) :
  (List.length (dedup_first l) <= List.length l)%nat.
Proof.
  apply NoDup_incl_length; [apply dedup_first_NoDup|].
  intros x Hx. apply (proj1 (dedup_first_In l x)). exact Hx.
Qed.

Lemma actions_at_most_ten (self : engine) (snap : MetricsSnapshot) :
  (List.length (all_actions self snap) <= 10)%nat.
Proof.
  unfold all_actions, baseline_missing_actions, latency_down_errors_up_actions,
    throughput_up_disparity_up_actions, transparency_actions, shadow_paperwork_actions,
    citizen_burden_actions, error_rate_extreme_actions.
  destruct (no_baseline (baseline snap)) eqn:Hnb.
  - destruct (change_rules_need_baseline self snap Hnb) as [-> [-> [-> ->]]].
    destruct (require_baseline self), (transparency_fires self snap),
      (error_rate_extreme_fires snap); simpl; lia.
  - rewrite andb_false_r.
    destruct (latency_down_errors_up_fires self snap),
      (throughput_up_disparity_up_fires self snap),
      (transparency_fires self snap),
      (shadow_paperwork_fires self snap),
      (citizen_burden_fires self snap),
      (error_rate_extreme_fires snap); simpl; lia.
Qed.

Lemma high_hits_without_baseline_flag (self : engine) (snap : MetricsSnapshot) :
  filter is_high (all_hits self snap)
  = latency_down_errors_up_hits self snap ++ throughput_up_disparity_up_hits self snap
    ++ shadow_paperwork_hits self snap ++ citizen_burden_hits self snap
    ++ error_rate_extreme_hits snap.
Proof.
  unfold all_hits. rewrite !filter_app.
  rewrite (contributes_medium _ _ _ (baseline_missing_contribution self snap)),
    (contributes_high _ _ _ (latency_down_errors_up_contribution self snap)),
    (contributes_high _ _ _ (throughput_up_disparity_up_contribution self snap)),
    (contributes_medium _ _ _ (transparency_contribution self snap)),
    (contributes_high _ _ _ (shadow_paperwork_contribution self snap)),
    (contributes_high _ _ _ (citizen_burden_contribution self snap)),
    (contributes_high _ _ _ (error_rate_extreme_contribution snap)).
  reflexivity.
Qed.

End FalsifierMore.

(** X5.  The threshold table of an engine binds each of the seven keys that
    [evaluate] reads, so that no lookup fails; a key holds the value given for
    it at construction, and the default value when none is given; an empty
    table of overrides is no override. *)
Theorem thresholds_after_init (o : dict float) (rb : bool) (k : string) :
  NoDup (map fst o) ->
  (In k (map fst FalsifierEngine.default_thresholds) ->
   dict_get (FalsifierEngine.thresholds (FalsifierEngine.init (Some o) rb)) k <> None)
  /\ FalsifierEngine.thr (FalsifierEngine.init (Some o) rb) k
     = match dict_get o k with
       | Some v => v
       | None => FalsifierEngine.thr (FalsifierEngine.init None rb) k
       end
  /\ FalsifierEngine.init (Some []) rb = FalsifierEngine.init None rb.
Proof.
  intro Hnd. split; [apply init_binds_defaults|]. split; [|reflexivity].
  unfold FalsifierEngine.thr, FalsifierEngine.init. cbn [FalsifierEngine.thresholds].
  rewrite (dict_get_update o _ k Hnd). destruct (dict_get o k); reflexivity.
Qed.

Lemma thresholds_after_init_witness :
  FalsifierEngine.thr
    (FalsifierEngine.init (Some [("latency_improve", (-0.25)%float)]) true)
    "latency_improve" = (-0.25)%float
  /\ FalsifierEngine.thr
       (FalsifierEngine.init (Some [("latency_improve", (-0.25)%float)]) true)
       "error_worsen" = 0.10%float.
Proof.
  assert (Hnd : NoDup (map fst [("latency_improve", (-0.25)%float)])).
  { simpl. constructor; [intros []|constructor]. }
  split.
  - exact (proj1 (proj2 (thresholds_after_init _ true "latency_improve" Hnd))).
  - exact (proj1 (proj2 (thresholds_after_init _ true "error_worsen" Hnd))).
Defined.

(** X6.  The lists of a result are bounded by the rules: at most one hit per
    rule code, in the order of the rules, and at most six hits in all (the
    baseline rule and the rules on a change exclude each other); and the
    actions of the rules that fire are at most ten, so that the cut at ten
    never drops one: [recommended_actions] holds every action of every rule
    that fired, once. *)
Theorem falsifier_lists_bounded `{PyText}
  (self : FalsifierEngine.engine) (snap : FalsifierEngine.MetricsSnapshot) (now : string) :
  let r := FalsifierEngine.evaluate self snap now in
  map FalsifierEngine.code (FalsifierEngine.hits r) = map snd (filter fst (flagged self snap))
  /\ NoDup (map FalsifierEngine.code (FalsifierEngine.hits r))
  /\ (List.length (FalsifierEngine.hits r) <= 6)%nat
  /\ FalsifierEngine.recommended_actions r
     = dedup_first (FalsifierEngine.all_actions self snap)
  /\ NoDup (FalsifierEngine.recommended_actions r)
  /\ (forall a, In a (FalsifierEngine.recommended_actions r) <->
                In a (FalsifierEngine.all_actions self snap)).
Proof.
  cbv zeta. unfold FalsifierEngine.evaluate.
  cbn [FalsifierEngine.hits FalsifierEngine.recommended_actions].
  assert (Hact : firstn 10 (dedup_into [] (FalsifierEngine.all_actions self snap))
                 = dedup_first (FalsifierEngine.all_actions self snap)).
  { rewrite dedup_into_nil. apply firstn_all2.
    pose proof (dedup_first_length (FalsifierEngine.all_actions self snap)).
    pose proof (actions_at_most_ten self snap). lia. }
  rewrite Hact.
  split; [apply hits_codes|].
  split.
  { rewrite hits_codes. apply fired_codes_NoDup. unfold flagged. cbn [map snd].
    repeat (constructor; [simpl; intuition discriminate|]). constructor. }
  split.
  { rewrite <- (length_map FalsifierEngine.code), hits_codes, length_map.
    unfold flagged. cbn [filter fst].
    destruct (FalsifierEngine.no_baseline (FalsifierEngine.baseline snap)) eqn:Hnb.
    - destruct (change_rules_need_baseline self snap Hnb) as [-> [-> [-> ->]]].
      destruct (FalsifierEngine.require_baseline self),
        (FalsifierEngine.transparency_fires self snap),
        (FalsifierEngine.error_rate_extreme_fires snap); simpl; lia.
    - rewrite andb_false_r.
      destruct (FalsifierEngine.latency_down_errors_up_fires self snap),
        (FalsifierEngine.throughput_up_disparity_up_fires self snap),
        (FalsifierEngine.transparency_fires self snap),
        (FalsifierEngine.shadow_paperwork_fires self snap),
        (FalsifierEngine.citizen_burden_fires self snap),
        (FalsifierEngine.error_rate_extreme_fires snap); simpl; lia. }
  split; [reflexivity|].
  split; [apply dedup_first_NoDup|].
  intro a. apply dedup_first_In.
Qed.

(** X7.  Without a baseline (none given, or an empty one) only the baseline
    rule and the two rules on a current value can contribute a hit, and the
    verdict is FALSIFIED exactly when the current error rate is a number from
    0.20 on. *)
Theorem verdict_without_baseline `{PyText}
  (self : FalsifierEngine.engine) (snap : FalsifierEngine.MetricsSnapshot) (now : string) :
  FalsifierEngine.no_baseline (FalsifierEngine.baseline snap) = true ->
  let r := FalsifierEngine.evaluate self snap now in
  (forall key, FalsifierEngine.ch snap key = None)
  /\ map FalsifierEngine.code (FalsifierEngine.hits r)
     = (if FalsifierEngine.require_baseline self then ["baseline_missing"] else [])
       ++ (if FalsifierEngine.transparency_fires self snap
           then ["transparency_claims_unverifiable_logs"] else [])
       ++ (if FalsifierEngine.error_rate_extreme_fires snap
           then ["error_rate_extreme"] else [])
  /\ (FalsifierEngine.verdict r = "FALSIFIED" <->
      exists e, FalsifierEngine.err_cur snap = Some e /\ (0.20 <=? e)%float = true).
Proof.
  intros Hnb. cbv zeta.
  split; [intro key; apply ch_without_baseline; exact Hnb|].
  split.
  - unfold FalsifierEngine.evaluate. cbn [FalsifierEngine.hits].
    rewrite hits_codes. unfold flagged. cbn [filter fst].
    destruct (change_rules_need_baseline self snap Hnb) as [-> [-> [-> ->]]].
    rewrite Hnb, andb_true_r.
    destruct (FalsifierEngine.require_baseline self),
      (FalsifierEngine.transparency_fires self snap),
      (FalsifierEngine.error_rate_extreme_fires snap); reflexivity.
  - unfold FalsifierEngine.evaluate. cbn [FalsifierEngine.verdict].
    rewrite high_hits_without_baseline_flag.
    destruct (change_rules_need_baseline self snap Hnb) as [H1 [H2 [H3 H4]]].
    rewrite (proj2 (latency_down_errors_up_contribution self snap) H1),
      (proj2 (throughput_up_disparity_up_contribution self snap) H2),
      (proj2 (shadow_paperwork_contribution self snap) H3),
      (proj2 (citizen_burden_contribution self snap) H4).
    cbn [app].
    unfold FalsifierEngine.error_rate_extreme_hits,
      FalsifierEngine.error_rate_extreme_fires.
    destruct (FalsifierEngine.err_cur snap) as [e|].
    + destruct (0.20 <=? e)%float eqn:Ee; simpl.
      * split; [intros _; exists e; auto|reflexivity].
      * split; [discriminate|]. intros [e' [E He]]. injection E as <-. congruence.
    + simpl. split; [discriminate|]. intros [e [E _]]. discriminate.
Qed.

Lemma verdict_without_baseline_witness :
  let snap :=
    {| FalsifierEngine.current := [("error_rate", PFloat 0.25)];
       FalsifierEngine.baseline := None;
       FalsifierEngine.window := "weekly";
       FalsifierEngine.metadata := [] |} in
  FalsifierEngine.verdict
    (@FalsifierEngine.evaluate plain_text (FalsifierEngine.init None true) snap "now")
  = "FALSIFIED".
Proof.
  intro snap.
  apply (proj2 (proj2 (@verdict_without_baseline plain_text
                         (FalsifierEngine.init None true) snap "now" eq_refl))).
  exists 0.25%float. split; reflexivity.
Defined.

(** The action of the baseline rule is none of the actions of the other
    rules. *)
Lemma baseline_action_apart `{PyText}
  (self off : FalsifierEngine.engine) (snap : FalsifierEngine.MetricsSnapshot) (a : string) :
  In a (FalsifierEngine.baseline_missing_actions self snap) ->
  FalsifierEngine.require_baseline off = false ->
  forallb (fun x => negb (String.eqb x a)) (FalsifierEngine.all_actions off snap) = true.
Proof.
  unfold FalsifierEngine.baseline_missing_actions.
  destruct (FalsifierEngine.require_baseline self && _); [|intros []].
  intros [<-|[]] Hoff.
  unfold FalsifierEngine.all_actions, FalsifierEngine.baseline_missing_actions,
    FalsifierEngine.latency_down_errors_up_actions,
    FalsifierEngine.throughput_up_disparity_up_actions,
    FalsifierEngine.transparency_actions, FalsifierEngine.shadow_paperwork_actions,
    FalsifierEngine.citizen_burden_actions, FalsifierEngine.error_rate_extreme_actions.
  rewrite Hoff. cbn [andb app].
  destruct (FalsifierEngine.latency_down_errors_up_fires off snap),
    (FalsifierEngine.throughput_up_disparity_up_fires off snap),
    (FalsifierEngine.transparency_fires off snap),
    (FalsifierEngine.shadow_paperwork_fires off snap),
    (FalsifierEngine.citizen_burden_fires off snap),
    (FalsifierEngine.error_rate_extreme_fires snap); vm_compute; reflexivity.
Qed.

Lemma filter_keeps_all {A} (p : A -> bool) (l : list A) :
  forallb p l = true -> filter p l = l.
Proof.
  induction l as [|x l IH]; [reflexivity|].
  cbn [forallb filter]. intro Hp. apply andb_prop in Hp. destruct Hp as [Hx Hl].
  rewrite Hx, (IH Hl). reflexivity.
Qed.

(** X8.  The flag [require_baseline] never changes the verdict: it only puts the
    hit [baseline_missing], of severity MEDIUM, in front of the hits and its
    action in front of the [recommended_actions] that the engine reports
    without it. *)
Theorem require_baseline_only_warns `{PyText}
  (th : dict float) (snap : FalsifierEngine.MetricsSnapshot) (now : string) :
  let on := {| FalsifierEngine.thresholds := th; FalsifierEngine.require_baseline := true |} in
  let off := {| FalsifierEngine.thresholds := th; FalsifierEngine.require_baseline := false |} in
  FalsifierEngine.verdict (FalsifierEngine.evaluate on snap now)
  = FalsifierEngine.verdict (FalsifierEngine.evaluate off snap now)
  /\ FalsifierEngine.summary (FalsifierEngine.evaluate on snap now)
     = FalsifierEngine.summary (FalsifierEngine.evaluate off snap now)
  /\ FalsifierEngine.hits (FalsifierEngine.evaluate on snap now)
     = FalsifierEngine.baseline_missing_hits on snap
       ++ FalsifierEngine.hits (FalsifierEngine.evaluate off snap now)
  /\ FalsifierEngine.recommended_actions (FalsifierEngine.evaluate on snap now)
     = FalsifierEngine.baseline_missing_actions on snap
       ++ FalsifierEngine.recommended_actions (FalsifierEngine.evaluate off snap now).
Proof.
  cbv zeta.
  set (on := {| FalsifierEngine.thresholds := th; FalsifierEngine.require_baseline := true |}).
  set (off := {| FalsifierEngine.thresholds := th; FalsifierEngine.require_baseline := false |}).
  assert (Hhigh : filter FalsifierEngine.is_high (FalsifierEngine.all_hits on snap)
                  = filter FalsifierEngine.is_high (FalsifierEngine.all_hits off snap)).
  { rewrite !high_hits_without_baseline_flag. reflexivity. }
  assert (Hten : forall self,
             firstn 10 (dedup_into [] (FalsifierEngine.all_actions self snap))
             = dedup_first (FalsifierEngine.all_actions self snap)).
  { intro self. rewrite dedup_into_nil. apply firstn_all2.
    pose proof (dedup_first_length (FalsifierEngine.all_actions self snap)).
    pose proof (actions_at_most_ten self snap). lia. }
  unfold FalsifierEngine.evaluate.
  cbn [FalsifierEngine.verdict FalsifierEngine.summary FalsifierEngine.hits
       FalsifierEngine.recommended_actions].
  rewrite Hhigh. split; [reflexivity|]. split; [reflexivity|]. split; [reflexivity|].
  rewrite !Hten.
  change (FalsifierEngine.all_actions on snap)
    with (FalsifierEngine.baseline_missing_actions on snap
          ++ FalsifierEngine.all_actions off snap).
  pose proof (baseline_action_apart on off snap) as Hapart.
  destruct (FalsifierEngine.baseline_missing_actions on snap) as [|a [|b l]] eqn:Eb.
  - reflexivity.
  - cbn [app dedup_first]. f_equal.
    rewrite <- dedup_first_filter.
    rewrite (filter_keeps_all _ _ (Hapart a (or_introl eq_refl) eq_refl)). reflexivity.
  - unfold FalsifierEngine.baseline_missing_actions in Eb.
    destruct (FalsifierEngine.require_baseline on && _); discriminate Eb.
Qed.

(* ----------------------------------------------------------------- *)
(** ** Audit gate: what a gate result looks like *)

Module GateSpec.
Import AuditGate.

(** A result of the gate [name] with [m] required fields missing, the hard
    condition [hard] and the penalty [pen]. *)
Definition anatomy (name : string) (m : nat) (hard : bool) (pen : float)
  (gr : GateResult) : Prop :=
  gate gr = name
  /\ (m <= 3)%nat
  /\ verdict gr = (if (m =? 0)%nat && hard then "PASS" else "FAIL")
  /\ score gr = _score_from m pen
  /\ List.length (notes gr) = List.length (fixes gr)
  /\ (verdict gr = "FAIL" -> fixes gr <> []).

End GateSpec.

Section GateAnatomy.
Import AuditGate GateSpec.

Ltac unbind H :=
  repeat match type of H with
         | bind ?m _ = Ok _ => destruct m eqn:?; cbn [bind] in H; [|discriminate H]
         end.

Ltac finish :=
  repeat match goal with
         | |- context [(List.length ?l =? 0)%nat] => destruct (List.length l =? 0)%nat
         end;
  repeat match goal with
         | b : bool |- _ => destruct b
         end;
  cbn [andb orb negb];
  repeat match goal with
         | |- context [if ?b then _ else _] => destruct b; cbn [andb orb negb]
         end;
  simpl; try reflexivity; try discriminate; try (intros _; discriminate).

Lemma missing_at_most (required : list (string * pyval)) :
  (List.length (_count_missing_required required) <= List.length required)%nat.
Proof.
  unfold _count_missing_required. rewrite length_map. apply filter_length_le.
Qed.

Lemma nonempty_length {A} (l : list A) : nonempty l = negb (List.length l =? 0)%nat.
Proof. destruct l; reflexivity. Qed.

Lemma truth_gate_anatomy (a : dict pyval) (gr : GateResult) :
  _truth_gate a = Ok gr ->
  exists m ev, anatomy "Truth Gate" m ev (if ev then 0.0 else 0.2)%float gr.
Proof.
  intro E. unfold _truth_gate in E. cbv zeta in E. unbind E.
  injection E as <-.
  match goal with
  | |- context [_count_missing_required ?r] =>
      pose proof (missing_at_most r) as Hm; cbn [List.length] in Hm;
      set (missing := _count_missing_required r) in *
  end.
  exists (List.length missing).
  match goal with
  | Hev : _has_any_textual_evidence _ = Ok ?b |- _ => exists b; clear Hev
  end.
  unfold anatomy. cbn [gate verdict score notes fixes].
  rewrite !nonempty_length. rewrite negb_involutive.
  repeat split; try assumption; try reflexivity; finish.
Qed.

Ltac missing_count :=
  match goal with
  | |- context [_count_missing_required ?r] =>
      let Hm := fresh "Hm" in
      pose proof (missing_at_most r) as Hm; cbn [List.length] in Hm;
      set (missing := _count_missing_required r) in *;
      exists (List.length missing)
  end.

Lemma logic_gate_anatomy (a : dict pyval) (gr : GateResult) :
  _logic_gate a = Ok gr ->
  exists m hard, anatomy "Logic Gate" m hard (if hard then 0.0 else 0.15)%float gr.
Proof.
  intro E. unfold _logic_gate in E. cbv zeta in E. unbind E.
  injection E as <-. missing_count.
  match goal with
  | |- context [(?c <? 2)%nat] =>
      rewrite !(Nat.ltb_antisym 2 c);
      change (match c with S (S _) => true | _ => false end) with (2 <=? c)%nat;
      exists (2 <=? c)%nat; generalize (2 <=? c)%nat; intro hard
  end.
  unfold anatomy. cbn [gate verdict score notes fixes].
  rewrite !nonempty_length. rewrite negb_involutive.
  repeat split; try assumption; try reflexivity; finish.
Qed.

Lemma risk_gate_anatomy (a : dict pyval) (gr : GateResult) :
  _risk_gate a = Ok gr ->
  exists m hard, anatomy "Risk Gate" m hard (if hard then 0.0 else 0.15)%float gr.
Proof.
  intro E. unfold _risk_gate in E. cbv zeta in E. unbind E.
  injection E as <-. missing_count.
  match goal with
  | |- context [negb (nonempty (_as_list ?s))] =>
      exists (nonempty (_as_list s)); generalize (nonempty (_as_list s)); intro hard
  end.
  unfold anatomy. cbn [gate verdict score notes fixes].
  rewrite !nonempty_length. rewrite negb_involutive.
  repeat split; try assumption; try reflexivity; finish.
Qed.

Lemma bias_gate_anatomy (a : dict pyval) (gr : GateResult) :
  _bias_gate a = Ok gr ->
  exists m (thin : bool), anatomy "Bias Gate" m true (if thin then 0.1 else 0.0)%float gr.
Proof.
  intro E. unfold _bias_gate in E. cbv zeta in E. unbind E.
  injection E as <-. missing_count.
  match goal with
  | |- context [(List.length ?f <? 3)%nat] =>
      exists (List.length f <? 3)%nat; generalize (List.length f <? 3)%nat; intro thin
  end.
  unfold anatomy. cbn [gate verdict score notes fixes].
  rewrite !nonempty_length. rewrite negb_involutive, andb_true_r.
  repeat split; try assumption; try reflexivity; finish.
Qed.

Lemma nonempty_str_truthy (v : pyval) : _is_nonempty_str v = true -> truthy v = true.
Proof. destruct v as [| | | |s| |]; try discriminate. destruct s; [discriminate|reflexivity]. Qed.

Lemma clarity_gate_anatomy (a : dict pyval) (gr : GateResult) :
  _clarity_gate a = Ok gr ->
  exists m hard (t : bool),
    (hard = true -> t = true)
    /\ anatomy "Clarity Gate" m hard (if t then 0.0 else 0.1)%float gr.
Proof.
  intro E. unfold _clarity_gate in E. cbv zeta in E. unbind E.
  injection E as <-. missing_count.
  match goal with
  | |- context [_is_nonempty_str ?v] =>
      exists (_is_nonempty_str v), (truthy v);
      split; [apply nonempty_str_truthy|];
      generalize (_is_nonempty_str v) (truthy v); intros hard t
  end.
  unfold anatomy. cbn [gate verdict score notes fixes].
  rewrite !nonempty_length. rewrite negb_involutive.
  repeat split; try assumption; try reflexivity; finish.
Qed.

(** The penalty that goes with a gate: tied to the hard condition for the
    Truth, Logic and Risk gates, free for the Bias gate, and nil on a Clarity
    gate whose hard condition holds. *)
Definition penalty_of (name : string) (hard : bool) (pen : float) : Prop :=
  (name = "Truth Gate" /\ pen = (if hard then 0.0 else 0.2)%float)
  \/ (name = "Logic Gate" /\ pen = (if hard then 0.0 else 0.15)%float)
  \/ (name = "Risk Gate" /\ pen = (if hard then 0.0 else 0.15)%float)
  \/ (name = "Bias Gate" /\ hard = true /\ (pen = 0.1%float \/ pen = 0.0%float))
  \/ (name = "Clarity Gate"
      /\ (pen = 0.0%float \/ (hard = false /\ pen = 0.1%float))).

Lemma gate_in_report (strict : bool) (now : string) (ctx : AuditContext)
  (r : AuditReport) (gr : GateResult) :
  evaluate strict now ctx = Ok r -> In gr (gate_results r) ->
  exists name m hard pen, anatomy name m hard pen gr /\ penalty_of name hard pen.
Proof.
  intros E Hin.
  destruct (evaluate_report strict now ctx r E)
    as [t [l [k [b [c [Et [El [Ek [Eb [Ec [Egr _]]]]]]]]]]].
  rewrite Egr in Hin. unfold penalty_of.
  destruct Hin as [<-|[<-|[<-|[<-|[<-|[]]]]]].
  - destruct (truth_gate_anatomy _ _ Et) as [m [ev Ha]].
    exists "Truth Gate", m, ev. eexists. split; [exact Ha|]. auto.
  - destruct (logic_gate_anatomy _ _ El) as [m [hard Ha]].
    exists "Logic Gate", m, hard. eexists. split; [exact Ha|]. auto.
  - destruct (risk_gate_anatomy _ _ Ek) as [m [hard Ha]].
    exists "Risk Gate", m, hard. eexists. split; [exact Ha|]. auto.
  - destruct (bias_gate_anatomy _ _ Eb) as [m [thin Ha]].
    exists "Bias Gate", m, true. eexists. split; [exact Ha|].
    do 3 right. left. destruct thin; auto.
  - destruct (clarity_gate_anatomy _ _ Ec) as [m [hard [tr [Ht Ha]]]].
    exists "Clarity Gate", m, hard. eexists. split; [exact Ha|].
    do 4 right. split; [reflexivity|].
    destruct tr; [auto|]. right. split; [|reflexivity].
    destruct hard; [|reflexivity]. discriminate (Ht eq_refl).
Qed.

End GateAnatomy.

(** X9.  In a report that [evaluate] returns, every gate result is a PASS or a
    FAIL, holds as many notes as fixes (each check that speaks adds one of
    each), and offers at least one fix when it is a FAIL; so the overall
    verdict is PASS exactly when [minimum_fixes] is empty. *)
Theorem failed_gates_offer_fixes (strict : bool) (now : string)
  (ctx : AuditGate.AuditContext) (r : AuditGate.AuditReport) :
  AuditGate.evaluate strict now ctx = Ok r ->
  (forall gr, In gr (AuditGate.gate_results r) ->
     (AuditGate.verdict gr = "PASS" \/ AuditGate.verdict gr = "FAIL")
     /\ List.length (AuditGate.notes gr) = List.length (AuditGate.fixes gr)
     /\ (AuditGate.verdict gr = "FAIL" -> AuditGate.fixes gr <> []))
  /\ (AuditGate.overall_verdict r = "PASS" <-> AuditGate.minimum_fixes r = []).
Proof.
  intro E.
  assert (Hgates : forall gr, In gr (AuditGate.gate_results r) ->
            (AuditGate.verdict gr = "PASS" \/ AuditGate.verdict gr = "FAIL")
            /\ List.length (AuditGate.notes gr) = List.length (AuditGate.fixes gr)
            /\ (AuditGate.verdict gr = "FAIL" -> AuditGate.fixes gr <> [])).
  { intros gr Hin.
    destruct (gate_in_report strict now ctx r gr E Hin)
      as [name [m [hard [pen [[_ [_ [Hv [_ [Hl Hf]]]]] _]]]]].
    split; [|split; assumption].
    rewrite Hv. destruct ((m =? 0)%nat && hard); auto. }
  split; [exact Hgates|].
  destruct (evaluate_report strict now ctx r E)
    as [t [l [k [b [c [_ [_ [_ [_ [_ [_ [_ Hmin]]]]]]]]]]]].
  rewrite Hmin, collect_fixes_spec.
  rewrite (overall_pass_iff strict now ctx r E). split.
  - intro Hall.
    assert (Hnone : filter AuditGate.is_fail (AuditGate.gate_results r) = []).
    { apply filter_nil_iff. intros gr Hin. unfold AuditGate.is_fail.
      rewrite (Hall gr Hin). reflexivity. }
    unfold failed_fixes. rewrite Hnone. reflexivity.
  - intros Hnil gr Hin.
    destruct (Hgates gr Hin) as [[Hp|Hf] [_ Hfix]]; [exact Hp|].
    exfalso.
    destruct (failed_fixes (AuditGate.gate_results r)) as [|f fs] eqn:Eff;
      [|discriminate Hnil].
    destruct (AuditGate.fixes gr) as [|f fs] eqn:Efx; [exact (Hfix Hf eq_refl)|].
    assert (Hf_in : In f (failed_fixes (AuditGate.gate_results r))).
    { unfold failed_fixes. apply in_flat_map. exists gr. split.
      - apply filter_In. split; [exact Hin|]. unfold AuditGate.is_fail.
        rewrite Hf. reflexivity.
      - rewrite Efx. left. reflexivity. }
    rewrite Eff in Hf_in. destruct Hf_in.
Qed.

Lemma failed_gates_offer_fixes_witness :
  exists r,
    AuditGate.evaluate true "now"
      {| AuditGate.artifacts := goal_only_artifacts; AuditGate.ctx_metadata := [] |} = Ok r
    /\ AuditGate.overall_verdict r <> "PASS"
    /\ AuditGate.minimum_fixes r <> [].
Proof.
  destruct (AuditGate.evaluate true "now"
              {| AuditGate.artifacts := goal_only_artifacts;
                 AuditGate.ctx_metadata := [] |}) as [r|e] eqn:E;
    [|vm_compute in E; discriminate E].
  exists r. split; [reflexivity|].
  assert (Hv : AuditGate.overall_verdict r <> "PASS").
  { vm_compute in E. injection E as <-. discriminate. }
  split; [exact Hv|].
  intro Hnil. apply Hv.
  apply (proj2 (failed_gates_offer_fixes true "now" _ r E)). exact Hnil.
Defined.

(** X10.  In a report that [evaluate] returns, the score of every gate lies
    between 0 and 1.  A gate that passes has the score 1, except the Bias
    gate, which may pass at 0.9 (on fewer than three facts); and the Truth,
    Logic and Risk gates have the score 1 only when they pass. *)
Theorem gate_scores (strict : bool) (now : string)
  (ctx : AuditGate.AuditContext) (r : AuditGate.AuditReport) :
  AuditGate.evaluate strict now ctx = Ok r ->
  forall gr, In gr (AuditGate.gate_results r) ->
    (0 <=? AuditGate.score gr)%float = true
    /\ (AuditGate.score gr <=? 1)%float = true
    /\ (AuditGate.verdict gr = "PASS" ->
        (AuditGate.score gr =? 1)%float = true
        \/ (AuditGate.gate gr = "Bias Gate" /\ (AuditGate.score gr =? 0.9)%float = true))
    /\ ((AuditGate.score gr =? 1)%float = true ->
        AuditGate.gate gr = "Truth Gate" \/ AuditGate.gate gr = "Logic Gate"
        \/ AuditGate.gate gr = "Risk Gate" ->
        AuditGate.verdict gr = "PASS").
Proof.
  intros E gr Hin.
  destruct (gate_in_report strict now ctx r gr E Hin)
    as [name [m [hard [pen [[Hg [Hm [Hv [Hs _]]]] Hpen]]]]].
  rewrite Hv, Hs, Hg. clear Hv Hs Hg E Hin.
  assert (Hm3 : m = 0%nat \/ m = 1%nat \/ m = 2%nat \/ m = 3%nat) by lia.
  clear Hm.
  destruct Hpen as [[-> ->]|[[-> ->]|[[-> ->]|[[-> [-> [->| ->]]]|[-> [->|[-> ->]]]]]]];
    destruct Hm3 as [->|[->|[->| ->]]]; try destruct hard;
    (split; [vm_compute; reflexivity|]);
    (split; [vm_compute; reflexivity|]);
    (split;
     [ intro Hp; try discriminate Hp;
       first [ left; vm_compute; reflexivity
             | right; split; [reflexivity|vm_compute; reflexivity] ]
     | intros Hone Hname; try reflexivity;
       first [ vm_compute in Hone; discriminate Hone
             | destruct Hname as [Hn|[Hn|Hn]]; discriminate Hn ] ]).
Qed.

Lemma gate_scores_witness :
  exists r,
    AuditGate.evaluate true "now"
      {| AuditGate.artifacts := minimum_artifacts; AuditGate.ctx_metadata := [] |} = Ok r
    /\ Forall (fun gr => (0 <=? AuditGate.score gr)%float = true
                         /\ (AuditGate.score gr <=? 1)%float = true)
         (AuditGate.gate_results r).
Proof.
  destruct (AuditGate.evaluate true "now"
              {| AuditGate.artifacts := minimum_artifacts;
                 AuditGate.ctx_metadata := [] |}) as [r|e] eqn:E;
    [|vm_compute in E; discriminate E].
  exists r. split; [reflexivity|].
  apply Forall_forall. intros gr Hin.
  destruct (gate_scores true "now" _ r E gr Hin) as [H0 [H1 _]]. auto.
Defined.

(* ----------------------------------------------------------------- *)
(** ** Audit gate: the flag [strict] and the metadata *)

Lemma dict_get_update_other {V} (o d : dict V) (k : string) :
  ~ In k (map fst o) -> dict_get (dict_update d o) k = dict_get d k.
Proof.
  unfold dict_update. revert d.
  induction o as [|[k0 v0] o IH]; intros d Hn; simpl; [reflexivity|].
  simpl in Hn. rewrite IH by tauto. rewrite dict_get_set.
  destruct (String.eqb_spec k k0) as [->|Hne]; [exfalso; tauto|reflexivity].
Qed.

(** Once the update assigns to the key of the first slot, what the slot
    held before is gone. *)
Lemma update_overwrites_head {V} (o t : dict V) (k : string) (a b : V) :
  In k (map fst o) -> dict_update ((k, a) :: t) o = dict_update ((k, b) :: t) o.
Proof.
  unfold dict_update. revert t.
  induction o as [|[k0 v0] o IH]; intros t Hin; [destruct Hin|].
  simpl. destruct (String.eqb_spec k0 k) as [->|Hne]; [reflexivity|].
  apply IH. destruct Hin as [E|Hin]; [simpl in E; congruence|exact Hin].
Qed.

(** X11.  The flag [strict] has no part in the evaluation: with either value
    [evaluate] raises on the same bundles and returns reports with the same
    verdicts, gate results, summary and fixes.  The flag is only recorded,
    under the key strict of the metadata of the report, and a key strict in
    the metadata of the context takes its place there. *)
Theorem strict_flag_is_inert (strict : bool) (now : string) (ctx : AuditGate.AuditContext) :
  match AuditGate.evaluate strict now ctx, AuditGate.evaluate (negb strict) now ctx with
  | Ok r, Ok r' =>
      AuditGate.codex_id r' = AuditGate.codex_id r
      /\ AuditGate.timestamp_utc r' = AuditGate.timestamp_utc r
      /\ AuditGate.overall_verdict r' = AuditGate.overall_verdict r
      /\ AuditGate.gate_results r' = AuditGate.gate_results r
      /\ AuditGate.summary r' = AuditGate.summary r
      /\ AuditGate.minimum_fixes r' = AuditGate.minimum_fixes r
      /\ (In "strict" (map fst (AuditGate.ctx_metadata ctx)) -> r' = r)
      /\ (~ In "strict" (map fst (AuditGate.ctx_metadata ctx)) ->
          dict_get (AuditGate.metadata r) "strict" = Some (PBool strict))
  | Raise e, Raise e' => e' = e
  | _, _ => False
  end.
Proof.
  unfold AuditGate.evaluate. cbv zeta.
  destruct (AuditGate._truth_gate (AuditGate.artifacts ctx)); cbn [bind]; [|reflexivity].
  destruct (AuditGate._logic_gate (AuditGate.artifacts ctx)); cbn [bind]; [|reflexivity].
  destruct (AuditGate._risk_gate (AuditGate.artifacts ctx)); cbn [bind]; [|reflexivity].
  destruct (AuditGate._bias_gate (AuditGate.artifacts ctx)); cbn [bind]; [|reflexivity].
  destruct (AuditGate._clarity_gate (AuditGate.artifacts ctx)); cbn [bind]; [|reflexivity].
  cbn [AuditGate.codex_id AuditGate.timestamp_utc AuditGate.overall_verdict
       AuditGate.gate_results AuditGate.summary AuditGate.minimum_fixes AuditGate.metadata].
  repeat (split; [reflexivity|]). split.
  - intro Hin. f_equal. apply update_overwrites_head. exact Hin.
  - intro Hn. rewrite (dict_get_update_other _ _ _ Hn). reflexivity.
Qed.

(* ----------------------------------------------------------------- *)
(** ** Audit gate: the helper [_get] *)

Module GetSpec.

(** The value at the end of a path, when every step of it is bound. *)
Fixpoint walk (d : pyval) (path : list string) : option pyval :=
  match path with
  | [] => Some d
  | p :: path' =>
      match d with
      | PDict m =>
          match dict_get m p with
          | Some v => walk v path'
          | None => None
          end
      | _ => None
      end
  end.

End GetSpec.

(** X12.  [_get] returns the value at the end of the path when every step is
    bound (be it [None]) and the default otherwise, so that a path can be
    walked in two legs.  On a bundle it reads what the gates read with
    [(artifacts.get(name) or {}).get(k)] whenever that returns, and returns
    [None] where that raises, on a document that is truthy and no mapping. *)
Theorem get_helper_reads_what_gates_read (a : dict pyval) (name k : string)
  (d : pyval) (p q : list string) (default : pyval) :
  AuditGate._get d p default
  = match GetSpec.walk d p with Some v => v | None => default end
  /\ AuditGate._get d (p ++ q) default
     = match GetSpec.walk d p with
       | Some v => AuditGate._get v q default
       | None => default
       end
  /\ (pget (AuditGate.doc a name) k = Ok (AuditGate._get (PDict a) [name; k] PNone)
      \/ (pget (AuditGate.doc a name) k = Raise (AttributeError "get")
          /\ truthy (get a name) = true
          /\ AuditGate.is_dict (get a name) = false
          /\ AuditGate._get (PDict a) [name; k] PNone = PNone)).
Proof.
  split; [|split].
  - revert d. induction p as [|x p IH]; intro d; [reflexivity|].
    simpl. destruct d; try reflexivity.
    destruct (dict_get d x); [apply IH|reflexivity].
  - revert d. induction p as [|x p IH]; intro d; [reflexivity|].
    simpl. destruct d; try reflexivity.
    destruct (dict_get d x); [apply IH|reflexivity].
  - unfold AuditGate.doc, or_, get. simpl.
    destruct (dict_get a name) as [v|]; [|left; reflexivity].
    destruct v as [|b|z|f|s|l|m]; simpl.
    + left. reflexivity.
    + destruct b; [right; auto|left; reflexivity].
    + destruct (z =? 0)%Z; [left; reflexivity|right; auto].
    + destruct (f =? 0)%float; [left; reflexivity|right; auto].
    + destruct (s =? ""); [left; reflexivity|right; auto].
    + destruct l; [left; reflexivity|right; auto].
    + destruct m as [|kv m]; left; reflexivity.
Qed.

(* ----------------------------------------------------------------- *)
(** ** Signed memory: the counters of [verify_chain], the tail of the log *)

Section LogCounters.
Context `{PyText}.
Import SignedMemory.

(** The lines that [verify_chain] and [_load_tail] look at. *)
Definition nonblank (lines : list string) : list string :=
  filter (fun line => negb (isblank line)) lines.

(** The most that one line can add to [bad]. *)
Definition per_line (self : memory) : nat := if has_secret self then 3 else 2.

Ltac unbind H :=
  repeat match type of H with
         | bind ?m _ = Ok _ => destruct m eqn:?; cbn [bind] in H; [|discriminate H]
         end.

Lemma verify_line_counts (self : memory) (st st' : vstate) (line : string) :
  verify_line self st line = Ok st' ->
  checked st' = (checked st + List.length (nonblank [line]))%nat
  /\ (bad st <= bad st')%nat
  /\ (bad st' <= bad st + per_line self * List.length (nonblank [line]))%nat
  /\ (List.length (notes st') + bad st = List.length (notes st) + bad st')%nat.
Proof.
  unfold verify_line, nonblank, per_line, has_secret. cbn [filter].
  destruct (isblank line); cbn [negb List.length].
  - intro E. injection E as <-. lia.
  - destruct (Json.loads line) as [[| | | | | |obj]|]; try discriminate.
    intro E. unbind E. injection E as <-. cbn [checked bad notes].
    rewrite !length_app.
    destruct (_secret self) as [secret|].
    + unbind Heqr0. injection Heqr0 as <-.
      repeat match goal with
             | |- context [if ?b then _ else _] => destruct b
             end; cbn [List.length]; lia.
    + injection Heqr0 as <-.
      repeat match goal with
             | |- context [if ?b then _ else _] => destruct b
             end; cbn [List.length]; lia.
Qed.

Lemma nonblank_cons (line : string) (lines : list string) :
  List.length (nonblank (line :: lines))
  = (List.length (nonblank [line]) + List.length (nonblank lines))%nat.
Proof. unfold nonblank. cbn [filter]. destruct (negb (isblank line)); reflexivity. Qed.

Lemma verify_lines_counts (self : memory) (lines : list string) (st st' : vstate) :
  verify_lines self st lines = Ok st' ->
  checked st' = (checked st + List.length (nonblank lines))%nat
  /\ (bad st <= bad st')%nat
  /\ (bad st' <= bad st + per_line self * List.length (nonblank lines))%nat
  /\ (List.length (notes st') + bad st = List.length (notes st) + bad st')%nat.
Proof.
  revert st. induction lines as [|line lines IH]; intros st E.
  - simpl in E. injection E as <-. cbn [nonblank filter List.length]. lia.
  - cbn [verify_lines] in E.
    destruct (verify_line self st line) as [st1|ex] eqn:E1; [|discriminate].
    apply verify_line_counts in E1. apply IH in E. rewrite nonblank_cons. nia.
Qed.



End LogCounters.

(** X13.  When [verify_chain] returns on an existing log, [checked] is the
    number of lines that are not blank, [bad] is at most twice that number
    (three times with a signing secret: one for the chain, one for the hash,
    one for the signature of each line), and [notes] holds one note per
    mismatch up to the twentieth; so [ok] holds exactly when there is no
    note.  (It returns only on bytes that are UTF-8.) *)
Theorem verify_chain_counts `{PyText} `{PyIO} (self : SignedMemory.memory) (b : string)
  (report : dict pyval) :
  SignedMemory.verify_chain self (Some b) = Ok report ->
  TextIO.utf8_valid b = true
  /\ exists (bad : nat) (notes : list string),
       report = [ ("ok", PBool (bad =? 0)%nat);
                  ("checked", PInt (Z.of_nat (List.length (nonblank (TextIO.all_lines b)))));
                  ("bad", PInt (Z.of_nat bad));
                  ("notes", PList (map PStr notes));
                  ("signature_enabled", PBool (SignedMemory.has_secret self)) ]
       /\ (bad <= per_line self * List.length (nonblank (TextIO.all_lines b)))%nat
       /\ List.length notes = Nat.min 20 bad
       /\ (bad = 0%nat <-> notes = []).
Proof.
  destruct (TextIO.utf8_valid b) eqn:Hv.
  2:{ rewrite (verify_chain_undecodable self b Hv).
      destruct (SignedMemory.verify_lines self LogSpec.start _); discriminate. }
  rewrite (verify_chain_valid self b Hv).
  destruct (SignedMemory.verify_lines self _ (TextIO.all_lines b)) as [st|ex] eqn:E;
    [|discriminate].
  intro Er. injection Er as <-. split; [reflexivity|].
  apply verify_lines_counts in E.
  cbn [SignedMemory.checked SignedMemory.bad SignedMemory.notes List.length LogSpec.start] in E.
  destruct E as [Hc [_ [Hb Hn]]].
  exists (SignedMemory.bad st), (firstn 20 (SignedMemory.notes st)).
  rewrite Hc. split; [reflexivity|]. split; [lia|].
  assert (Hlen : List.length (firstn 20 (SignedMemory.notes st))
                 = Nat.min 20 (SignedMemory.bad st)).
  { rewrite length_firstn. lia. }
  split; [exact Hlen|].
  split.
  - intro H0'. rewrite H0' in Hlen. apply length_zero_iff_nil. exact Hlen.
  - intro Hnil. rewrite Hnil in Hlen. cbn [List.length] in Hlen. lia.
Qed.

Lemma verify_chain_counts_witness :
  exists (bad : nat) (notes : list string),
    @SignedMemory.verify_chain plain_text plain_io LogSpec.demo_memory
      (Some (SignedMemory.content LogSpec.demo_file))
    = Ok [ ("ok", PBool (bad =? 0)%nat);
           ("checked", PInt 2);
           ("bad", PInt (Z.of_nat bad));
           ("notes", PList (map PStr notes));
           ("signature_enabled", PBool true) ]
    /\ (bad <= 6)%nat.
Proof.
  destruct (@SignedMemory.verify_chain plain_text plain_io LogSpec.demo_memory
              (Some (SignedMemory.content LogSpec.demo_file))) as [report|ex] eqn:E;
    [|vm_compute in E; discriminate E].
  destruct (@verify_chain_counts plain_text plain_io _ _ report E)
    as [_ [bad [notes [-> [Hb _]]]]].
  exists bad, notes. split; [reflexivity|exact Hb].
Defined.

Module TailSpec.
Import SignedMemory.


End TailSpec.

Section LoadTail.
Context `{PyText} `{PyIO}.
Import SignedMemory.




End LoadTail.



(* ----------------------------------------------------------------- *)
(** ** JSON: what [json.loads] makes of the text of [json.dumps] *)

Lemma string_app_assoc (a b c : string) : ((a ++ b) ++ c = a ++ (b ++ c))%string.
Proof. induction a as [|x a IH]; simpl; [reflexivity|]. rewrite IH. reflexivity. Qed.

Lemma string_app_nil_r (a : string) : (a ++ "" = a)%string.
Proof. induction a as [|x a IH]; simpl; [reflexivity|]. rewrite IH. reflexivity. Qed.

Module JsonSpec.

(** What may follow a value in a JSON text: nothing, or a comma, a
    closing bracket or brace, or the newline that ends the line. *)
Definition delim (r : string) : bool :=
  match r with
  | EmptyString => true
  | String a _ =>
      Ascii.eqb a "," || Ascii.eqb a "]" || Ascii.eqb a "}" || Ascii.eqb a TextIO.LF
  end.

End JsonSpec.

Section JsonText.
Context `{PyText}.
Import Json JsonSpec.

Lemma delim_cases (r : string) :
  delim r = true ->
  r = "" \/ exists r', r = String "," r' \/ r = String "]" r' \/ r = String "}" r'
                        \/ r = String TextIO.LF r'.
Proof.
  destruct r as [|a r']; [auto|]. cbn [delim]. intro Hd. right. exists r'.
  destruct (Ascii.eqb_spec a ",") as [->|_]; [auto|].
  destruct (Ascii.eqb_spec a "]") as [->|_]; [auto|].
  destruct (Ascii.eqb_spec a "}") as [->|_]; [auto|].
  destruct (Ascii.eqb_spec a TextIO.LF) as [->|_]; [auto|discriminate].
Qed.

Ltac by_delim r Hd :=
  destruct (delim_cases r Hd) as [->|[? [->|[->|[->| ->]]]]]; reflexivity.

Lemma span_digits_delim (r : string) : delim r = true -> span_digits r = (EmptyString, r).
Proof. intro Hd. by_delim r Hd. Qed.

Lemma scan_frac_delim (r : string) : delim r = true -> scan_frac r = (EmptyString, r).
Proof. intro Hd. by_delim r Hd. Qed.

Lemma scan_exp_delim (r : string) : delim r = true -> scan_exp r = (EmptyString, r).
Proof. intro Hd. by_delim r Hd. Qed.

(** *** Strings *)

Lemma scan_unicode_escape (h1 h2 h3 h4 : ascii) (hi : N) (c t : string) :
  hex4val h1 h2 h3 h4 = Some hi -> is_high_surrogate hi = false -> utf8 hi = c ->
  scan_string (String backslash (String "u" (String h1 (String h2 (String h3 (String h4 t))))))
  = prepend c (scan_string t).
Proof.
  intros Hh Hs <-.
  change (scan_string (String backslash
                         (String "u" (String h1 (String h2 (String h3 (String h4 t)))))))
    with (match hex4val h1 h2 h3 h4 with
          | None => None
          | Some hi =>
              match t with
              | String b1 (String b2 (String l1 (String l2 (String l3 (String l4 s4))))) =>
                  match low_surrogate hi b1 b2 l1 l2 l3 l4 with
                  | Some lo =>
                      prepend (utf8 (0x10000 + (hi - 0xD800) * 1024 + (lo - 0xDC00))%N)
                        (scan_string s4)
                  | None => prepend (utf8 hi) (scan_string t)
                  end
              | _ => prepend (utf8 hi) (scan_string t)
              end
          end).
  rewrite Hh.
  destruct t as [|b1 [|b2 [|l1 [|l2 [|l3 [|l4 s4]]]]]]; try reflexivity.
  unfold low_surrogate. rewrite Hs. reflexivity.
Qed.

Lemma scan_escape_byte (a : ascii) (t : string) :
  scan_string (escape_byte a ++ t)%string = prepend (String a EmptyString) (scan_string t).
Proof.
  destruct a as [[] [] [] [] [] [] [] []];
    match goal with
    | |- scan_string (escape_byte ?c ++ t) = _ =>
        let e := eval vm_compute in (escape_byte c) in
        change (escape_byte c) with e; cbn [append]
    end;
    first [ reflexivity
          | eapply scan_unicode_escape; reflexivity ].
Qed.

Lemma scan_escape (s r : string) :
  scan_string (escape s ++ String dquote r)%string = Some (s, r).
Proof.
  induction s as [|a s IH]; [reflexivity|].
  cbn [escape]. rewrite string_app_assoc, scan_escape_byte, IH. reflexivity.
Qed.

Lemma scan_quote (s r : string) :
  (quote s ++ r)%string = String dquote (escape s ++ String dquote r).
Proof. unfold quote. cbn [append]. rewrite string_app_assoc. reflexivity. Qed.

(** *** Integers *)

Definition is_digit_char (a : ascii) : Prop :=
  In a ["0"; "1"; "2"; "3"; "4"; "5"; "6"; "7"; "8"; "9"]%char.

Lemma parse_value_digit (fuel : nat) (a : ascii) (s : string) :
  is_digit_char a ->
  parse_value (S fuel) (String a s) = scan_number false (String a s).
Proof.
  intro Ha. unfold is_digit_char in Ha. simpl in Ha.
  repeat (destruct Ha as [<-|Ha]; [reflexivity|]). destruct Ha.
Qed.

Lemma parse_value_minus (fuel : nat) (s : string) :
  parse_value (S fuel) (String "-" s)
  = match starts_with "Infinity" s with
    | Some r => Some (PFloat neg_infinity, r)
    | None => scan_number true s
    end.
Proof. reflexivity. Qed.

Lemma span_digits_uint (d : Decimal.uint) (r : string) :
  delim r = true ->
  span_digits (NilEmpty.string_of_uint d ++ r)%string = (NilEmpty.string_of_uint d, r).
Proof.
  intro Hd. induction d; cbn [NilEmpty.string_of_uint append];
    [apply span_digits_delim; exact Hd|..];
    cbn [span_digits]; rewrite IHd; reflexivity.
Qed.

Definition digit_step (acc : Z) (a : ascii) : Z :=
  (acc * 10 + Z.of_N (N_of_ascii a - 48))%Z.

Lemma digits_acc (d : Decimal.uint) (acc : positive) :
  fold_left digit_step (list_ascii_of_string (NilEmpty.string_of_uint d)) (Z.pos acc)
  = Z.pos (Pos.of_uint_acc d acc).
Proof.
  revert acc. induction d; intro acc;
    cbn [NilEmpty.string_of_uint list_ascii_of_string fold_left Pos.of_uint_acc];
    [reflexivity|..];
    match goal with
    | |- fold_left _ _ ?x = Z.pos (Pos.of_uint_acc _ ?y) =>
        replace x with (Z.pos y)
          by (unfold digit_step; set (k := Z.of_N (N_of_ascii _ - 48));
              vm_compute in k; subst k; lia)
    end; apply IHd.
Qed.

Lemma digits_value (d : Decimal.uint) :
  Z_of_digits (NilEmpty.string_of_uint d) = Z.of_N (Pos.of_uint d).
Proof.
  unfold Z_of_digits. change (fun acc a => (acc * 10 + Z.of_N (N_of_ascii a - 48))%Z)
    with digit_step.
  induction d; cbn [NilEmpty.string_of_uint list_ascii_of_string fold_left Pos.of_uint];
    [reflexivity|exact IHd|..];
    match goal with
    | |- fold_left _ _ ?x = Z.of_N (N.pos (Pos.of_uint_acc _ ?y)) =>
        replace x with (Z.pos y) by (vm_compute; reflexivity)
    end; apply digits_acc.
Qed.

Lemma to_uint_no_leading_zero (p : positive) (u : Decimal.uint) :
  Pos.to_uint p <> Decimal.D0 u.
Proof.
  intro E.
  pose proof (DecimalPos.Unsigned.to_of (Pos.to_uint p)) as Hn.
  rewrite DecimalPos.Unsigned.of_to in Hn. change (N.to_uint (N.pos p)) with (Pos.to_uint p) in Hn.
  rewrite E in Hn. rewrite DecimalFacts.unorm_D0 in Hn.
  assert (Hc : Decimal.nzhead u = Decimal.Nil \/ Decimal.nzhead u <> Decimal.Nil).
  { destruct (Decimal.nzhead u); [left; reflexivity | right; discriminate ..]. }
  destruct Hc as [Eu|Eu].
  - unfold Decimal.unorm in Hn. rewrite Eu in Hn. injection Hn as Hn. subst u.
    apply (DecimalPos.Unsigned.to_uint_nonzero p). exact E.
  - rewrite (DecimalFacts.unorm_nzhead u Eu) in Hn. symmetry in Hn.
    exact (DecimalFacts.nzhead_nonzero _ _ Hn).
Qed.

(** The text of a positive number: a digit other than 0, then digits. *)
Lemma positive_text (p : positive) :
  exists a u, is_digit_char a /\ a <> "0"%char
              /\ NilEmpty.string_of_uint (Pos.to_uint p)
                 = String a (NilEmpty.string_of_uint u).
Proof.
  destruct (Pos.to_uint p) as [|u|u|u|u|u|u|u|u|u|u] eqn:E.
  - exfalso. exact (DecimalPos.Unsigned.to_uint_nonnil p E).
  - exfalso. exact (to_uint_no_leading_zero p u E).
  - exists "1"%char, u. unfold is_digit_char. simpl. intuition discriminate.
  - exists "2"%char, u. unfold is_digit_char. simpl. intuition discriminate.
  - exists "3"%char, u. unfold is_digit_char. simpl. intuition discriminate.
  - exists "4"%char, u. unfold is_digit_char. simpl. intuition discriminate.
  - exists "5"%char, u. unfold is_digit_char. simpl. intuition discriminate.
  - exists "6"%char, u. unfold is_digit_char. simpl. intuition discriminate.
  - exists "7"%char, u. unfold is_digit_char. simpl. intuition discriminate.
  - exists "8"%char, u. unfold is_digit_char. simpl. intuition discriminate.
  - exists "9"%char, u. unfold is_digit_char. simpl. intuition discriminate.
Qed.

Lemma string_of_positive (p : positive) :
  NilZero.string_of_uint (Pos.to_uint p) = NilEmpty.string_of_uint (Pos.to_uint p).
Proof.
  destruct (Pos.to_uint p) eqn:E; try reflexivity.
  exfalso. exact (DecimalPos.Unsigned.to_uint_nonnil p E).
Qed.

Lemma scan_positive (neg : bool) (p : positive) (r : string) :
  delim r = true ->
  scan_number neg (NilEmpty.string_of_uint (Pos.to_uint p) ++ r)%string
  = Some (PInt (if neg then Z.neg p else Z.pos p), r).
Proof.
  intro Hd.
  assert (Hv : Z_of_digits (NilEmpty.string_of_uint (Pos.to_uint p)) = Z.pos p).
  { rewrite digits_value, DecimalPos.Unsigned.of_to. reflexivity. }
  pose proof (span_digits_uint (Pos.to_uint p) r Hd) as Hspan.
  destruct (positive_text p) as [a [u [Ha [Hnz E]]]].
  rewrite E in *. cbn [append] in *.
  unfold scan_number, scan_int_part.
  destruct (Ascii.eqb_spec a "0") as [->|_]; [contradiction|].
  assert (Hdig : is_digit a = true).
  { unfold is_digit_char in Ha. simpl in Ha.
    repeat (destruct Ha as [<-|Ha]; [reflexivity|]). destruct Ha. }
  rewrite Hdig, Hspan, (scan_frac_delim r Hd), (scan_exp_delim r Hd), Hv.
  destruct neg; reflexivity.
Qed.

Lemma parse_int (fuel : nat) (z : Z) (r : string) :
  delim r = true ->
  parse_value (S fuel) (skip_ws (string_of_Z z ++ r)%string) = Some (PInt z, r).
Proof.
  intro Hd. destruct z as [|p|p].
  - change (string_of_Z 0) with "0"%string. cbn [append].
    change (skip_ws (String "0" r)) with (String "0" r).
    rewrite parse_value_digit by (unfold is_digit_char; simpl; auto).
    unfold scan_number, scan_int_part. cbn [Ascii.eqb Bool.eqb].
    rewrite (scan_frac_delim r Hd), (scan_exp_delim r Hd). reflexivity.
  - change (string_of_Z (Z.pos p)) with (NilZero.string_of_uint (Pos.to_uint p)).
    rewrite string_of_positive.
    pose proof (scan_positive false p r Hd) as Hs.
    destruct (positive_text p) as [a [u [Ha [Hnz E]]]].
    rewrite E in *. cbn [append] in *.
    assert (Hws : skip_ws (String a (NilEmpty.string_of_uint u ++ r))
                  = String a (NilEmpty.string_of_uint u ++ r)).
    { unfold is_digit_char in Ha. simpl in Ha.
      repeat (destruct Ha as [<-|Ha]; [reflexivity|]). destruct Ha. }
    rewrite Hws, (parse_value_digit _ _ _ Ha). exact Hs.
  - change (string_of_Z (Z.neg p))
      with (String "-" (NilZero.string_of_uint (Pos.to_uint p))).
    rewrite string_of_positive. cbn [append].
    change (skip_ws (String "-" ?x)) with (String "-" x).
    pose proof (scan_positive true p r Hd) as Hs.
    destruct (positive_text p) as [a [u [Ha [Hnz E]]]].
    rewrite E in *. cbn [append] in *.
    rewrite parse_value_minus.
    assert (Hinf : starts_with "Infinity" (String a (NilEmpty.string_of_uint u ++ r)) = None).
    { unfold is_digit_char in Ha. simpl in Ha.
      repeat (destruct Ha as [<-|Ha]; [reflexivity|]). destruct Ha. }
    rewrite Hinf. exact Hs.
Qed.

End JsonText.

(** *** Sorting the items of a dict *)

Section SortItems.
Context {A B : Type} (f : A -> B).
Import Json.

Let g : string * A -> string * B := fun kv => (fst kv, f (snd kv)).

Lemma insert_item_map (x : string * A) (l : list (string * A)) :
  insert_item (g x) (map g l) = map g (insert_item x l).
Proof.
  induction l as [|y l IH]; [reflexivity|].
  cbn [map insert_item].
  change (fst (g x)) with (fst x). change (fst (g y)) with (fst y).
  destruct (String.ltb (fst x) (fst y)); [reflexivity|].
  cbn [map]. rewrite IH. reflexivity.
Qed.

Lemma sort_items_map (l : list (string * A)) :
  sort_items (map (fun kv => (fst kv, f (snd kv))) l)
  = map (fun kv => (fst kv, f (snd kv))) (sort_items l).
Proof.
  change (fun kv : string * A => (fst kv, f (snd kv))) with g.
  unfold sort_items.
  change (@nil (string * B)) with (map g []) at 1.
  generalize (@nil (string * A)) as acc.
  induction l as [|x l IH]; intro acc; [reflexivity|].
  cbn [map fold_left]. rewrite insert_item_map. apply IH.
Qed.

Lemma insert_item_perm (x : string * A) (l : list (string * A)) :
  Permutation (insert_item x l) (x :: l).
Proof.
  induction l as [|y l IH]; [apply Permutation_refl|].
  cbn [insert_item]. destruct (String.ltb (fst x) (fst y)); [apply Permutation_refl|].
  eapply Permutation_trans; [apply perm_skip; exact IH|apply perm_swap].
Qed.

Lemma sort_items_perm (l : list (string * A)) : Permutation (sort_items l) l.
Proof.
  unfold sort_items.
  assert (G : forall acc, Permutation (fold_left (fun a x => insert_item x a) l acc) (acc ++ l)).
  { induction l as [|x l IH]; intro acc.
    - rewrite app_nil_r. apply Permutation_refl.
    - cbn [fold_left]. eapply Permutation_trans; [apply IH|].
      eapply Permutation_trans;
        [apply Permutation_app_tail; apply insert_item_perm|].
      cbn [app]. apply Permutation_middle. }
  exact (G []).
Qed.

End SortItems.

Lemma dict_set_fresh {V} (d : dict V) (k : string) (v : V) :
  ~ In k (map fst d) -> dict_set d k v = d ++ [(k, v)].
Proof.
  induction d as [|[k' v'] d IH]; intro Hn; [reflexivity|].
  cbn [dict_set app]. cbn [map fst In] in Hn.
  destruct (String.eqb_spec k k') as [->|_]; [exfalso; auto|].
  rewrite IH by auto. reflexivity.
Qed.

Lemma dict_get_perm {V} (d d' : dict V) (k : string) :
  Permutation d d' -> NoDup (map fst d) -> dict_get d k = dict_get d' k.
Proof.
  induction 1 as [|[k1 v1] l l' Hp IH|[k1 v1] [k2 v2] l|l l' l'' H1 IH1 H2 IH2]; intro Hn.
  - reflexivity.
  - cbn [dict_get]. cbn [map fst] in Hn. inversion Hn; subst.
    rewrite IH by assumption. reflexivity.
  - cbn [dict_get]. cbn [map fst] in Hn. inversion Hn as [|? ? Hni _]; subst.
    destruct (String.eqb_spec k k1) as [->|_]; [|reflexivity].
    destruct (String.eqb_spec k1 k2) as [->|_]; [|reflexivity].
    exfalso. apply Hni. left. reflexivity.
  - rewrite IH1 by assumption. apply IH2.
    eapply Permutation_NoDup; [|exact Hn]. apply Permutation_map. exact H1.
Qed.

Lemma dict_get_map {V W} (f : V -> W) (d : dict V) (k : string) :
  dict_get (map (fun kv => (fst kv, f (snd kv))) d) k = option_map f (dict_get d k).
Proof.
  induction d as [|[k' v'] d IH]; [reflexivity|].
  cbn [map dict_get fst snd]. destruct (String.eqb k k'); [reflexivity|exact IH].
Qed.

Module JsonValue.
Import Json.

(** Whether [l] names no key twice. *)
Fixpoint distinct (l : list string) : bool :=
  match l with
  | [] => true
  | k :: l' => negb (existsb (String.eqb k) l') && distinct l'
  end.

(** A value without floats, as a program builds it: every dict names each of
    its keys once. *)
Fixpoint json_safe (v : pyval) : bool :=
  match v with
  | PFloat _ => false
  | PList l => forallb json_safe l
  | PDict d => distinct (map fst d) && forallb (fun kv => json_safe (snd kv)) d
  | _ => true
  end.

(** The value with the items of every dict in the order of their keys. *)
Fixpoint canon (v : pyval) : pyval :=
  match v with
  | PList l => PList (map canon l)
  | PDict d => PDict (sort_items (map (fun kv => (fst kv, canon (snd kv))) d))
  | _ => v
  end.

End JsonValue.

Lemma distinct_NoDup (l : list string) : JsonValue.distinct l = true -> NoDup l.
Proof.
  induction l as [|k l IH]; cbn [JsonValue.distinct]; intro Hd; [constructor|].
  apply andb_prop in Hd. destruct Hd as [Hk Hl]. constructor; [|auto].
  intro Hin. apply negb_true_iff in Hk.
  assert (Ht : existsb (String.eqb k) l = true).
  { apply existsb_exists. exists k. split; [exact Hin|apply String.eqb_refl]. }
  congruence.
Qed.

Fixpoint pyval_nested_ind (P : pyval -> Prop)
    (HNone : P PNone) (HBool : forall b, P (PBool b)) (HInt : forall z, P (PInt z))
    (HFloat : forall f, P (PFloat f)) (HStr : forall s, P (PStr s))
    (HList : forall l, Forall P l -> P (PList l))
    (HDict : forall d, Forall (fun kv => P (snd kv)) d -> P (PDict d))
    (v : pyval) {struct v} : P v :=
  match v with
  | PNone => HNone
  | PBool b => HBool b
  | PInt z => HInt z
  | PFloat f => HFloat f
  | PStr s => HStr s
  | PList l =>
      HList l
        ((fix go (l : list pyval) : Forall P l :=
            match l with
            | [] => Forall_nil P
            | x :: l' =>
                Forall_cons x
                  (pyval_nested_ind P HNone HBool HInt HFloat HStr HList HDict x) (go l')
            end) l)
  | PDict d =>
      HDict d
        ((fix go (d : dict pyval) : Forall (fun kv => P (snd kv)) d :=
            match d with
            | [] => Forall_nil _
            | kv :: d' =>
                Forall_cons kv
                  (pyval_nested_ind P HNone HBool HInt HFloat HStr HList HDict (snd kv))
                  (go d')
            end) d)
  end.

Section JsonRoundTrip.
Context `{PyText}.
Import Json JsonSpec JsonValue.

(** *** The first character of a text *)

Definition head_ok (a : ascii) : bool :=
  negb (is_ws a) && negb (Ascii.eqb a "]") && negb (Ascii.eqb a "}").

Definition starts_ok (s : string) : Prop :=
  exists a s', s = String a s' /\ head_ok a = true.

Lemma starts_ok_app (s r : string) : starts_ok s -> starts_ok (s ++ r).
Proof. intros [a [s' [-> Ha]]]. exists a, (s' ++ r)%string. split; [reflexivity|exact Ha]. Qed.

Lemma starts_ok_skip_ws (s : string) : starts_ok s -> skip_ws s = s.
Proof.
  intros [a [s' [-> Ha]]]. unfold head_ok in Ha.
  apply andb_prop in Ha. destruct Ha as [Ha _]. apply andb_prop in Ha. destruct Ha as [Ha _].
  apply negb_true_iff in Ha. cbn [skip_ws]. rewrite Ha. reflexivity.
Qed.

Lemma digit_head_ok (a : ascii) : is_digit_char a -> head_ok a = true.
Proof.
  intro Ha. unfold is_digit_char in Ha. simpl in Ha.
  repeat (destruct Ha as [<-|Ha]; [reflexivity|]). destruct Ha.
Qed.

Lemma int_starts_ok (z : Z) : starts_ok (string_of_Z z).
Proof.
  destruct z as [|p|p].
  - exists "0"%char, EmptyString. split; reflexivity.
  - change (string_of_Z (Z.pos p)) with (NilZero.string_of_uint (Pos.to_uint p)).
    rewrite string_of_positive.
    destruct (positive_text p) as [a [u [Ha [_ E]]]]. rewrite E.
    exists a, (NilEmpty.string_of_uint u). split; [reflexivity|apply digit_head_ok; exact Ha].
  - exists "-"%char, (NilZero.string_of_uint (Pos.to_uint p)). split; reflexivity.
Qed.

Lemma dumps_starts_ok (v : pyval) : json_safe v = true -> starts_ok (dumps v).
Proof.
  destruct v as [|b|z|f|s|l|d]; cbn [json_safe dumps]; intro Hs.
  - exists "n"%char, "ull". split; reflexivity.
  - destruct b; [exists "t"%char, "rue"|exists "f"%char, "alse"]; split; reflexivity.
  - apply int_starts_ok.
  - discriminate.
  - unfold quote. eexists _, _. split; reflexivity.
  - cbn [append]. eexists _, _. split; reflexivity.
  - cbn [append]. eexists _, _. split; reflexivity.
Qed.

(** *** One step of the parser on each kind of text *)

Lemma parse_value_quote (fuel : nat) (s : string) :
  parse_value (S fuel) (String dquote s)
  = match scan_string s with
    | Some (t, r) => Some (PStr t, r)
    | None => None
    end.
Proof. reflexivity. Qed.

Lemma parse_value_brace (fuel : nat) (s : string) :
  parse_value (S fuel) (String "{" s)
  = match skip_ws s with
    | String b r =>
        if Ascii.eqb b "}" then Some (PDict [], r) else parse_members fuel (String b r) []
    | EmptyString => None
    end.
Proof. reflexivity. Qed.

Lemma parse_value_bracket (fuel : nat) (s : string) :
  parse_value (S fuel) (String "[" s)
  = match skip_ws s with
    | String b r =>
        if Ascii.eqb b "]" then Some (PList [], r) else parse_elements fuel (String b r) []
    | EmptyString => None
    end.
Proof. reflexivity. Qed.

Lemma parse_members_quote (fuel : nat) (s : string) (acc : dict pyval) :
  parse_members (S fuel) (String dquote s) acc
  = match scan_string s with
    | None => None
    | Some (k, r) =>
        match skip_ws r with
        | String c r1 =>
            if Ascii.eqb c ":" then
              match parse_value fuel (skip_ws r1) with
              | None => None
              | Some (v, r2) =>
                  match skip_ws r2 with
                  | String b r3 =>
                      if Ascii.eqb b "}" then Some (PDict (dict_set acc k v), r3)
                      else if Ascii.eqb b ","
                      then parse_members fuel (skip_ws r3) (dict_set acc k v)
                      else None
                  | EmptyString => None
                  end
              end
            else None
        | EmptyString => None
        end
    end.
Proof. reflexivity. Qed.

(** What the parser makes of the text of [v], whatever follows it. *)
Definition reads_back (v : pyval) : Prop :=
  exists N, forall fuel r, N <= fuel -> delim r = true ->
    parse_value fuel (dumps v ++ r)%string = Some (canon v, r).

Lemma elements_read_back (l : list pyval) :
  l <> [] ->
  Forall (fun v => json_safe v = true /\ reads_back v) l ->
  exists N, forall fuel acc r, N <= fuel ->
    parse_elements fuel (String.concat "," (map dumps l) ++ String "]" r)%string acc
    = Some (PList (acc ++ map canon l), r).
Proof.
  induction l as [|v l IH]; intros Hne Hall; [congruence|].
  inversion Hall as [|? ? [Hsafe [Nv Hv]] Hall']; subst.
  destruct l as [|v' l'].
  - exists (S Nv). intros fuel acc r Hf. destruct fuel as [|fuel]; [lia|].
    cbn [map String.concat parse_elements].
    rewrite (Hv fuel (String "]" r)) by (reflexivity || lia).
    reflexivity.
  - destruct (IH ltac:(discriminate) Hall') as [Nl Hl].
    exists (S (Nat.max Nv Nl)). intros fuel acc r Hf. destruct fuel as [|fuel]; [lia|].
    change (String.concat "," (map dumps (v :: v' :: l')))
      with (dumps v ++ "," ++ String.concat "," (map dumps (v' :: l')))%string.
    rewrite !string_app_assoc. cbn [parse_elements].
    change (("," ++ ?x)%string) with (String "," x).
    rewrite (Hv fuel) by (reflexivity || lia).
    change (skip_ws (String "," ?x)) with (String "," x). cbv iota.
    change (Ascii.eqb "," "]") with false. change (Ascii.eqb "," ",") with true. cbv iota.
    rewrite starts_ok_skip_ws.
    + rewrite (Hl fuel) by lia. rewrite <- app_assoc. reflexivity.
    + inversion Hall' as [|? ? [Hsafe' _] _]; subst.
      cbn [map String.concat].
      destruct (map dumps l'); [|rewrite string_app_assoc];
        apply starts_ok_app, dumps_starts_ok; exact Hsafe'.
Qed.

Definition member_text (kv : string * string) : string :=
  (quote (fst kv) ++ ":" ++ snd kv)%string.

Lemma member_text_app (k t rest : string) :
  (member_text (k, t) ++ rest)%string
  = String dquote (escape k ++ String dquote (String ":" (t ++ rest))).
Proof.
  unfold member_text, quote. cbn [fst snd append].
  rewrite !string_app_assoc. cbn [append]. reflexivity.
Qed.

Lemma members_read_back (items : dict pyval) :
  items <> [] ->
  Forall (fun kv => json_safe (snd kv) = true /\ reads_back (snd kv)) items ->
  exists N, forall fuel acc r, N <= fuel ->
    NoDup (map fst acc ++ map fst items) ->
    parse_members fuel
      (String.concat "," (map member_text (map (fun kv => (fst kv, dumps (snd kv))) items))
       ++ String "}" r)%string acc
    = Some (PDict (acc ++ map (fun kv => (fst kv, canon (snd kv))) items), r).
Proof.
  induction items as [|[k v] items IH]; intros Hne Hall; [congruence|].
  inversion Hall as [|? ? [Hsafe [Nv Hv]] Hall']; subst. cbn [snd] in *.
  assert (Hset : forall acc : dict pyval,
             NoDup (map fst acc ++ map fst ((k, v) :: items)) ->
             dict_set acc k (canon v) = acc ++ [(k, canon v)]
             /\ NoDup (map fst (acc ++ [(k, canon v)]) ++ map fst items)).
  { intros acc Hn. split.
    - apply dict_set_fresh. intro Hin. cbn [map fst] in Hn.
      apply NoDup_remove_2 in Hn. apply Hn. apply in_or_app. left. exact Hin.
    - rewrite map_app. cbn [map fst]. rewrite <- app_assoc. exact Hn. }
  destruct items as [|kv' items'].
  - exists (S Nv). intros fuel acc r Hf Hn. destruct fuel as [|fuel]; [lia|].
    cbn [map String.concat fst snd].
    rewrite member_text_app, parse_members_quote, scan_escape.
    change (skip_ws (String ":" ?x)) with (String ":" x). cbv iota.
    change (Ascii.eqb ":" ":") with true. cbv iota.
    rewrite starts_ok_skip_ws by (apply starts_ok_app, dumps_starts_ok; exact Hsafe).
    rewrite (Hv fuel (String "}" r)) by (reflexivity || lia).
    change (skip_ws (String "}" ?x)) with (String "}" x). cbv iota.
    change (Ascii.eqb "}" "}") with true. cbv iota.
    destruct (Hset acc Hn) as [-> _]. reflexivity.
  - destruct (IH ltac:(discriminate) Hall') as [Nl Hl].
    exists (S (Nat.max Nv Nl)). intros fuel acc r Hf Hn. destruct fuel as [|fuel]; [lia|].
    set (rest := (String.concat ","
                    (map member_text (map (fun kv => (fst kv, dumps (snd kv))) (kv' :: items')))
                  ++ String "}" r)%string) in *.
    assert (Etext :
      (String.concat ","
         (map member_text (map (fun kv => (fst kv, dumps (snd kv))) ((k, v) :: kv' :: items')))
       ++ String "}" r)%string
      = (member_text (k, dumps v) ++ String "," rest)%string).
    { unfold rest. cbn [map String.concat fst snd].
      rewrite !string_app_assoc. reflexivity. }
    rewrite Etext, member_text_app, parse_members_quote, scan_escape.
    change (skip_ws (String ":" ?x)) with (String ":" x). cbv iota.
    change (Ascii.eqb ":" ":") with true. cbv iota.
    rewrite starts_ok_skip_ws by (apply starts_ok_app, dumps_starts_ok; exact Hsafe).
    rewrite (Hv fuel (String "," rest)) by (reflexivity || lia).
    change (skip_ws (String "," ?x)) with (String "," x). cbv iota.
    change (Ascii.eqb "," "}") with false. change (Ascii.eqb "," ",") with true. cbv iota.
    destruct (Hset acc Hn) as [-> Hn'].
    assert (Hrest : starts_ok rest).
    { unfold rest. cbn [map String.concat].
      destruct (map member_text (map _ items'));
        [|rewrite string_app_assoc]; rewrite member_text_app;
        eexists _, _; split; reflexivity. }
    rewrite (starts_ok_skip_ws rest Hrest).
    unfold rest. rewrite (Hl fuel) by (lia || exact Hn').
    rewrite <- app_assoc. reflexivity.
Qed.

Lemma forallb_Forall_and {A} (p : A -> bool) (P : A -> Prop) (l : list A) :
  forallb p l = true -> Forall (fun x => p x = true -> P x) l ->
  Forall (fun x => p x = true /\ P x) l.
Proof.
  intros Hp HP. rewrite forallb_forall in Hp. rewrite Forall_forall in *.
  intros x Hx. split; [apply Hp; exact Hx|apply HP; [exact Hx|apply Hp; exact Hx]].
Qed.

Lemma dumps_reads_back (v : pyval) : json_safe v = true -> reads_back v.
Proof.
  induction v as [|b|z|f|s|l IH|d IH] using pyval_nested_ind; intro Hs.
  - exists 1. intros [|fuel] r Hf Hd; [lia|reflexivity].
  - exists 1. intros [|fuel] r Hf Hd; [lia|]. destruct b; reflexivity.
  - exists 1. intros [|fuel] r Hf Hd; [lia|]. cbn [dumps canon].
    rewrite <- (starts_ok_skip_ws (string_of_Z z ++ r))
      by (apply starts_ok_app, int_starts_ok).
    apply parse_int. exact Hd.
  - discriminate.
  - exists 1. intros [|fuel] r Hf Hd; [lia|]. cbn [dumps canon].
    rewrite scan_quote, parse_value_quote, scan_escape. reflexivity.
  - cbn [json_safe] in Hs. pose proof (forallb_Forall_and _ _ _ Hs IH) as Hall.
    destruct l as [|v l].
    + exists 1. intros [|fuel] r Hf Hd; [lia|reflexivity].
    + destruct (elements_read_back (v :: l) ltac:(discriminate) Hall) as [N HN].
      exists (S N). intros [|fuel] r Hf Hd; [lia|]. cbn [dumps canon].
      rewrite !string_app_assoc.
      change ("[" ++ ?x)%string with (String "[" x).
      rewrite parse_value_bracket.
      assert (Hst : starts_ok (String.concat "," (map dumps (v :: l)) ++ "]" ++ r)%string).
      { inversion Hall as [|? ? [Hsafe _] _]; subst. cbn [map String.concat].
        destruct (map dumps l); [|rewrite string_app_assoc];
          apply starts_ok_app, dumps_starts_ok; exact Hsafe. }
      rewrite (starts_ok_skip_ws _ Hst).
      destruct Hst as [a [s' [Es Ha]]]. rewrite Es.
      assert (Hb : Ascii.eqb a "]" = false).
      { unfold head_ok in Ha. apply andb_prop in Ha. destruct Ha as [Ha _].
        apply andb_prop in Ha. destruct Ha as [_ Ha]. apply negb_true_iff in Ha. exact Ha. }
      rewrite Hb, <- Es. change ("]" ++ r)%string with (String "]" r).
      rewrite (HN fuel [] r) by lia. reflexivity.
  - cbn [json_safe] in Hs. apply andb_prop in Hs. destruct Hs as [Hk Hs].
    pose proof (forallb_Forall_and (fun kv => json_safe (snd kv)) _ _ Hs IH) as Hall.
    apply distinct_NoDup in Hk.
    destruct d as [|kv d].
    + exists 1. intros [|fuel] r Hf Hd; [lia|reflexivity].
    + set (items := sort_items (kv :: d)).
      assert (Hperm : Permutation items (kv :: d)) by apply sort_items_perm.
      assert (Hne : items <> []).
      { intro E. rewrite E in Hperm. apply Permutation_nil in Hperm. discriminate. }
      assert (Hall' : Forall (fun kv => json_safe (snd kv) = true /\ reads_back (snd kv)) items).
      { eapply Permutation_Forall; [apply Permutation_sym; exact Hperm|exact Hall]. }
      destruct (members_read_back items Hne Hall') as [N HN].
      exists (S N). intros [|fuel] r Hf Hd; [lia|]. cbn [dumps canon].
      rewrite !sort_items_map. fold items.
      rewrite !string_app_assoc.
      change ("{" ++ ?x)%string with (String "{" x).
      rewrite parse_value_brace.
      change (map (fun kv0 : string * string => (quote (fst kv0) ++ ":" ++ snd kv0)%string))
        with (map member_text).
      change ("}" ++ r)%string with (String "}" r).
      assert (Hst : exists s', (String.concat ","
                       (map member_text (map (fun kv => (fst kv, dumps (snd kv))) items))
                     ++ String "}" r)%string = String dquote s').
      { destruct items as [|[k0 v0] items']; [congruence|]. cbn [map String.concat fst snd].
        destruct (map member_text (map _ items'));
          [|rewrite string_app_assoc]; rewrite member_text_app; eexists; reflexivity. }
      destruct Hst as [s' Es]. rewrite Es.
      change (skip_ws (String dquote s')) with (String dquote s'). cbv iota.
      change (Ascii.eqb dquote "}") with false. cbv iota.
      rewrite <- Es. rewrite (HN fuel [] r); [reflexivity|lia|].
      cbn [map app]. eapply Permutation_NoDup; [|exact Hk].
      apply Permutation_map, Permutation_sym. exact Hperm.
Qed.

End JsonRoundTrip.

Lemma canon_lookup (d : dict pyval) (k : string) :
  NoDup (map fst d) ->
  dict_get (Json.sort_items (map (fun kv => (fst kv, JsonValue.canon (snd kv))) d)) k
  = option_map JsonValue.canon (dict_get d k).
Proof.
  intro Hn. rewrite <- dict_get_map.
  symmetry. apply dict_get_perm.
  - apply Permutation_sym, sort_items_perm.
  - rewrite map_map. cbn [fst]. exact Hn.
Qed.

Section JsonLaws.
Context `{PyText}.
Import Json JsonSpec JsonValue.

Lemma loads_dumps_canon (v : pyval) :
  json_safe v = true -> loads (dumps v) = Some (canon v).
Proof.
  intro Hs. destruct (dumps_reads_back v Hs) as [N HN].
  unfold loads.
  set (s := dumps v).
  rewrite <- (loads_fuel_enough s (Nat.max N (2 * String.length s + 2))) by lia.
  rewrite (starts_ok_skip_ws s (dumps_starts_ok v Hs)).
  rewrite <- (string_app_nil_r s) at 2. unfold s.
  rewrite HN by (reflexivity || lia). reflexivity.
Qed.


(** X15.  For a value without floats whose dicts name each key once,
    [json.loads] of the canonical text gives the value back with the items
    of every dict in key order: a dict comes back with the same keys and,
    under each key, what was stored there (in that form). *)
Theorem loads_inverts_dumps (v : pyval) :
  json_safe v = true ->
  loads (dumps v) = Some (canon v)
  /\ (forall d, v = PDict d ->
      exists d', canon v = PDict d'
                 /\ Permutation (map fst d') (map fst d)
                 /\ forall k, dict_get d' k = option_map canon (dict_get d k)).
Proof.
  intro Hs. split; [exact (loads_dumps_canon v Hs)|].
  intros d ->. cbn [canon]. eexists. split; [reflexivity|].
  cbn [json_safe] in Hs. apply andb_prop in Hs. destruct Hs as [Hk _].
  apply distinct_NoDup in Hk. split.
  - eapply Permutation_trans; [apply Permutation_map, sort_items_perm|].
    rewrite map_map. cbn [fst]. apply Permutation_refl.
  - intro k. apply canon_lookup. exact Hk.
Qed.

End JsonLaws.

Lemma loads_inverts_dumps_witness :
  JsonValue.json_safe
    (PDict [("b", PList [PInt (-12); PStr "x"; PNone]); ("a", PDict [("k", PBool true)])])
  = true
  /\ @Json.loads plain_text
       (@Json.dumps plain_text
          (PDict [("b", PList [PInt (-12); PStr "x"; PNone]); ("a", PDict [("k", PBool true)])]))
     = Some (PDict [("a", PDict [("k", PBool true)]); ("b", PList [PInt (-12); PStr "x"; PNone])]).
Proof.
  split; [reflexivity|].
  exact (proj1 (@loads_inverts_dumps plain_text
                  (PDict [("b", PList [PInt (-12); PStr "x"; PNone]);
                          ("a", PDict [("k", PBool true)])])
                  eq_refl)).
Defined.


(* ----------------------------------------------------------------- *)
(** ** Text files: lines and bytes *)

Module TextSpec.



End TextSpec.

Section TextFacts.
Import TextIO TextSpec.









End TextFacts.

Section JsonBytes.
Context `{PyText}.
Import Json JsonValue TextSpec.






End JsonBytes.

Section LogResume.
Context `{PyText} `{PyIO}.
Import SignedMemory LogSpec JsonValue.







End LogResume.


(** After a last line that lacks its newline, the entry that [append]
    writes goes on that line: the object that wrote it stands at [seq] 1, and
    a new object on the file starts at [seq] 0 with an empty tail hash. *)
Example append_after_open_line :
  match @SignedMemory.append plain_text (LogSpec.fresh "") (Some "{") LogSpec.run_start with
  | (f', Ok (self', e')) =>
      SignedMemory.content f' = String "{" (@LogSpec.written_of plain_text e')
      /\ SignedMemory._seq self' = 1%Z
      /\ @SignedMemory.init plain_text plain_io "" f' = Ok (LogSpec.fresh "")
  | (_, Raise _) => False
  end.
Proof. vm_compute. repeat split; reflexivity. Qed.

(* ----------------------------------------------------------------- *)
(** ** Orchestrator *)

Module OrchSpec.
Import Orchestrator.

(** The documents that [_ensure_minimum_artifacts] knows, in the order in
    which it looks for them. *)
Definition seeds (task : string) : list (string * dict pyval) :=
  [ ("IC", seed_IC task); ("ES", seed_ES); ("FPF", seed_FPF); ("WM", seed_WM);
    ("SM", seed_SM); ("DS", seed_DS); ("AP", seed_AP) ].

(** [name not in a] *)
Definition unbound (a : dict pyval) (name : string) : bool :=
  match dict_get a name with
  | None => true
  | Some _ => false
  end.

Definition as_item (nb : string * dict pyval) : string * pyval := (fst nb, PDict (snd nb)).

(** The items that a run of [if name not in a: a[name] = body] adds. *)
Definition gaps (a : dict pyval) (sds : list (string * dict pyval)) : dict pyval :=
  map as_item (filter (fun nb => unbound a (fst nb)) sds).

End OrchSpec.

Lemma dict_get_app {V} (d d' : dict V) (k : string) :
  dict_get (d ++ d') k = match dict_get d k with
                         | Some v => Some v
                         | None => dict_get d' k
                         end.
Proof.
  induction d as [|[k0 v0] d IH]; [reflexivity|].
  cbn [app dict_get]. destruct (String.eqb k k0); [reflexivity|exact IH].
Qed.

Lemma dict_get_unbound_inv {V} (d : dict V) (k : string) :
  dict_get d k = None -> ~ In k (map fst d).
Proof.
  induction d as [|[k0 v0] d IH]; cbn [dict_get map fst In]; [tauto|].
  destruct (String.eqb_spec k k0) as [->|Hne]; [discriminate|].
  intros E [E'|Hin]; [congruence|exact (IH E Hin)].
Qed.

Lemma dict_get_bound {V} (d : dict V) (k : string) :
  In k (map fst d) -> dict_get d k <> None.
Proof.
  intros Hin E. exact (dict_get_unbound_inv d k E Hin).
Qed.

Section EnsureArtifacts.
Import Orchestrator OrchSpec.

Lemma seed_loop (sds : list (string * dict pyval)) :
  NoDup (map fst sds) ->
  forall a, fold_left (fun acc nb => seed acc (fst nb) (snd nb)) sds a = a ++ gaps a sds.
Proof.
  unfold gaps.
  induction sds as [|[n b] sds IH]; intros Hn a.
  - cbn. rewrite List.app_nil_r. reflexivity.
  - cbn [map fst] in Hn. inversion Hn as [|? ? Hni Hn']; subst.
    cbn [fold_left filter fst snd]. unfold seed at 2, unbound at 1.
    destruct (dict_get a n) as [v|] eqn:E.
    + apply IH. exact Hn'.
    + rewrite (dict_set_fresh a n (PDict b) (dict_get_unbound_inv a n E)).
      rewrite (IH Hn'). rewrite <- app_assoc. cbn [map app]. f_equal.
      change (as_item (n, b)) with (n, PDict b). f_equal. f_equal.
      apply filter_ext_in. intros [n' b'] Hin. cbn [fst]. unfold unbound.
      rewrite dict_get_app. destruct (dict_get a n'); [reflexivity|].
      cbn [dict_get]. destruct (String.eqb_spec n' n) as [->|_]; [|reflexivity].
      exfalso. apply Hni. apply (in_map fst) in Hin. exact Hin.
Qed.

Lemma ensure_as_loop (task : string) (a : dict pyval) :
  _ensure_minimum_artifacts task a
  = fold_left (fun acc nb => seed acc (fst nb) (snd nb)) (seeds task) a.
Proof. reflexivity. Qed.

Lemma seeds_names (task : string) : map fst (seeds task) = AuditSpec.documents.
Proof. reflexivity. Qed.

Lemma documents_NoDup : NoDup AuditSpec.documents.
Proof.
  unfold AuditSpec.documents.
  repeat (constructor; [cbn [In]; intros Hin;
                        repeat (destruct Hin as [Hin|Hin]; [discriminate Hin|]);
                        exact Hin|]).
  constructor.
Qed.

Lemma ensure_fills_gaps (task : string) (a : dict pyval) :
  _ensure_minimum_artifacts task a = a ++ gaps a (seeds task).
Proof.
  rewrite ensure_as_loop. apply seed_loop. rewrite seeds_names. exact documents_NoDup.
Qed.

Lemma ensure_binds_documents (task : string) (a : dict pyval) (name : string) :
  In name AuditSpec.documents -> dict_get (_ensure_minimum_artifacts task a) name <> None.
Proof.
  intro Hin. rewrite ensure_fills_gaps, dict_get_app.
  destruct (dict_get a name) as [v|] eqn:E; [discriminate|].
  apply dict_get_bound. unfold gaps. rewrite map_map. cbn [as_item fst].
  rewrite <- (seeds_names task) in Hin. apply in_map_iff in Hin.
  destruct Hin as [nb [<- Hnb]]. apply in_map_iff. exists nb. split; [reflexivity|].
  apply filter_In. split; [exact Hnb|]. unfold unbound. rewrite E. reflexivity.
Qed.

(** X17.  [_ensure_minimum_artifacts] only fills gaps: what it returns is
    the bundle it was given, followed by the default document of each of
    the seven names the bundle does not bind, in the fixed order.  So an
    item of the bundle keeps its value (whatever it is, [None] or a string
    included), each of the seven names is bound afterwards, and a second
    call changes nothing, whatever its task. *)
Theorem ensure_minimum_artifacts_fills_gaps (task : string) (a : dict pyval) :
  _ensure_minimum_artifacts task a = a ++ gaps a (seeds task)
  /\ (forall k v, dict_get a k = Some v ->
                  dict_get (_ensure_minimum_artifacts task a) k = Some v)
  /\ (forall name, In name AuditSpec.documents ->
                   dict_get (_ensure_minimum_artifacts task a) name <> None)
  /\ (forall task', _ensure_minimum_artifacts task' (_ensure_minimum_artifacts task a)
                    = _ensure_minimum_artifacts task a).
Proof.
  split; [apply ensure_fills_gaps|]. split; [|split].
  - intros k v E. rewrite ensure_fills_gaps, dict_get_app, E. reflexivity.
  - apply ensure_binds_documents.
  - intro task'. rewrite (ensure_fills_gaps task').
    assert (Hnone : gaps (_ensure_minimum_artifacts task a) (seeds task') = []).
    { unfold gaps.
      replace (filter _ (seeds task')) with (@nil (string * dict pyval)); [reflexivity|].
      symmetry. apply filter_nil_iff. intros nb Hin. unfold unbound.
      assert (Hd : In (fst nb) AuditSpec.documents).
      { rewrite <- (seeds_names task'). apply in_map. exact Hin. }
      pose proof (ensure_binds_documents task a (fst nb) Hd) as Hb.
      destruct (dict_get (_ensure_minimum_artifacts task a) (fst nb)); [reflexivity|congruence]. }
    rewrite Hnone. apply List.app_nil_r.
Qed.

End EnsureArtifacts.

Section SeededAudit.
Import Orchestrator AuditGate AuditSpec.

Lemma seeded_well_formed (task : string) :
  well_formed (_ensure_minimum_artifacts task []) = true.
Proof. reflexivity. Qed.

Lemma seeded_gates (task : string) :
  map gate_passes (gates (_ensure_minimum_artifacts task []))
  = [true; true; true; true; negb (isblank task)].
Proof.
  unfold gates. cbn [map].
  assert (Ht : gate_passes ("Truth Gate", truth_required (_ensure_minimum_artifacts task []),
                            truth_hard (_ensure_minimum_artifacts task [])) = true)
    by (vm_compute; reflexivity).
  assert (Hl : gate_passes ("Logic Gate", logic_required (_ensure_minimum_artifacts task []),
                            logic_hard (_ensure_minimum_artifacts task [])) = true)
    by (vm_compute; reflexivity).
  assert (Hr : gate_passes ("Risk Gate", risk_required (_ensure_minimum_artifacts task []),
                            risk_hard (_ensure_minimum_artifacts task [])) = true)
    by (vm_compute; reflexivity).
  assert (Hb : gate_passes ("Bias Gate", bias_required (_ensure_minimum_artifacts task []),
                            bias_hard) = true)
    by (vm_compute; reflexivity).
  rewrite Ht, Hl, Hr, Hb. do 4 f_equal.
  destruct task as [|c t]; [vm_compute; reflexivity|].
  unfold gate_passes. cbn [fst snd].
  assert (Hh : clarity_hard (_ensure_minimum_artifacts (String c t) []) = true)
    by (vm_compute; reflexivity).
  rewrite Hh, andb_true_r.
  unfold all_present, clarity_required. cbn [forallb snd].
  assert (Hg : alias (doc (_ensure_minimum_artifacts (String c t) []) "IC", "Goal")
                 [(doc (_ensure_minimum_artifacts (String c t) []) "IC", "goal")]
               = PStr (String c t)) by reflexivity.
  rewrite Hg. cbn [is_missing].
  assert (Hd : is_missing
                 (alias (doc (_ensure_minimum_artifacts (String c t) []) "IC", "Deliverable")
                    [(doc (_ensure_minimum_artifacts (String c t) []) "IC", "deliverable")])
               = false) by (vm_compute; reflexivity).
  assert (Hm : is_missing
                 (alias (doc (_ensure_minimum_artifacts (String c t) []) "IC", "Success metrics")
                    [(doc (_ensure_minimum_artifacts (String c t) []) "IC", "success_metrics")])
               = false) by (vm_compute; reflexivity).
  rewrite Hd, Hm. cbn [negb andb]. rewrite andb_true_r. reflexivity.
Qed.

Lemma seeded_verdicts (strict : bool) (now task : string) (md : dict pyval)
    (r : AuditReport) :
  evaluate strict now
    {| artifacts := _ensure_minimum_artifacts task []; ctx_metadata := md |} = Ok r ->
  map verdict (gate_results r)
  = ["PASS"; "PASS"; "PASS"; "PASS"; if isblank task then "FAIL" else "PASS"]
  /\ overall_verdict r = (if isblank task then "FAIL" else "PASS").
Proof.
  set (ctx := {| artifacts := _ensure_minimum_artifacts task []; ctx_metadata := md |}).
  intro E.
  destruct (evaluate_returns strict now ctx (seeded_well_formed task)) as [r' [E' HF]].
  assert (Er : r' = r) by congruence. subst r'. clear E'.
  pose proof (seeded_gates task) as Hg. cbn [artifacts ctx] in HF.
  assert (Hv : map verdict (gate_results r)
               = map (fun g => if gate_passes g then "PASS" else "FAIL")
                   (gates (_ensure_minimum_artifacts task []))).
  { clear Hg. induction HF as [|gr g grs gs [_ Hgr] _ IH]; [reflexivity|].
    cbn [map]. rewrite Hgr, IH. reflexivity. }
  assert (Hv' : map verdict (gate_results r)
                = ["PASS"; "PASS"; "PASS"; "PASS"; if isblank task then "FAIL" else "PASS"]).
  { rewrite Hv, <- (map_map gate_passes (fun b : bool => if b then "PASS" else "FAIL")), Hg.
    cbn [map]. destruct (isblank task); reflexivity. }
  split; [exact Hv'|].
  destruct (evaluate_report strict now ctx r E)
    as [t [l [k [b [c [_ [_ [_ [_ [_ [Egr [Ho _]]]]]]]]]]]].
  rewrite Ho. rewrite Egr in *. cbn [map] in Hv'. injection Hv' as H1 H2 H3 H4 H5.
  cbn [forallb]. unfold is_pass. rewrite H1, H2, H3, H4, H5.
  destruct (isblank task); reflexivity.
Qed.

(** X18.  A run that is given a task and no document audits the seven
    default documents: the audit returns, the first four gates pass, and
    the verdict is PASS unless the task is blank (then the Clarity Gate
    fails on [IC.Goal]). *)
Theorem seeded_bundle_audit (strict : bool) (now task : string) (md : dict pyval) :
  exists r,
    evaluate strict now
      {| artifacts := _ensure_minimum_artifacts task []; ctx_metadata := md |} = Ok r
    /\ map verdict (gate_results r)
       = ["PASS"; "PASS"; "PASS"; "PASS"; if isblank task then "FAIL" else "PASS"]
    /\ overall_verdict r = (if isblank task then "FAIL" else "PASS").
Proof.
  destruct (evaluate_returns strict now
              {| artifacts := _ensure_minimum_artifacts task []; ctx_metadata := md |}
              (seeded_well_formed task)) as [r [E _]].
  exists r. split; [exact E|].
  exact (seeded_verdicts strict now task md r E).
Qed.

End SeededAudit.

(** *** A run, entry by entry *)

Module RunSpec.
Import Orchestrator.

(** What a caller sees of a call: the log afterwards, and what the call
    returned or raised. *)
Definition outcome {A} (x : world * res A) : SignedMemory.file * res A :=
  (log (fst x), snd x).

Section Entries.
Context `{PyText} `{PyNum}.
Variable joinpath : string -> string -> string.
Variable clock : nat -> string.
Variables (self : orchestrator) (rid : string) (inp : RunInput) (t0 : nat).

(** An entry as [run] builds it, at the given reading of the clock. *)
Definition entry_at (ev : string) (body : dict pyval) (tick : nat) : SignedMemory.SignedEntry :=
  {| SignedMemory.run_id := rid; SignedMemory.seq := 0; SignedMemory.event := ev;
     SignedMemory.payload := body; SignedMemory.timestamp_utc := clock tick;
     SignedMemory.prev_hash := ""; SignedMemory.hash := ""; SignedMemory.signature := "" |}.

Definition bundle : dict pyval := _ensure_minimum_artifacts (task inp) (artifacts inp).

Definition audit_ctx : AuditGate.AuditContext :=
  {| AuditGate.artifacts := bundle;
     AuditGate.ctx_metadata := [("domain", PStr (domain inp))] |}.

Definition start_entry : SignedMemory.SignedEntry :=
  entry_at "RUN_START"
    [ ("codex_id", PStr CODEX_ID);
      ("task", PStr (task inp));
      ("domain", PStr (domain inp));
      ("window", PStr (window inp));
      ("strict_audit", PBool (strict_audit self));
      ("require_baseline_for_falsifiers",
       PBool (FalsifierEngine.require_baseline (falsifier_engine self))) ]
    t0.

Definition falsifier_result (current : dict pyval) : FalsifierEngine.FalsifierResult :=
  FalsifierEngine.evaluate (falsifier_engine self)
    {| FalsifierEngine.current := current;
       FalsifierEngine.baseline := metrics_baseline inp;
       FalsifierEngine.window := window inp;
       FalsifierEngine.metadata := [("domain", PStr (domain inp))] |}
    (clock (S (S (S t0)))).

Definition verdict_of_falsifier : string :=
  match metrics_current inp with
  | Some current => FalsifierEngine.verdict (falsifier_result current)
  | None => "OK"
  end.

Definition final_status (r : AuditGate.AuditReport) : string :=
  final_status_of (PStr (AuditGate.overall_verdict r)) (PStr verdict_of_falsifier).

Definition end_entry (r : AuditGate.AuditReport) : SignedMemory.SignedEntry :=
  entry_at "RUN_END"
    [ ("final_status", PStr (final_status r));
      ("audit_overall", PStr (AuditGate.overall_verdict r));
      ("falsifier_verdict", PStr verdict_of_falsifier);
      ("notes",
       PStr ("Staged rollout only. If audit FAIL or falsified =>"
             ++ " freeze/rollback + model upgrade.")%string) ]
    (match metrics_current inp with
     | Some _ => S (S (S (S (S t0))))
     | None => S (S (S t0))
     end).

(** The entries that follow the audit. *)
Definition later_entries (r : AuditGate.AuditReport) : list SignedMemory.SignedEntry :=
  entry_at "AUDIT_REPORT" (AuditGate.AuditReport_to_dict r) (S (S t0))
  :: match metrics_current inp with
     | Some current =>
         [entry_at "FALSIFIER_RESULT" (FalsifierEngine.to_dict (falsifier_result current))
            (S (S (S (S t0))))]
     | None => []
     end
  ++ [end_entry r].

Definition result_of (r : AuditGate.AuditReport) : RunResult :=
  {| run_id := rid;
     audit_overall := PStr (AuditGate.overall_verdict r);
     falsifier_verdict := PStr verdict_of_falsifier;
     outputs :=
       [ ("artifacts", PDict bundle);
         ("audit_report", PDict (AuditGate.AuditReport_to_dict r));
         ("falsifier_result",
          match metrics_current inp with
          | Some current => PDict (FalsifierEngine.to_dict (falsifier_result current))
          | None => PNone
          end);
         ("final_status", PStr (final_status r));
         ("signed_log_path",
          PStr (joinpath (joinpath (run_root self) rid) "signed_log.jsonl")) ];
     run_dir := joinpath (run_root self) rid |}.

End Entries.

End RunSpec.

Section RunProps.
Context `{PyText} `{PyNum} `{PyIO}.
Variable joinpath : string -> string -> string.
Variable clock : nat -> string.
Import Orchestrator RunSpec SignedMemory LogSpec.

(** [run], read as: the log opened, one append, the audit, then the appends
    that follow. *)
Lemma run_outcome (self : orchestrator) (secret rid : string) (inp : RunInput) (w0 : world) :
  outcome (run joinpath clock self secret rid inp w0)
  = match init secret (log w0) with
    | Raise ex => (log w0, Raise ex)
    | Ok mem0 =>
        match append mem0 (log w0) (start_entry clock self rid inp (ticks w0)) with
        | (f1, Raise ex) => (f1, Raise ex)
        | (f1, Ok (mem1, _)) =>
            match AuditGate.evaluate (strict_audit self) (clock (S (ticks w0)))
                    (audit_ctx inp) with
            | Raise ex => (f1, Raise ex)
            | Ok r =>
                match append_all mem1 f1 (later_entries clock self rid inp (ticks w0) r) with
                | (f2, Raise ex) => (f2, Raise ex)
                | (f2, Ok _) => (f2, Ok (result_of joinpath clock self rid inp (ticks w0) r))
                end
            end
        end
    end.
Proof.
  destruct inp as [tk arts mc mb win dom].
  set (inp := {| task := tk; artifacts := arts; metrics_current := mc;
                 metrics_baseline := mb; window := win; domain := dom |}).
  unfold run, outcome. cbv zeta.
  unfold Orchestrator.SignedEntry, mem_open, mem_append, audit, falsify, _now_utc_iso.
  unfold mbind, ret. cbn [fst snd log ticks].
  destruct (init secret (log w0)) as [mem0|ex0]; [|reflexivity].
  cbn [fst snd log ticks].
  change (append mem0 (log w0) _)
    with (append mem0 (log w0) (start_entry clock self rid inp (ticks w0))).
  destruct (append mem0 (log w0) (start_entry clock self rid inp (ticks w0)))
    as [f1 [[mem1 o1]|ex]]; [|reflexivity].
  cbn [fst snd log ticks].
  change (AuditGate.evaluate (strict_audit self) (clock (S (ticks w0))) _)
    with (AuditGate.evaluate (strict_audit self) (clock (S (ticks w0))) (audit_ctx inp)).
  destruct (AuditGate.evaluate (strict_audit self) (clock (S (ticks w0))) (audit_ctx inp))
    as [r|ex]; [|reflexivity].
  cbn [fst snd log ticks].
  unfold later_entries. cbn [append_all].
  change (append mem1 f1 _)
    with (append mem1 f1 (entry_at clock rid "AUDIT_REPORT" (AuditGate.AuditReport_to_dict r)
                            (S (S (ticks w0))))).
  destruct (append mem1 f1 (entry_at clock rid "AUDIT_REPORT" (AuditGate.AuditReport_to_dict r)
                              (S (S (ticks w0)))))
    as [f2 [[mem2 o2]|ex]]; [|reflexivity].
  cbn [fst snd log ticks].
  destruct mc as [current|]; cbn [metrics_current inp app append_all fst snd log ticks].
  - change (append mem2 f2 _)
      with (append mem2 f2
              (entry_at clock rid "FALSIFIER_RESULT"
                 (FalsifierEngine.to_dict (falsifier_result clock self inp (ticks w0) current))
                 (S (S (S (S (ticks w0))))))).
    destruct (append mem2 f2
                (entry_at clock rid "FALSIFIER_RESULT"
                   (FalsifierEngine.to_dict (falsifier_result clock self inp (ticks w0) current))
                   (S (S (S (S (ticks w0)))))))
      as [f3 [[mem3 o3]|ex]]; [|reflexivity].
    cbn [fst snd log ticks].
    change (append mem3 f3 _)
      with (append mem3 f3 (end_entry clock self rid inp (ticks w0) r)).
    destruct (append mem3 f3 (end_entry clock self rid inp (ticks w0) r))
      as [f4 [[mem4 o4]|ex]]; reflexivity.
  - change (append mem2 f2 _)
      with (append mem2 f2 (end_entry clock self rid inp (ticks w0) r)).
    destruct (append mem2 f2 (end_entry clock self rid inp (ticks w0) r))
      as [f4 [[mem4 o4]|ex]]; reflexivity.
Qed.

End RunProps.

(** A stand-in for [round] in closed evaluations, which do not look at the
    scores. *)
Definition plain_num : PyNum := {| round_ndigits := fun f _ => f |}.

Module RunDemo.
Import Orchestrator.

Definition joinpath (a b : string) : string := (a ++ "/" ++ b)%string.
Definition clock (n : nat) : string := ("t" ++ string_of_nat n)%string.
Definition fresh : world := {| log := None; ticks := 0 |}.

(** A task and nothing else. *)
Definition task_only : RunInput :=
  {| task := "Reduce latency"; artifacts := []; metrics_current := None;
     metrics_baseline := None; window := "weekly"; domain := "unknown" |}.


(** The orchestrator of the demo. *)
Definition demo : orchestrator := init "runs" true true.

End RunDemo.

Section RunTheorems.
Context `{PyText} `{PyNum} `{PyIO}.
Variable joinpath : string -> string -> string.
Variable clock : nat -> string.
Import Orchestrator RunSpec SignedMemory LogSpec.


Lemma sealed_event (secret : option string) (e o : SignedEntry) :
  sealed secret e o -> event o = event e /\ run_id o = run_id e.
Proof. intros [Hr [He _]]. split; assumption. Qed.

Definition run_events (inp : RunInput) : list string :=
  "RUN_START" :: "AUDIT_REPORT"
  :: match metrics_current inp with
     | Some _ => ["FALSIFIER_RESULT"]
     | None => []
     end ++ ["RUN_END"].

Lemma planned_events (self : orchestrator) (rid : string) (inp : RunInput) (t0 : nat)
    (r : AuditGate.AuditReport) :
  map event (start_entry clock self rid inp t0 :: later_entries clock self rid inp t0 r)
  = run_events inp
  /\ Forall (fun e => run_id e = rid)
       (start_entry clock self rid inp t0 :: later_entries clock self rid inp t0 r).
Proof.
  unfold run_events, later_entries.
  destruct (metrics_current inp); cbn [app map]; split; try reflexivity;
    repeat (constructor; [reflexivity|]); constructor.
Qed.

Lemma sealed_events (secret : option string) (es outs : list SignedEntry) (rid : string) :
  Forall2 (sealed secret) es outs ->
  Forall (fun e => run_id e = rid) es ->
  map event outs = map event es /\ Forall (fun o => run_id o = rid) outs.
Proof.
  induction 1 as [|e o es outs Hs _ IH]; intro Hr; [split; constructor|].
  inversion Hr as [|? ? Hrid Hr']; subst.
  destruct (IH Hr') as [IH1 IH2]. destruct (sealed_event _ _ _ Hs) as [He Hi].
  split.
  - cbn [map]. rewrite He, IH1. reflexivity.
  - constructor; [rewrite Hi; reflexivity|exact IH2].
Qed.

(** What a call of [run] that returns has done. *)
Lemma run_returns_inv (self : orchestrator) (secret rid : string) (inp : RunInput)
    (w0 w1 : world) (res : RunResult) :
  run joinpath clock self secret rid inp w0 = (w1, Ok res) ->
  exists mem0 r outs,
    init secret (log w0) = Ok mem0
    /\ AuditGate.evaluate (strict_audit self) (clock (S (ticks w0))) (audit_ctx inp) = Ok r
    /\ res = result_of joinpath clock self rid inp (ticks w0) r
    /\ content (log w1) = (content (log w0) ++ written outs)%string
    /\ Forall2 (sealed (_secret mem0))
         (start_entry clock self rid inp (ticks w0)
          :: later_entries clock self rid inp (ticks w0) r) outs
    /\ numbered (_seq mem0) outs
    /\ chained (_prev_hash mem0) outs.
Proof.
  intro E.
  assert (Eo : outcome (run joinpath clock self secret rid inp w0) = (log w1, Ok res))
    by (rewrite E; reflexivity).
  rewrite run_outcome in Eo.
  destruct (init secret (log w0)) as [mem0|ex0] eqn:E0; [|discriminate].
  destruct (append mem0 (log w0) (start_entry clock self rid inp (ticks w0)))
    as [f1 [[mem1 o1]|ex]] eqn:E1; [|discriminate].
  destruct (AuditGate.evaluate (strict_audit self) (clock (S (ticks w0))) (audit_ctx inp))
    as [r|ex] eqn:Ea; [|discriminate].
  destruct (append_all mem1 f1 (later_entries clock self rid inp (ticks w0) r))
    as [f2 [[mem2 outs]|ex]] eqn:E2; [|discriminate].
  injection Eo as <- <-.
  apply append_ok in E1. destruct E1 as [-> [-> [Hs1 [Hp1 Hq1]]]].
  apply append_all_spec in E2. cbn [_secret _seq _prev_hash content] in E2.
  destruct E2 as [El [_ [_ [Hs2 [Hc2 Hn2]]]]].
  exists mem0, r, (o1 :: outs). split; [reflexivity|]. split; [reflexivity|].
  split; [reflexivity|]. split; [|split; [|split]].
  - rewrite El. cbn [written]. rewrite string_app_assoc. reflexivity.
  - constructor; assumption.
  - cbn [numbered]. split; assumption.
  - cbn [chained]. split; assumption.
Qed.

(** X19.  A call of [run] that returns has appended to the log of the run
    one entry per step and nothing else, each as its line and a newline at
    the end of the bytes of the file: RUN_START, AUDIT_REPORT, then
    FALSIFIER_RESULT when (and only when) current metrics were given (also
    after a failed audit), and RUN_END; all under the run id, numbered from
    where the [SignedMemory] opened on the log stood and each chained to the
    one before.  On the log of a new run, which does not exist yet, that is
    from [seq] 0 and the empty hash. *)
Theorem run_writes_one_entry_per_step (self : orchestrator) (secret rid : string)
    (inp : RunInput) (w0 w1 : world) (res : RunResult) :
  run joinpath clock self secret rid inp w0 = (w1, Ok res) ->
  exists mem0 outs,
    init secret (log w0) = Ok mem0
    /\ (log w0 = None -> _seq mem0 = 0%Z /\ _prev_hash mem0 = "")
    /\ content (log w1) = (content (log w0) ++ written outs)%string
    /\ map event outs = run_events inp
    /\ Forall (fun o => SignedMemory.run_id o = rid) outs
    /\ numbered (_seq mem0) outs
    /\ chained (_prev_hash mem0) outs
    /\ Orchestrator.run_id res = rid
    /\ run_dir res = joinpath (run_root self) rid.
Proof.
  intro E.
  destruct (run_returns_inv _ _ _ _ _ _ _ E)
    as [mem0 [r [outs [E0 [_ [-> [Hl [Hs [Hn Hc]]]]]]]]].
  exists mem0, outs. destruct (planned_events self rid inp (ticks w0) r) as [Hev Hid].
  destruct (sealed_events _ _ _ rid Hs Hid) as [He Hr].
  split; [exact E0|]. split.
  { intro En. rewrite En in E0. injection E0 as <-. split; reflexivity. }
  repeat split; try assumption; try reflexivity.
  rewrite He. exact Hev.
Qed.

Lemma final_status_cases (a f : string) :
  final_status_of (PStr a) (PStr f)
  = if a =? "FAIL" then "BLOCKED_BY_AUDIT"
    else if f =? "FALSIFIED" then "FALSIFIED_IN_MONITORING" else "PASS".
Proof. reflexivity. Qed.

(** X20.  The status of a run that returns: the audit verdict is PASS or
    FAIL and the falsifier verdict OK or FALSIFIED (OK when no current
    metrics were given); the final status is BLOCKED_BY_AUDIT when the audit
    failed, whatever the falsifier says, FALSIFIED_IN_MONITORING when the
    audit passed and the falsifier is FALSIFIED, and PASS otherwise. *)
Theorem run_final_status (self : orchestrator) (secret rid : string)
    (inp : RunInput) (w0 w1 : world) (res : RunResult) :
  run joinpath clock self secret rid inp w0 = (w1, Ok res) ->
  exists a f : string,
    audit_overall res = PStr a /\ falsifier_verdict res = PStr f
    /\ (a = "PASS" \/ a = "FAIL")
    /\ (f = "OK" \/ f = "FALSIFIED")
    /\ (metrics_current inp = None ->
        f = "OK" /\ get (outputs res) "falsifier_result" = PNone)
    /\ get (outputs res) "final_status"
       = PStr (if a =? "FAIL" then "BLOCKED_BY_AUDIT"
               else if f =? "FALSIFIED" then "FALSIFIED_IN_MONITORING" else "PASS")
    /\ get (outputs res) "artifacts"
       = PDict (_ensure_minimum_artifacts (task inp) (artifacts inp)).
Proof.
  intro E. destruct (run_returns_inv _ _ _ _ _ _ _ E) as [mem0 [r [outs [_ [Ea [-> _]]]]]].
  exists (AuditGate.overall_verdict r), (verdict_of_falsifier clock self inp (ticks w0)).
  split; [reflexivity|]. split; [reflexivity|].
  split; [|split; [|split; [|split]]].
  - destruct (overall_pass_or_fail _ _ _ _ Ea); auto.
  - unfold verdict_of_falsifier. destruct (metrics_current inp) as [current|]; [|auto].
    unfold falsifier_result.
    match goal with
    | |- ?v = "OK" \/ _ => destruct (String.eqb_spec v "FALSIFIED") as [Ef|Ef]
    end; [right; exact Ef|left; apply verdict_ok_otherwise; exact Ef].
  - intro En. unfold result_of, verdict_of_falsifier. rewrite En. split; reflexivity.
  - unfold result_of. cbn [outputs]. unfold final_status. rewrite final_status_cases.
    reflexivity.
  - reflexivity.
Qed.

(** X21.  The run of the module's own example, [run(RunInput(task=...))]
    with no document and no metrics: when it returns, the audit verdict is
    PASS and the final status PASS, unless the task is blank; then the audit
    fails and the run is BLOCKED_BY_AUDIT. *)
Theorem run_on_task_alone (self : orchestrator) (secret rid : string)
    (inp : RunInput) (w0 w1 : world) (res : RunResult) :
  run joinpath clock self secret rid inp w0 = (w1, Ok res) ->
  artifacts inp = [] ->
  audit_overall res = PStr (if isblank (task inp) then "FAIL" else "PASS")
  /\ (metrics_current inp = None ->
      falsifier_verdict res = PStr "OK"
      /\ get (outputs res) "final_status"
         = PStr (if isblank (task inp) then "BLOCKED_BY_AUDIT" else "PASS")).
Proof.
  intros E Ha. destruct (run_returns_inv _ _ _ _ _ _ _ E) as [mem0 [r [outs [_ [Ea [-> _]]]]]].
  assert (Ho : AuditGate.overall_verdict r
               = (if isblank (task inp) then "FAIL" else "PASS")).
  { unfold audit_ctx, bundle in Ea. rewrite Ha in Ea.
    exact (proj2 (seeded_verdicts _ _ _ _ _ Ea)). }
  split.
  - cbn [audit_overall result_of]. rewrite Ho. reflexivity.
  - intro En. unfold result_of, final_status, verdict_of_falsifier.
    cbn [falsifier_verdict outputs]. rewrite En, Ho. split; [reflexivity|].
    destruct (isblank (task inp)); reflexivity.
Qed.




End RunTheorems.

Lemma demo_run_returns :
  exists w1 res, @Orchestrator.run plain_text plain_num plain_io RunDemo.joinpath RunDemo.clock
      RunDemo.demo "s3cret" "r1" RunDemo.task_only RunDemo.fresh = (w1, Ok res).
Proof. eexists. eexists. vm_compute. reflexivity. Qed.


Lemma run_writes_one_entry_per_step_witness :
  exists w1 res outs,
    @Orchestrator.run plain_text plain_num plain_io RunDemo.joinpath RunDemo.clock
      RunDemo.demo "s3cret" "r1" RunDemo.task_only RunDemo.fresh = (w1, Ok res)
    /\ SignedMemory.content (Orchestrator.log w1) = @LogSpec.written plain_text outs
    /\ map SignedMemory.event outs = ["RUN_START"; "AUDIT_REPORT"; "RUN_END"]
    /\ LogSpec.numbered 0 outs /\ LogSpec.chained "" outs
    /\ Orchestrator.run_dir res = "runs/r1".
Proof.
  destruct demo_run_returns as [w1 [res E]].
  destruct (@run_writes_one_entry_per_step plain_text plain_num plain_io RunDemo.joinpath RunDemo.clock
              RunDemo.demo "s3cret" "r1" RunDemo.task_only
              RunDemo.fresh w1 res E)
    as [mem0 [outs [_ [H0 [Hl [He [_ [Hn [Hc [_ Hd]]]]]]]]]].
  destruct (H0 eq_refl) as [Hq Hp]. rewrite Hq in Hn. rewrite Hp in Hc.
  exists w1, res, outs. split; [exact E|]. split; [exact Hl|]. split; [exact He|].
  split; [exact Hn|]. split; [exact Hc|exact Hd].
Defined.

Lemma run_final_status_witness :
  exists w1 res (a f : string),
    @Orchestrator.run plain_text plain_num plain_io RunDemo.joinpath RunDemo.clock
      RunDemo.demo "s3cret" "r1" RunDemo.task_only RunDemo.fresh = (w1, Ok res)
    /\ Orchestrator.audit_overall res = PStr a
    /\ Orchestrator.falsifier_verdict res = PStr f
    /\ f = "OK"
    /\ get (Orchestrator.outputs res) "final_status"
       = PStr (if a =? "FAIL" then "BLOCKED_BY_AUDIT"
               else if f =? "FALSIFIED" then "FALSIFIED_IN_MONITORING" else "PASS").
Proof.
  destruct demo_run_returns as [w1 [res E]].
  destruct (@run_final_status plain_text plain_num plain_io RunDemo.joinpath RunDemo.clock
              RunDemo.demo "s3cret" "r1" RunDemo.task_only
              RunDemo.fresh w1 res E)
    as [a [f [Ha [Hf [_ [_ [Hn [Hs _]]]]]]]].
  exists w1, res, a, f. split; [exact E|]. split; [exact Ha|]. split; [exact Hf|].
  split; [exact (proj1 (Hn eq_refl))|exact Hs].
Defined.

Lemma run_on_task_alone_witness :
  exists w1 res,
    @Orchestrator.run plain_text plain_num plain_io RunDemo.joinpath RunDemo.clock
      RunDemo.demo "s3cret" "r1" RunDemo.task_only RunDemo.fresh = (w1, Ok res)
    /\ Orchestrator.audit_overall res = PStr "PASS"
    /\ get (Orchestrator.outputs res) "final_status" = PStr "PASS".
Proof.
  destruct demo_run_returns as [w1 [res E]].
  destruct (@run_on_task_alone plain_text plain_num plain_io RunDemo.joinpath RunDemo.clock
              RunDemo.demo "s3cret" "r1" RunDemo.task_only
              RunDemo.fresh w1 res E eq_refl)
    as [Ha Hn].
  exists w1, res. split; [exact E|]. split; [exact Ha|exact (proj2 (Hn eq_refl))].
Defined.

